(** * painttool.js: shape model, history machine and persistence codec

    A shallow embedding of [assets/js/painttool.js]: the seven shape classes
    with their [render] and [resize] methods, the [drawer] object with its
    event handlers, undo/redo, and the JSON save/load functions.

    JavaScript values are dynamically typed, and the program stores whatever a
    loaded file holds into the fields of a shape, so the fields of the model
    are values of the type [jsval] below.  A number is a double, held as
    the rational it is, or [NaN].  A sum, a difference and a half are
    rounded to the nearest double as the engine rounds them; they take the
    doubles nearest to their operands, so that a decimal that no double
    holds can be written for the double that the engine reads it as.  A
    comparison takes a number as it is written.  The infinities have no
    place in the model: a result beyond the largest double stays the number
    it is.  A conversion of a value to a number or to a string throws where
    the engine throws. *)

From Stdlib Require Import QArith Qabs Qround Qpower Ascii DecimalString.
From stdpp Require Import base list strings.
From Equations Require Import Equations.

Open Scope string_scope.
Open Scope list_scope.
Open Scope nat_scope.
Set Warnings "-register-all".

(** ** Numbers *)

Inductive num :=
| Fin (q : Q)
| NaN.

(** The integer nearest to [n / d], the even one of two that are as near. *)
Definition nearest_even (n d : Z) : Z :=
  let f := (n / d)%Z in
  match (2 * (n mod d) ?= d)%Z with
  | Lt => f
  | Gt => (f + 1)%Z
  | Eq => if Z.even f then f else (f + 1)%Z
  end.

(** The largest [e] with [2 ^ e <= q], for a positive [q]. *)
Definition exponent (q : Q) : Z :=
  let k := (Z.log2 (Qnum q) - Z.log2 (Zpos (Qden q)))%Z in
  if Qle_bool (2 ^ k) q then k else (k - 1)%Z.

(** The double nearest to a positive [q]: with 53 bits from the leading
    one, and none below [2 ^ -1074]. *)
Definition round_pos (q : Q) : Q :=
  let u := Z.max (exponent q - 52) (-1074) in
  let s := (q * 2 ^ (- u))%Q in
  (inject_Z (nearest_even (Qnum s) (Zpos (Qden s))) * 2 ^ u)%Q.

(** The double nearest to [q], as the operations of the engine round their
    results: to the nearest, and to the one with an even last bit of two
    that are as near. *)
Definition nearest_double (q : Q) : Q :=
  match Qnum q with
  | Z0 => 0%Q
  | Zpos _ => Qred (round_pos q)
  | Zneg _ => Qred (- round_pos (- q))
  end.

(** The operations that round, on the doubles that the operands stand for,
    and the ones whose result is an operand. *)
Definition nround2 (f : Q -> Q -> Q) (a b : num) : num :=
  match a, b with
  | Fin x, Fin y => Fin (nearest_double (f (nearest_double x) (nearest_double y)))
  | _, _ => NaN
  end.

Definition nlift2 (f : Q -> Q -> Q) (a b : num) : num :=
  match a, b with
  | Fin x, Fin y => Fin (Qred (f x y))
  | _, _ => NaN
  end.

Definition nadd : num -> num -> num := nround2 Qplus.
Definition nsub : num -> num -> num := nround2 Qminus.
Definition nmax : num -> num -> num :=
  nlift2 (fun x y => if Qle_bool x y then y else x).

Definition nabs (a : num) : num :=
  match a with Fin x => Fin (Qred (Qabs x)) | NaN => NaN end.

Definition nhalf (a : num) : num :=
  match a with Fin x => Fin (nearest_double (nearest_double x / 2)) | NaN => NaN end.

Definition of_nat (n : nat) : num := Fin (inject_Z (Z.of_nat n)).
Definition of_Z (z : Z) : num := Fin (inject_Z z).

(** The numbers that a double holds: [m * 2 ^ e] with a mantissa [m] below
    [2 ^ 53] in absolute value and an exponent [e] from -1074 to 971. *)
Definition double (q : Q) : Prop :=
  exists m e : Z,
    (Z.abs m < 2 ^ 53)%Z /\ (-1074 <= e <= 971)%Z /\ (q == inject_Z m * 2 ^ e)%Q.

(** The half of an integer. *)
Definition half_of_Z (z : Z) : num := Fin (Qred (z # 2)).

(** The number of rounds of [for (j = 0; j < n; j++)]: a comparison with
    [NaN] is false. *)
Definition loop_count (n : num) : nat :=
  match n with
  | Fin q => Z.to_nat (Qceiling q)
  | NaN => 0
  end.

(** ** Values *)

(** [VArr] and [VObj] are arrays and plain objects that the program never
    writes into after they were created (what [JSON.parse] returns, and the
    object literals of the handlers), so they are represented by their
    contents.  The one settings object the program assigns into is
    [drawer.settings]; [VAmbient] is a reference to it, read through the
    current state.  These are the values that an event or the text of a
    file brings into the program: no function is among them, no symbol and
    no big integer. *)
Inductive jsval :=
| VUndef
| VNull
| VBool (b : bool)
| VNum (n : num)
| VStr (s : string)
| VArr (elems : list jsval)
| VObj (props : list (string * jsval))
| VAmbient.

(** An exception ends the running handler.  The ones this program can meet
    are the [TypeError] of reading a property of [undefined] or [null], the
    [TypeError] of converting an object that has no primitive value, and
    the [IndexSizeError] of [ctx.ellipse] for a negative radius. *)
Inductive result (A : Type) :=
| Ok (a : A)
| Throw.
Arguments Ok {A} a.
Arguments Throw {A}.

Definition rbind {A B} (r : result A) (k : A -> result B) : result B :=
  match r with
  | Ok a => k a
  | Throw => Throw
  end.

Notation "'do' x <- r ; k" := (rbind r (fun x => k))
  (at level 10, x name, r at level 100, k at level 200).

Fixpoint assoc (k : string) (props : list (string * jsval)) : jsval :=
  match props with
  | [] => VUndef
  | (k', v) :: rest => if String.eqb k k' then v else assoc k rest
  end.

(** [o[k] = v] on the properties of an object: an existing property keeps
    its place, a new one goes last. *)
Fixpoint set_prop (k : string) (v : jsval) (props : list (string * jsval))
  : list (string * jsval) :=
  match props with
  | [] => [(k, v)]
  | (k', v') :: rest =>
      if String.eqb k k' then (k, v) :: rest else (k', v') :: set_prop k v rest
  end.

Definition index_key (j : nat) : string :=
  NilZero.string_of_uint (Nat.to_uint j).

(** *** Strings

    A string of the program is a sequence of UTF-16 code units, and its
    [length] and its indices count them.  The model holds a string as the
    bytes of its text in UTF-8, a lone surrogate taking the three bytes of
    its number.  A character of one, two or three bytes is one code unit; a
    character of four bytes is two, a pair of surrogates.  A byte that
    starts or continues no character counts as a code unit by itself. *)
Definition continues (c : Ascii.ascii) : bool :=
  let n := Ascii.N_of_ascii c in ((128 <=? n) && (n <? 192))%N.

(** The six bits that a continuation byte holds. *)
Definition low_bits (c : Ascii.ascii) : N := (Ascii.N_of_ascii c mod 64)%N.

(** The three bytes of the code unit [u]. *)
Definition unit_text (u : N) : string :=
  String (Ascii.ascii_of_N (224 + u / 4096))
    (String (Ascii.ascii_of_N (128 + (u / 64) mod 64))
       (String (Ascii.ascii_of_N (128 + u mod 64)) EmptyString)).

(** The two code units of the character of the four bytes [a], [b], [c],
    [e]: the surrogates of its number less 0x10000. *)
Definition surrogates (a b c e : Ascii.ascii) : list string :=
  let point :=
    ((Ascii.N_of_ascii a mod 8) * 262144 + low_bits b * 4096
     + low_bits c * 64 + low_bits e)%N in
  let rest := (point - 65536)%N in
  [unit_text (55296 + rest / 1024); unit_text (56320 + rest mod 1024)].

Fixpoint code_units (s : string) : list string :=
  match s with
  | EmptyString => []
  | String a r =>
      let n := Ascii.N_of_ascii a in
      if (n <? 192)%N then String a EmptyString :: code_units r
      else if (n <? 224)%N then
        match r with
        | String b r1 =>
            if continues b
            then String a (String b EmptyString) :: code_units r1
            else String a EmptyString :: code_units r
        | EmptyString => String a EmptyString :: code_units r
        end
      else if (n <? 240)%N then
        match r with
        | String b (String c r2) =>
            if continues b && continues c
            then String a (String b (String c EmptyString)) :: code_units r2
            else String a EmptyString :: code_units r
        | _ => String a EmptyString :: code_units r
        end
      else if (n <? 248)%N then
        match r with
        | String b (String c (String e r3)) =>
            if continues b && continues c && continues e
            then surrogates a b c e ++ code_units r3
            else String a EmptyString :: code_units r
        | _ => String a EmptyString :: code_units r
        end
      else String a EmptyString :: code_units r
  end.

(** [s.length] *)
Definition js_length (s : string) : nat := length (code_units s).

(** [s[j]] *)
Definition char_at (s : string) (j : nat) : jsval :=
  match code_units s !! j with
  | Some u => VStr u
  | None => VUndef
  end.

(** The settings of the drawer, [drawer.settings]. *)
Record Settings := {
  color : string;
  filled : bool;
  width : num;
  font : string;
}.

Definition settings_props (s : Settings) : list (string * jsval) :=
  [("color", VStr (color s)); ("filled", VBool (filled s));
   ("width", VNum (width s)); ("font", VStr (font s))].

(** [v.k] *)
Definition get (amb : Settings) (v : jsval) (k : string) : result jsval :=
  match v with
  | VUndef | VNull => Throw
  | VBool _ | VNum _ => Ok VUndef
  | VStr s =>
      Ok (if String.eqb k "length" then VNum (of_nat (js_length s)) else VUndef)
  | VArr l =>
      Ok (if String.eqb k "length" then VNum (of_nat (length l)) else VUndef)
  | VObj props => Ok (assoc k props)
  | VAmbient => Ok (assoc k (settings_props amb))
  end.

(** [v[j]] for a loop counter [j]. *)
Definition get_index (amb : Settings) (v : jsval) (j : nat) : result jsval :=
  match v with
  | VUndef | VNull => Throw
  | VBool _ | VNum _ => Ok VUndef
  | VStr s => Ok (char_at s j)
  | VArr l => Ok (default VUndef (l !! j))
  | VObj props => Ok (assoc (index_key j) props)
  | VAmbient => Ok VUndef
  end.

(** Truthiness, as tested by [if (v)]. *)
Definition truthy (v : jsval) : bool :=
  match v with
  | VUndef | VNull => false
  | VBool b => b
  | VNum (Fin q) => negb (Qeq_bool q 0)
  | VNum NaN => false
  | VStr s => negb (String.eqb s "")
  | VArr _ | VObj _ | VAmbient => true
  end.

(** [k in o] on the properties of an object. *)
Definition has_key (k : string) (props : list (string * jsval)) : bool :=
  existsb (fun kv => String.eqb k (fst kv)) props.

(** A value that the engine can convert neither to a string nor to a
    number.  An object converts by the methods [valueOf] and [toString] of
    its prototype, an array by [toString], which joins the strings of its
    elements.  No value of a file is a function, so a property named
    [toString] of the object itself ([{"toString": 1}]) stands in the way of
    the method, and the conversion throws a [TypeError]. *)
Fixpoint unprintable (v : jsval) : bool :=
  match v with
  | VObj props => has_key "toString" props
  | VArr l => existsb unprintable l
  | _ => false
  end.

(** The property [k] of [v], where it can be read, converts. *)
Definition reads_printable (amb : Settings) (v : jsval) (k : string) : Prop :=
  forall v', get amb v k = Ok v' -> unprintable v' = false.

(** [v === s] for a string literal [s], and [v === 1]. *)
Definition is_string (v : jsval) (s : string) : bool :=
  match v with
  | VStr s' => String.eqb s' s
  | _ => false
  end.

Definition is_one (v : jsval) : bool :=
  match v with
  | VNum (Fin q) => Qeq_bool q 1
  | _ => false
  end.

(** ** An engine to compute with

    It reads a string of decimal digits as the number it spells, the empty
    string as 0, and prints an integer in decimal; any other string is
    [NaN] to it and any other number prints as "NaN".  It serves the
    instances at the end of the file: the strings that they convert to a
    number are names of keys and words, which no engine reads as a number,
    and they print no number. *)
Definition digits_to_number (s : string) : num :=
  match NilEmpty.uint_of_string s with
  | Some u => of_nat (Nat.of_uint u)
  | None => NaN
  end.

Definition integer_to_digits (n : num) : string :=
  match n with
  | Fin q =>
      if (Qden (Qred q) =? 1)%positive
      then NilZero.string_of_int (Z.to_int (Qnum (Qred q)))
      else "NaN"
  | NaN => "NaN"
  end.

(** ** Coercions

    What the engine makes of a string where a number is expected
    ([StringToNumber]), and how it prints a number ([NumberToString]), are
    left open: the model and its properties hold for every choice of the two
    functions.

    An array and a plain object convert by the methods of their prototype,
    the object to "[object Object]" and the array to its elements joined by
    commas; a conversion throws for a value that is [unprintable].
    [string_of], [primitive_of] and [number_of] are what a value converts
    to when it converts. *)
Section Engine.

Variable StringToNumber : string -> num.
Variable NumberToString : num -> string.

Fixpoint string_of (v : jsval) : string :=
  match v with
  | VUndef => "undefined"
  | VNull => "null"
  | VBool true => "true"
  | VBool false => "false"
  | VNum n => NumberToString n
  | VStr s => s
  | VArr l =>
      String.concat ","
        (map (fun e => match e with
                       | VUndef | VNull => ""
                       | _ => string_of e
                       end) l)
  | VObj _ | VAmbient => "[object Object]"
  end.

Definition primitive_of (v : jsval) : jsval :=
  match v with
  | VArr _ | VObj _ | VAmbient => VStr (string_of v)
  | _ => v
  end.

Definition number_of (v : jsval) : num :=
  match v with
  | VUndef => NaN
  | VNull => Fin 0
  | VBool true => Fin 1
  | VBool false => Fin 0
  | VNum n => n
  | VStr s => StringToNumber s
  | VArr _ | VObj _ | VAmbient => StringToNumber (string_of v)
  end.

Definition ToString (v : jsval) : result string :=
  if unprintable v then Throw else Ok (string_of v).

Definition ToPrimitive (v : jsval) : result jsval :=
  if unprintable v then Throw else Ok (primitive_of v).

Definition ToNumber (v : jsval) : result num :=
  if unprintable v then Throw else Ok (number_of v).

(** [Array.prototype.join]: an element that is [undefined] or [null] gives
    the empty string, any other one is converted. *)
Definition join (sep : string) (l : list jsval) : result string :=
  if existsb unprintable l then Throw
  else Ok (String.concat sep
             (map (fun e => match e with
                            | VUndef | VNull => ""
                            | _ => string_of e
                            end) l)).

(** [a + b], [a - b], [a / 2], [Math.abs(a)], [Math.max(a, b)]: the
    operands are converted from left to right. *)
Definition js_add (a b : jsval) : result jsval :=
  do pa <- ToPrimitive a;
  do pb <- ToPrimitive b;
  Ok (match pa, pb with
      | VStr s, _ => VStr (s +:+ string_of pb)
      | _, VStr s => VStr (string_of pa +:+ s)
      | _, _ => VNum (nadd (number_of pa) (number_of pb))
      end).

Definition js_sub (a b : jsval) : result jsval :=
  do x <- ToNumber a;
  do y <- ToNumber b;
  Ok (VNum (nsub x y)).

Definition js_half (a : jsval) : result jsval :=
  do x <- ToNumber a;
  Ok (VNum (nhalf x)).

Definition Math_abs (a : jsval) : result jsval :=
  do x <- ToNumber a;
  Ok (VNum (nabs x)).

Definition Math_max (a b : jsval) : result jsval :=
  do x <- ToNumber a;
  do y <- ToNumber b;
  Ok (VNum (nmax x y)).

(** ** The canvas

    The drawing surface is the list of the calls and assignments made on the
    2d context since the canvas was last wiped, with the values passed. *)
Inductive cmd :=
| SetGlobalCompositeOperation (v : string)
| SetFillStyle (v : jsval)
| SetStrokeStyle (v : jsval)
| SetLineWidth (v : jsval)
| SetFont (v : jsval)
| FillRect (x y w h : jsval)
| StrokeRect (x y w h : jsval)
| BeginPath
| MoveTo (x y : jsval)
| LineTo (x y : jsval)
| Ellipse (x y radiusX radiusY : jsval)
| QuadraticCurveTo (cpx cpy x y : jsval)
| Fill
| Stroke
| ClosePath
| FillText (text : string) (x y : jsval).

Inductive outcome :=
| Normal
| Thrown.

(** A method body that paints is a sequence of statements; a statement
    evaluates its arguments, which may throw, and then makes its calls. *)
Definition stmt := result (list cmd).

Fixpoint run (body : list stmt) : list cmd * outcome :=
  match body with
  | [] => ([], Normal)
  | Throw :: _ => ([], Thrown)
  | Ok cs :: rest => let '(cs', o) := run rest in (cs ++ cs', o)
  end.

(** The context converts the arguments of a call to doubles, from left to
    right, and a colour or a font that is assigned to a string, before it
    does anything else. *)
Fixpoint doubles (args : list jsval) : result unit :=
  match args with
  | [] => Ok tt
  | v :: rest => do _ <- ToNumber v; doubles rest
  end.

Definition DOMString (v : jsval) : result unit :=
  do _ <- ToString v; Ok tt.

(** ** Shapes *)

Inductive Shape :=
| Rectangle (position settings width height : jsval)
| Oval (position settings xRadius yRadius x y : jsval)
| Circle (position settings xRadius yRadius x y : jsval)
| Line (position settings endPosition_x endPosition_y : jsval)
| LineList (position settings : jsval) (xList yList : list jsval)
| EraseList (position settings : jsval) (xList yList : list jsval)
| DrawnText (position settings : jsval) (chars : list jsval).

Definition position_of (sh : Shape) : jsval :=
  match sh with
  | Rectangle p _ _ _ | Oval p _ _ _ _ _ | Circle p _ _ _ _ _ | Line p _ _ _
  | LineList p _ _ _ | EraseList p _ _ _ | DrawnText p _ _ => p
  end.

Definition settings_of (sh : Shape) : jsval :=
  match sh with
  | Rectangle _ s _ _ | Oval _ s _ _ _ _ | Circle _ s _ _ _ _ | Line _ s _ _
  | LineList _ s _ _ | EraseList _ s _ _ | DrawnText _ s _ => s
  end.

(** [sh.__proto__.constructor.name] *)
Definition constructor_name (sh : Shape) : string :=
  match sh with
  | Rectangle _ _ _ _ => "Rectangle"
  | Oval _ _ _ _ _ _ => "Oval"
  | Circle _ _ _ _ _ _ => "Circle"
  | Line _ _ _ _ => "Line"
  | LineList _ _ _ _ => "LineList"
  | EraseList _ _ _ _ => "EraseList"
  | DrawnText _ _ _ => "DrawnText"
  end.

(** The own properties of a shape object, in the order the constructors
    assign them. *)
Definition own_props (sh : Shape) : list (string * jsval) :=
  match sh with
  | Rectangle p s w h =>
      [("position", p); ("settings", s); ("width", w); ("height", h)]
  | Oval p s xr yr x y | Circle p s xr yr x y =>
      [("position", p); ("settings", s); ("xRadius", xr); ("yRadius", yr);
       ("x", x); ("y", y)]
  | Line p s ex ey =>
      [("position", p); ("settings", s);
       ("endPosition", VObj [("x", ex); ("y", ey)])]
  | LineList p s xs ys | EraseList p s xs ys =>
      [("position", p); ("settings", s); ("xList", VArr xs); ("yList", VArr ys)]
  | DrawnText p s cs =>
      [("position", p); ("settings", s); ("chars", VArr cs)]
  end.

Section Methods.

(** The state of [drawer.settings] at the time of the call. *)
Variable amb : Settings.

(** *** Constructors *)

Definition new_Rectangle (position settings width height : jsval) : result Shape :=
  Ok (Rectangle position settings width height).

Definition new_Oval (position settings xRadius yRadius : jsval) : result Shape :=
  do x <- get amb position "x";
  do y <- get amb position "y";
  Ok (Oval position settings xRadius yRadius x y).

Definition new_Circle (position settings radius : jsval) : result Shape :=
  do x <- get amb position "x";
  do y <- get amb position "y";
  Ok (Circle position settings radius radius x y).

Definition new_Line (startPosition settings endPosition : jsval) : result Shape :=
  do x <- get amb endPosition "x";
  do y <- get amb endPosition "y";
  Ok (Line startPosition settings x y).

Definition new_LineList (position settings : jsval) : result Shape :=
  Ok (LineList position settings [] []).

Definition new_EraseList (position settings : jsval) : result Shape :=
  Ok (EraseList position settings [] []).

Definition new_DrawnText (position settings : jsval) : result Shape :=
  Ok (DrawnText position settings []).

(** *** resize

    A method that throws half way leaves the assignments made so far in
    the object: [resize] returns the object as the call left it. *)

Definition Rectangle_resize (this : Shape) (x y : jsval) : Shape * outcome :=
  match this with
  | Rectangle p s w h =>
      match (do px <- get amb p "x"; js_sub x px) with
      | Throw => (this, Thrown)
      | Ok w' =>
          match (do py <- get amb p "y"; js_sub y py) with
          | Throw => (Rectangle p s w' h, Thrown)
          | Ok h' => (Rectangle p s w' h', Normal)
          end
      end
  | _ => (this, Normal)
  end.

(** [Math.abs(v - p.k)] and [Math.abs(v - p.k) / 2] *)
Definition distance (v p : jsval) (k : string) : result jsval :=
  do pk <- get amb p k;
  do d <- js_sub v pk;
  Math_abs d.

Definition half_distance (v p : jsval) (k : string) : result jsval :=
  do a <- distance v p k;
  js_half a.

Definition Oval_resize (this : Shape) (x y : jsval) : Shape * outcome :=
  match this with
  | Oval p s xr yr _ _ =>
      match half_distance x p "x" with
      | Throw => (Oval p s xr yr x y, Thrown)
      | Ok xr' =>
          match half_distance y p "y" with
          | Throw => (Oval p s xr' yr x y, Thrown)
          | Ok yr' => (Oval p s xr' yr' x y, Normal)
          end
      end
  | _ => (this, Normal)
  end.

Definition Circle_resize (this : Shape) (x y : jsval) : Shape * outcome :=
  match this with
  | Circle p s xr yr _ _ =>
      match (do dx <- distance x p "x";
             do dy <- distance y p "y";
             do m <- Math_max dx dy;
             js_half m) with
      | Throw => (Circle p s xr yr x y, Thrown)
      | Ok radius => (Circle p s radius radius x y, Normal)
      end
  | _ => (this, Normal)
  end.

Definition Line_resize (this : Shape) (x y : jsval) : Shape * outcome :=
  match this with
  | Line p s _ _ => (Line p s x y, Normal)
  | _ => (this, Normal)
  end.

Definition LineList_resize (this : Shape) (x y : jsval) : Shape * outcome :=
  match this with
  | LineList p s xs ys => (LineList p s (xs ++ [x]) (ys ++ [y]), Normal)
  | _ => (this, Normal)
  end.

Definition EraseList_resize (this : Shape) (x y : jsval) : Shape * outcome :=
  match this with
  | EraseList p s xs ys => (EraseList p s (xs ++ [x]) (ys ++ [y]), Normal)
  | _ => (this, Normal)
  end.

Definition DrawnText_resize (this : Shape) (key : jsval) : Shape * outcome :=
  match this with
  | DrawnText p s chars =>
      if is_string key "Backspace" then
        if 0 <? length chars
        then (DrawnText p s (removelast chars), Normal)
        else (this, Normal)
      else
        match get amb key "length" with
        | Throw => (this, Thrown)
        | Ok len =>
            if is_one len
            then (DrawnText p s (chars ++ [key]), Normal)
            else (this, Normal)
        end
  | _ => (this, Normal)
  end.

(** [this.resize(a, b)]: the method of the class of [this]. *)
Definition resize (this : Shape) (a b : jsval) : Shape * outcome :=
  match this with
  | Rectangle _ _ _ _ => Rectangle_resize this a b
  | Oval _ _ _ _ _ _ => Oval_resize this a b
  | Circle _ _ _ _ _ _ => Circle_resize this a b
  | Line _ _ _ _ => Line_resize this a b
  | LineList _ _ _ _ => LineList_resize this a b
  | EraseList _ _ _ _ => EraseList_resize this a b
  | DrawnText _ _ _ => DrawnText_resize this a
  end.

(** *** render *)

(** [a[i]], [undefined] past the end. *)
Definition item (a : list jsval) (i : nat) : jsval := default VUndef (a !! i).

Definition inspect {A} (a : A) : {b : A | a = b} := exist _ a eq_refl.

(** [ctx.quadraticCurveTo(cpx, cpy, x, y)] *)
Definition ctx_quadraticCurveTo (cpx cpy x y : jsval) : stmt :=
  do _ <- doubles [cpx; cpy; x; y];
  Ok [QuadraticCurveTo cpx cpy x y].

(** [(a + b) / 2] *)
Definition middle (a b : jsval) : result jsval :=
  do s <- js_add a b;
  js_half s.

(** The statements of round [i] of the smoothing loop when it does not
    break. *)
Definition interior (xList yList : list jsval) (i : nat) : stmt :=
  do center_x <- middle (item xList i) (item xList (i + 1));
  do center_y <- middle (item yList i) (item yList (i + 1));
  ctx_quadraticCurveTo (item xList i) (item yList i) center_x center_y.

(** The loop of [LineList.render] and [EraseList.render]:
    [for (let i = 0; ; i++) { if (i > this.xList.length - 1) { ...; break; } ... }] *)
Equations? smooth_loop (xList yList : list jsval) (i : nat) : list stmt
  by wf (S (length xList) - i) lt :=
  smooth_loop xList yList i
    with inspect (Z.of_nat (length xList) - 1 <? Z.of_nat i)%Z := {
    | exist _ true _ =>
        [ctx_quadraticCurveTo (item xList i) (item yList i)
                              (item xList (i + 1)) (item yList (i + 1))]
    | exist _ false _ =>
        interior xList yList i :: smooth_loop xList yList (S i) }.
Proof. apply Z.ltb_ge in e. lia. Qed.

Definition Shape_render (this : Shape) : list stmt :=
  [ (do c <- get amb (settings_of this) "color";
     do _ <- DOMString c; Ok [SetFillStyle c]);
    (do c <- get amb (settings_of this) "color";
     do _ <- DOMString c; Ok [SetStrokeStyle c]);
    (do w <- get amb (settings_of this) "width";
     do _ <- doubles [w]; Ok [SetLineWidth w]);
    (do f <- get amb (settings_of this) "font";
     do _ <- DOMString f; Ok [SetFont f]) ].

Definition Rectangle_render (this : Shape) : list stmt :=
  match this with
  | Rectangle p s w h =>
      [Ok [SetGlobalCompositeOperation "source-over"]]
      ++ Shape_render this
      ++ [ (do f <- get amb s "filled";
            do px <- get amb p "x";
            do py <- get amb p "y";
            do _ <- doubles [px; py; w; h];
            Ok [if truthy f then FillRect px py w h else StrokeRect px py w h]) ]
  | _ => []
  end.

(** [ctx.ellipse(x, y, radiusX, radiusY, 0, 0, 2 * Math.PI)]: with the
    arguments converted, the canvas returns at once when one is not finite,
    and throws when a radius is negative. *)
Definition ctx_ellipse (x y radiusX radiusY : jsval) : stmt :=
  do nx <- ToNumber x;
  do ny <- ToNumber y;
  do nrx <- ToNumber radiusX;
  do nry <- ToNumber radiusY;
  match nx, ny, nrx, nry with
  | Fin _, Fin _, Fin rx, Fin ry =>
      if Qle_bool 0 rx && Qle_bool 0 ry
      then Ok [Ellipse x y radiusX radiusY]
      else Throw
  | _, _, _, _ => Ok [Ellipse x y radiusX radiusY]
  end.

(** Of [Oval]; [Circle] inherits it. *)
Definition Oval_render (this : Shape) : list stmt :=
  match this with
  | Oval p s xr yr x y | Circle p s xr yr x y =>
      [Ok [SetGlobalCompositeOperation "source-over"]]
      ++ Shape_render this
      ++ [ Ok [BeginPath];
           (do px <- get amb p "x";
            do c_x <- middle px x;
            do py <- get amb p "y";
            do c_y <- middle py y;
            ctx_ellipse c_x c_y xr yr);
           (do f <- get amb s "filled";
            Ok (if truthy f then [Fill] else [Stroke; ClosePath])) ]
  | _ => []
  end.

(** [ctx.moveTo(this.position.x, this.position.y)] *)
Definition ctx_moveTo (p : jsval) : stmt :=
  do px <- get amb p "x";
  do py <- get amb p "y";
  do _ <- doubles [px; py];
  Ok [MoveTo px py].

Definition Line_render (this : Shape) : list stmt :=
  match this with
  | Line p s ex ey =>
      [Ok [SetGlobalCompositeOperation "source-over"]]
      ++ Shape_render this
      ++ [ Ok [BeginPath];
           ctx_moveTo p;
           (do _ <- doubles [ex; ey]; Ok [LineTo ex ey]);
           Ok [Stroke];
           Ok [ClosePath] ]
  | _ => []
  end.

Definition LineList_render (this : Shape) : list stmt :=
  match this with
  | LineList p s xs ys =>
      [Ok [SetGlobalCompositeOperation "source-over"]]
      ++ Shape_render this
      ++ [ Ok [BeginPath];
           ctx_moveTo p ]
      ++ smooth_loop xs ys 0
      ++ [ Ok [Stroke];
           Ok [ClosePath] ]
  | _ => []
  end.

Definition EraseList_render (this : Shape) : list stmt :=
  match this with
  | EraseList p s xs ys =>
      Shape_render this
      ++ [ Ok [BeginPath];
           Ok [SetGlobalCompositeOperation "destination-out"];
           ctx_moveTo p ]
      ++ smooth_loop xs ys 0
      ++ [ Ok [Stroke];
           Ok [ClosePath] ]
  | _ => []
  end.

Definition DrawnText_render (this : Shape) : list stmt :=
  match this with
  | DrawnText p s chars =>
      [Ok [SetGlobalCompositeOperation "source-over"]]
      ++ Shape_render this
      ++ [ (do f <- get amb s "filled";
            do joined <- join "" chars;
            do px <- get amb p "x";
            do py <- get amb p "y";
            do _ <- doubles [px; py];
            Ok [if truthy f then FillText joined px py else FillText joined px py]) ]
  | _ => []
  end.

(** [this.render(ctx)]: the method of the class of [this]. *)
Definition render (this : Shape) : list stmt :=
  match this with
  | Rectangle _ _ _ _ => Rectangle_render this
  | Oval _ _ _ _ _ _ | Circle _ _ _ _ _ _ => Oval_render this
  | Line _ _ _ _ => Line_render this
  | LineList _ _ _ _ => LineList_render this
  | EraseList _ _ _ _ => EraseList_render this
  | DrawnText _ _ _ => DrawnText_render this
  end.

End Methods.

(** ** The drawer

    Shape objects are mutable and can be reached both from
    [drawer.selectedElement] and from the arrays, so they live in a store:
    a reference is an index into [objects], [new] appends.  An entry of
    [shapes] or [undoneShapes] is a reference or [null]. *)
Definition ref := nat.

(** The items of [#shape-list] in the page, in the order of the document,
    and their [data-shape]. *)
Inductive shape_item :=
| li_rectangle | li_oval | li_circle | li_line | li_lineList | li_text.

Definition shape_list : list shape_item :=
  [li_rectangle; li_oval; li_circle; li_line; li_lineList; li_text].

Definition dataset_shape (elem : shape_item) : string :=
  match elem with
  | li_rectangle => "rectangle"
  | li_oval => "oval"
  | li_circle => "circle"
  | li_line => "line"
  | li_lineList => "lineList"
  | li_text => "text"
  end.

Definition same_item (a b : shape_item) : bool :=
  String.eqb (dataset_shape a) (dataset_shape b).


Record Drawer := {
  objects : list Shape;
  shapes : list (option ref);
  undoneShapes : list (option ref);
  selectedShape : string;
  selectedElement : option ref;
  settings : Settings;
  (** [filled.dataset["filled"]]: [true] for "yes" *)
  fill_toggle : bool;
  (** the items of the shape list that have the class "active" *)
  active : list shape_item;
  (** what was drawn on [drawer.ctx] since the canvas was wiped *)
  canvas : list cmd;
}.

Definition with_objects (d : Drawer) (o : list Shape) : Drawer :=
  {| objects := o; shapes := shapes d; undoneShapes := undoneShapes d;
     selectedShape := selectedShape d; selectedElement := selectedElement d;
     settings := settings d; fill_toggle := fill_toggle d; active := active d;
     canvas := canvas d |}.

Definition with_shapes (d : Drawer) (l : list (option ref)) : Drawer :=
  {| objects := objects d; shapes := l; undoneShapes := undoneShapes d;
     selectedShape := selectedShape d; selectedElement := selectedElement d;
     settings := settings d; fill_toggle := fill_toggle d; active := active d;
     canvas := canvas d |}.

Definition with_undoneShapes (d : Drawer) (l : list (option ref)) : Drawer :=
  {| objects := objects d; shapes := shapes d; undoneShapes := l;
     selectedShape := selectedShape d; selectedElement := selectedElement d;
     settings := settings d; fill_toggle := fill_toggle d; active := active d;
     canvas := canvas d |}.

Definition with_selectedShape (d : Drawer) (t : string) : Drawer :=
  {| objects := objects d; shapes := shapes d; undoneShapes := undoneShapes d;
     selectedShape := t; selectedElement := selectedElement d;
     settings := settings d; fill_toggle := fill_toggle d; active := active d;
     canvas := canvas d |}.

Definition with_selectedElement (d : Drawer) (e : option ref) : Drawer :=
  {| objects := objects d; shapes := shapes d; undoneShapes := undoneShapes d;
     selectedShape := selectedShape d; selectedElement := e;
     settings := settings d; fill_toggle := fill_toggle d; active := active d;
     canvas := canvas d |}.

Definition with_settings (d : Drawer) (s : Settings) : Drawer :=
  {| objects := objects d; shapes := shapes d; undoneShapes := undoneShapes d;
     selectedShape := selectedShape d; selectedElement := selectedElement d;
     settings := s; fill_toggle := fill_toggle d; active := active d;
     canvas := canvas d |}.

Definition with_fill_toggle (d : Drawer) (b : bool) : Drawer :=
  {| objects := objects d; shapes := shapes d; undoneShapes := undoneShapes d;
     selectedShape := selectedShape d; selectedElement := selectedElement d;
     settings := settings d; fill_toggle := b; active := active d;
     canvas := canvas d |}.

Definition with_active (d : Drawer) (l : list shape_item) : Drawer :=
  {| objects := objects d; shapes := shapes d; undoneShapes := undoneShapes d;
     selectedShape := selectedShape d; selectedElement := selectedElement d;
     settings := settings d; fill_toggle := fill_toggle d; active := l;
     canvas := canvas d |}.

Definition with_canvas (d : Drawer) (c : list cmd) : Drawer :=
  {| objects := objects d; shapes := shapes d; undoneShapes := undoneShapes d;
     selectedShape := selectedShape d; selectedElement := selectedElement d;
     settings := settings d; fill_toggle := fill_toggle d; active := active d;
     canvas := c |}.

Definition set_color (s : Settings) (v : string) : Settings :=
  {| color := v; filled := filled s; width := width s; font := font s |}.
Definition set_filled (s : Settings) (v : bool) : Settings :=
  {| color := color s; filled := v; width := width s; font := font s |}.
Definition set_width (s : Settings) (v : num) : Settings :=
  {| color := color s; filled := filled s; width := v; font := font s |}.
Definition set_font (s : Settings) (v : string) : Settings :=
  {| color := color s; filled := filled s; width := width s; font := v |}.

(** The [drawer] literal, with the attribute [data-filled="no"] of the
    fill toggle in the page.  No item of the shape list has the class
    "active": the item of the pencil is written
    [<li class="nav-item-paintme" class="active" data-shape="lineList">],
    and of two attributes of one name the parser keeps the first. *)
Definition drawer0 : Drawer :=
  {| objects := [];
     shapes := [];
     undoneShapes := [];
     selectedShape := "lineList";
     selectedElement := None;
     settings := {| color := "#000000"; filled := false;
                    width := of_Z 10; font := "36pt sans-serif" |};
     fill_toggle := false;
     active := [];
     canvas := [] |}.

(** [drawer.currentSettings()] and [drawer.currentSettingsEraser()]: a new
    object each time, which nothing writes into afterwards. *)
Definition currentSettings (d : Drawer) : jsval :=
  VObj [("color", VStr (color (settings d)));
        ("filled", VBool (filled (settings d)));
        ("width", VNum (width (settings d)));
        ("font", VStr (font (settings d)))].

Definition currentSettingsEraser (d : Drawer) : jsval :=
  VObj [("color", VStr (color (settings d)));
        ("filled", VBool (filled (settings d)));
        ("width", VNum (nadd (width (settings d)) (of_Z 10)));
        ("font", VStr (font (settings d)))].

(** [if (e)] for an entry [e]: a reference is truthy, [null] is not. *)
Definition not_null (e : option ref) : bool :=
  match e with
  | Some _ => true
  | None => false
  end.

(** The statements of rendering an entry that is not [null]. *)
Definition render_ref (d : Drawer) (r : ref) : list stmt :=
  match objects d !! r with
  | Some sh => render (settings d) sh
  | None => []
  end.

Definition drawAllStoredShapes (d : Drawer) : list stmt :=
  flat_map (fun e => match e with
                     | Some r => render_ref d r
                     | None => []
                     end) (shapes d).

Definition drawSelected (d : Drawer) : list stmt :=
  match selectedElement d with
  | Some r => render_ref d r
  | None => []
  end.

(** Assigning the size of the canvas and [clearRect] wipe it. *)
Definition redraw (d : Drawer) : Drawer * outcome :=
  let '(cs, o) := run (drawAllStoredShapes d ++ drawSelected d) in
  (with_canvas d cs, o).

Definition redo (d : Drawer) : Drawer * outcome :=
  if 0 <? length (undoneShapes d) then
    match last (undoneShapes d) with
    | Some e =>
        redraw (with_shapes (with_undoneShapes d (removelast (undoneShapes d)))
                            (shapes d ++ [e]))
    | None => (d, Normal)
    end
  else (d, Normal).

Definition undo (d : Drawer) : Drawer * outcome :=
  if 0 <? length (shapes d) then
    match last (shapes d) with
    | Some e =>
        redraw (with_undoneShapes (with_shapes d (removelast (shapes d)))
                                  (undoneShapes d ++ [e]))
    | None => (d, Normal)
    end
  else (d, Normal).

(** *** Pointer and key handlers *)

(** [drawer.selectedElement = new C(...)] *)
Definition select_new (d : Drawer) (r : result Shape) : Drawer * outcome :=
  match r with
  | Ok sh =>
      (with_selectedElement (with_objects d (objects d ++ [sh]))
                            (Some (length (objects d))), Normal)
  | Throw => (d, Thrown)
  end.

Definition clear_undone (d : Drawer) : Drawer := with_undoneShapes d [].

Definition push_shape (d : Drawer) (e : option ref) : Drawer :=
  with_shapes d (shapes d ++ [e]).

(** The listener of "mousedown" on the canvas, at [offsetX], [offsetY]. *)
Definition mousedown (d : Drawer) (offsetX offsetY : Q) : Drawer * outcome :=
  let pos := VObj [("x", VNum (Fin offsetX)); ("y", VNum (Fin offsetY))] in
  let amb := settings d in
  let zero := VNum (of_Z 0) in
  if String.eqb (selectedShape d) "rectangle" then
    select_new d (new_Rectangle pos (currentSettings d) zero zero)
  else if String.eqb (selectedShape d) "oval" then
    select_new d (new_Oval amb pos (currentSettings d) zero zero)
  else if String.eqb (selectedShape d) "circle" then
    select_new d (new_Circle amb pos (currentSettings d) zero)
  else if String.eqb (selectedShape d) "line" then
    select_new d (new_Line amb pos (currentSettings d) pos)
  else if String.eqb (selectedShape d) "lineList" then
    select_new d (new_LineList pos (currentSettings d))
  else if String.eqb (selectedShape d) "eraseList" then
    select_new d (new_EraseList pos (currentSettingsEraser d))
  else if String.eqb (selectedShape d) "text" then
    let d1 :=
      match selectedElement d with
      | Some r => clear_undone (push_shape d (Some r))
      | None => d
      end in
    select_new d1 (new_DrawnText pos (currentSettings d1))
  else (d, Normal).

(** [drawer.selectedElement.resize(a, b)] on the object [r] refers to. *)
Definition resize_ref (d : Drawer) (r : ref) (a b : jsval) : Drawer * outcome :=
  match objects d !! r with
  | Some sh =>
      let '(sh', o) := resize (settings d) sh a b in
      (with_objects d (<[r := sh']> (objects d)), o)
  | None => (d, Normal)
  end.

Definition mousemove (d : Drawer) (offsetX offsetY : Q) : Drawer * outcome :=
  match selectedElement d with
  | Some r =>
      if negb (String.eqb (selectedShape d) "text") then
        match resize_ref d r (VNum (Fin offsetX)) (VNum (Fin offsetY)) with
        | (d', Normal) => redraw d'
        | (d', Thrown) => (d', Thrown)
        end
      else (d, Normal)
  | None => (d, Normal)
  end.

Definition mouseup (d : Drawer) : Drawer * outcome :=
  match selectedElement d with
  | Some r =>
      if negb (String.eqb (selectedShape d) "text") then
        (clear_undone (with_selectedElement (push_shape d (Some r)) None), Normal)
      else (d, Normal)
  | None => (d, Normal)
  end.

Definition textKeyPress (d : Drawer) (key : string) : Drawer * outcome :=
  if String.eqb key "Enter" then
    (clear_undone
       (with_selectedElement (push_shape d (selectedElement d)) None), Normal)
  else
    match selectedElement d with
    | Some r =>
        match resize_ref d r (VStr key) VUndef with
        | (d', Normal) => redraw d'
        | (d', Thrown) => (d', Thrown)
        end
    | None => (d, Thrown)
    end.

(** [key.toUpperCase() === "Z"] *)
Definition is_Z_key (key : string) : bool :=
  String.eqb key "z" || String.eqb key "Z".

Definition keypress (d : Drawer) (key : string) (ctrlKey shiftKey : bool)
  : Drawer * outcome :=
  if String.eqb (selectedShape d) "text" && not_null (selectedElement d)
  then textKeyPress d key
  else if is_Z_key key && ctrlKey then
    if shiftKey then redo d else undo d
  else (d, Normal).

Definition keydown (d : Drawer) (key : string) : Drawer * outcome :=
  match selectedElement d with
  | Some r =>
      if String.eqb (selectedShape d) "text" then
        if String.eqb key "Backspace" then
          match resize_ref d r (VStr key) VUndef with
          | (d', Normal) => redraw d'
          | (d', Thrown) => (d', Thrown)
          end
        else (d, Normal)
      else (d, Normal)
  | None => (d, Normal)
  end.

(** *** The navigation bar *)

(** [li.classList.toggle("active")] *)
Definition toggle (li : shape_item) (l : list shape_item) : list shape_item :=
  if existsb (same_item li) l
  then List.filter (fun li' => negb (same_item li li')) l
  else l ++ [li].

(** The listener of "click" on an item of the shape list.  Its last
    statements move the class "active"; the first item that has it is
    [document.querySelectorAll("#shape-list li.active")[0]], and is
    [undefined] when none has. *)
Definition shape_click (d : Drawer) (elem : shape_item) : Drawer * outcome :=
  let d1 :=
    if negb (fill_toggle d)
    then with_settings d (set_filled (settings d) false)
    else d in
  let clickedShape := dataset_shape elem in
  let d2 :=
    if String.eqb clickedShape "text" then
      clear_undone
        (push_shape (with_settings d1 (set_filled (settings d1) true))
                    (selectedElement d1))
    else d1 in
  if negb (String.eqb clickedShape (selectedShape d2)) then
    let d3 := with_selectedShape (with_selectedElement d2 None) clickedShape in
    match List.find (fun li => existsb (same_item li) (active d3)) shape_list with
    | None => (d3, Thrown)
    | Some first =>
        (with_active d3 (toggle elem (toggle first (active d3))), Normal)
    end
  else (d2, Normal).

Definition fill_click (d : Drawer) : Drawer * outcome :=
  if negb (fill_toggle d)
  then (with_settings (with_fill_toggle d true)
                      (set_filled (settings d) true), Normal)
  else (with_settings (with_fill_toggle d false)
                      (set_filled (settings d) false), Normal).

(** "change" on the colour picker, with [colorPicker.value]. *)
Definition color_change (d : Drawer) (value : string) : Drawer * outcome :=
  (with_settings d (set_color (settings d) value), Normal).

Fixpoint split_from (sep : Ascii.ascii) (acc s : string) : list string :=
  match s with
  | EmptyString => [acc]
  | String c rest =>
      if Ascii.eqb c sep
      then acc :: split_from sep "" rest
      else split_from sep (acc +:+ String c "") rest
  end.

(** [s.split(" ")] *)
Definition split_space (s : string) : list string := split_from " "%char "" s.

(** "click" on the confirm button of the size dialog; [widthValue] is
    [parseInt(widthValue.innerHTML)] and [fontValue] is
    [fontValue.innerHTML], as the dialog shows them. *)
Definition size_confirm (d : Drawer) (widthValue : num) (fontValue : string)
  : Drawer * outcome :=
  let family := default VUndef (VStr <$> split_space (font (settings d)) !! 1) in
  (with_settings d
     (set_font (set_width (settings d) widthValue)
               (fontValue +:+ " " +:+ string_of family)), Normal).

(** The first three assignments of [constructShapesFromFile], and of the
    listener of the bin. *)
Definition reset (d : Drawer) : Drawer :=
  clear_undone (with_shapes (with_selectedElement d None) []).

(** "click" on the bin. *)
Definition clear_click (d : Drawer) : Drawer * outcome := redraw (reset d).

(** *** Save and load

    [JSON.parse(JSON.stringify(v))] on a value: [NaN] becomes [null], an
    [undefined] element of an array becomes [null], a property whose value
    is [undefined] is dropped.  The text in between is not modelled; a file
    is represented by the value [JSON.parse] returns for it. *)
Fixpoint jsonify (amb : Settings) (v : jsval) : jsval :=
  match v with
  | VNum NaN => VNull
  | VArr l =>
      VArr (map (fun e => match e with
                          | VUndef => VNull
                          | _ => jsonify amb e
                          end) l)
  | VObj props =>
      VObj ((fix go (ps : list (string * jsval)) : list (string * jsval) :=
               match ps with
               | [] => []
               | (k, VUndef) :: rest => go rest
               | (k, e) :: rest => (k, jsonify amb e) :: go rest
               end) props)
  | VAmbient =>
      VObj [("color", VStr (color amb)); ("filled", VBool (filled amb));
            ("width", match width amb with
                      | Fin q => VNum (Fin q)
                      | NaN => VNull
                      end);
            ("font", VStr (font amb))]
  | _ => v
  end.

(** One round of the loop of [createJsonBlob], for the entry [e] of
    [drawer.shapes]: [null] has no [__proto__]. *)
Definition json_of_entry (d : Drawer) (e : option ref) : result jsval :=
  match e with
  | None => Throw
  | Some r =>
      match objects d !! r with
      | Some sh =>
          match jsonify (settings d) (VObj (own_props sh)) with
          | VObj tmp => Ok (VObj (set_prop "type" (VStr (constructor_name sh)) tmp))
          | tmp => Ok tmp
          end
      | None => Throw
      end
  end.

Fixpoint json_of_entries (d : Drawer) (l : list (option ref)) : result (list jsval) :=
  match l with
  | [] => Ok []
  | e :: rest =>
      do tmp <- json_of_entry d e;
      do lst <- json_of_entries d rest;
      Ok (tmp :: lst)
  end.

(** The value that the text of the blob parses to. *)
Definition createJsonBlob (d : Drawer) : result jsval :=
  do lst <- json_of_entries d (shapes d);
  Ok (jsonify (settings d) (VArr lst)).

(** [for (let j = j0; j < j0 + n; j++) body], stopping at a throw. *)
Fixpoint for_loop {T : Type} (n j : nat) (body : nat -> T -> T * outcome) (s : T)
  : T * outcome :=
  match n with
  | O => (s, Normal)
  | S n' =>
      match body j s with
      | (s', Normal) => for_loop n' (S j) body s'
      | (s', Thrown) => (s', Thrown)
      end
  end.

(** [drawer.shapes.push(new C(...))] *)
Definition push_new (d : Drawer) (r : result Shape) : Drawer * outcome :=
  match r with
  | Ok sh =>
      (push_shape (with_objects d (objects d ++ [sh])) (Some (length (objects d))),
       Normal)
  | Throw => (d, Thrown)
  end.

(** The loops that replay the points or characters of a record into the
    shape [this]; an object that is not pushed is lost when they throw. *)
Definition replay_points (amb : Settings) (jsonShape : jsval) (this : Shape)
  : result Shape :=
  do xList <- get amb jsonShape "xList";
  do len <- get amb xList "length";
  do n <- ToNumber len;
  match for_loop (loop_count n) 0
          (fun j this =>
             match get_index amb xList j with
             | Throw => (this, Thrown)
             | Ok x =>
                 match (do yList <- get amb jsonShape "yList"; get_index amb yList j) with
                 | Throw => (this, Thrown)
                 | Ok y => resize amb this x y
                 end
             end) this with
  | (this', Normal) => Ok this'
  | (_, Thrown) => Throw
  end.

Definition replay_chars (amb : Settings) (jsonShape : jsval) (this : Shape)
  : result Shape :=
  do chars <- get amb jsonShape "chars";
  do len <- get amb chars "length";
  do n <- ToNumber len;
  match for_loop (loop_count n) 0
          (fun j this =>
             match get_index amb chars j with
             | Throw => (this, Thrown)
             | Ok c => resize amb this c VUndef
             end) this with
  | (this', Normal) => Ok this'
  | (_, Thrown) => Throw
  end.

Definition createShapeFromJson (d : Drawer) (jsonShape : jsval) : Drawer * outcome :=
  let amb := settings d in
  match get amb jsonShape "type" with
  | Throw => (d, Thrown)
  | Ok type =>
      if is_string type "Rectangle" then
        push_new d
          (do position <- get amb jsonShape "position";
           do settings <- get amb jsonShape "settings";
           do width <- get amb jsonShape "width";
           do height <- get amb jsonShape "height";
           new_Rectangle position settings width height)
      else if is_string type "Oval" then
        push_new d
          (do position <- get amb jsonShape "position";
           do settings <- get amb jsonShape "settings";
           do xRadius <- get amb jsonShape "xRadius";
           do yRadius <- get amb jsonShape "yRadius";
           new_Oval amb position settings xRadius yRadius)
      else if is_string type "Circle" then
        push_new d
          (do position <- get amb jsonShape "position";
           do settings <- get amb jsonShape "settings";
           do xRadius <- get amb jsonShape "xRadius";
           new_Circle amb position settings xRadius)
      else if is_string type "Line" then
        push_new d
          (do position <- get amb jsonShape "position";
           do settings <- get amb jsonShape "settings";
           do endPosition <- get amb jsonShape "endPosition";
           new_Line amb position settings endPosition)
      else if is_string type "LineList" then
        push_new d
          (do position <- get amb jsonShape "position";
           do settings <- get amb jsonShape "settings";
           do ll <- new_LineList position settings;
           replay_points amb jsonShape ll)
      else if is_string type "EraseList" then
        push_new d
          (do position <- get amb jsonShape "position";
           do settings <- get amb jsonShape "settings";
           do eli <- new_EraseList position settings;
           replay_points amb jsonShape eli)
      else if is_string type "DrawnText" then
        push_new d
          (do position <- get amb jsonShape "position";
           do settings <- get amb jsonShape "settings";
           do dt <- new_DrawnText position settings;
           replay_chars amb jsonShape dt)
      else (d, Normal)
  end.

(** The listener of "load" on the file reader; [tmpList] is
    [JSON.parse(contents)]. *)
Definition constructShapesFromFile (d : Drawer) (tmpList : jsval) : Drawer * outcome :=
  let d1 := reset d in
  match get (settings d1) tmpList "length" with
  | Throw => (d1, Thrown)
  | Ok len =>
      match ToNumber len with
      | Throw => (d1, Thrown)
      | Ok n =>
          match for_loop (loop_count n) 0
                  (fun i d =>
                     match get_index (settings d) tmpList i with
                     | Throw => (d, Thrown)
                     | Ok jsonShape => createShapeFromJson d jsonShape
                     end) d1 with
          | (d2, Normal) => redraw d2
          | (d2, Thrown) => (d2, Thrown)
          end
      end
  end.

(** *** Events *)

Inductive event :=
| MouseDown (offsetX offsetY : Q)
| MouseMove (offsetX offsetY : Q)
| MouseUp
| KeyPress (key : string) (ctrlKey shiftKey : bool)
| KeyDown (key : string)
| UndoClick
| RedoClick
| ShapeClick (elem : shape_item)
| FillClick
| ColorChange (value : string)
| SizeConfirm (widthValue : num) (fontValue : string)
| SaveClick
| FileLoaded (tmpList : jsval)
| ClearClick.

Definition step (d : Drawer) (ev : event) : Drawer * outcome :=
  match ev with
  | MouseDown x y => mousedown d x y
  | MouseMove x y => mousemove d x y
  | MouseUp => mouseup d
  | KeyPress key ctrlKey shiftKey => keypress d key ctrlKey shiftKey
  | KeyDown key => keydown d key
  | UndoClick => undo d
  | RedoClick => redo d
  | ShapeClick elem => shape_click d elem
  | FillClick => fill_click d
  | ColorChange value => color_change d value
  | SizeConfirm w f => size_confirm d w f
  | SaveClick =>
      match createJsonBlob d with
      | Ok _ => (d, Normal)
      | Throw => (d, Thrown)
      end
  | FileLoaded tmpList => constructShapesFromFile d tmpList
  | ClearClick => clear_click d
  end.

(** The state after a sequence of events; a handler that throws leaves the
    state as it was at the throw, and the next event is handled from there. *)
Definition run_events (d : Drawer) (evs : list event) : Drawer :=
  fold_left (fun d ev => fst (step d ev)) evs d.

(** [f] applied [n] times, each time to the state the last call left. *)
Fixpoint times (n : nat) (f : Drawer -> Drawer * outcome) (d : Drawer) : Drawer :=
  match n with
  | O => d
  | S n' => times n' f (fst (f d))
  end.

(** The events that commit: the handler pushes onto [drawer.shapes], or
    replaces the drawing by a loaded one. *)
Definition commits (d : Drawer) (ev : event) : bool :=
  match ev with
  | MouseUp =>
      not_null (selectedElement d) && negb (String.eqb (selectedShape d) "text")
  | KeyPress key _ _ =>
      String.eqb (selectedShape d) "text" && not_null (selectedElement d)
      && String.eqb key "Enter"
  | MouseDown _ _ =>
      String.eqb (selectedShape d) "text" && not_null (selectedElement d)
  | ShapeClick elem => String.eqb (dataset_shape elem) "text"
  | FileLoaded _ => true
  | _ => false
  end.


(** The text after the keys [keys] went to [this.resize], one by one. *)
Definition type_keys (amb : Settings) (this : Shape) (keys : list string) : Shape :=
  fold_left (fun this key => fst (DrawnText_resize amb this (VStr key))) keys this.

(** The arrays [xList] and [yList] after [resize] took the points [pts]. *)
Definition xs_of (pts : list (Q * Q)) : list jsval :=
  map (fun p => VNum (Fin (fst p))) pts.
Definition ys_of (pts : list (Q * Q)) : list jsval :=
  map (fun p => VNum (Fin (snd p))) pts.

(** The committed shapes, as objects: what the entries of [drawer.shapes]
    refer to. *)
Definition committed (d : Drawer) : list (option Shape) :=
  map (fun e => match e with
                | Some r => objects d !! r
                | None => None
                end) (shapes d).

(** Saving [d] and loading the file into [d]. *)
Definition save_and_load (d : Drawer) : result (Drawer * outcome) :=
  do file <- createJsonBlob d;
  Ok (constructShapesFromFile d file).

(** Loading what was saved gives the committed shapes back, and paints
    them as a redraw did. *)
Definition save_and_load_same (d : Drawer) : Prop :=
  exists d', save_and_load d = Ok (d', Normal) /\
    committed d' = committed d /\ canvas d' = canvas (fst (redraw d)).

(** The loop of [constructShapesFromFile] over the records of an array. *)
Fixpoint load_records (d : Drawer) (l : list jsval) : Drawer * outcome :=
  match l with
  | [] => (d, Normal)
  | jsonShape :: rest =>
      match createShapeFromJson d jsonShape with
      | (d', Normal) => load_records d' rest
      | (d', Thrown) => (d', Thrown)
      end
  end.

Definition known_tags : list string :=
  ["Rectangle"; "Oval"; "Circle"; "Line"; "LineList"; "EraseList"; "DrawnText"].

(** A record that is not [null] and whose [type] is none of the seven
    names: a value that is not an object has no [type]. *)
Definition unknown_tag (jsonShape : jsval) : bool :=
  match jsonShape with
  | VUndef | VNull => false
  | VObj props => negb (existsb (is_string (assoc "type" props)) known_tags)
  | _ => true
  end.

(** [undefined] and [null]: reading a property of one of them throws. *)
Definition nullish (v : jsval) : bool :=
  match v with
  | VUndef | VNull => true
  | _ => false
  end.

(** A record that is [null], or that has one of the seven names as [type]
    and lacks what the constructor of the class or the loop that replays
    the record reads a property of: the position of an oval or a circle,
    the end position of a line, the abscissas of a stroke, the characters
    of a text. *)
Definition ends_load (jsonShape : jsval) : bool :=
  match jsonShape with
  | VUndef | VNull => true
  | VObj props =>
      let type := assoc "type" props in
      (is_string type "Oval" || is_string type "Circle")
        && nullish (assoc "position" props)
      || is_string type "Line" && nullish (assoc "endPosition" props)
      || (is_string type "LineList" || is_string type "EraseList")
           && nullish (assoc "xList" props)
      || is_string type "DrawnText" && nullish (assoc "chars" props)
  | _ => false
  end.

(** A value that holds no reference to [drawer.settings]: the values in a
    file are such, [JSON.parse] builds them from text. *)
Fixpoint plain (v : jsval) : bool :=
  match v with
  | VAmbient => false
  | VArr l => forallb plain l
  | VObj props =>
      (fix go (ps : list (string * jsval)) : bool :=
         match ps with
         | [] => true
         | (_, e) :: rest => plain e && go rest
         end) props
  | _ => true
  end.

(** A shape that owns what it reads its position and its settings from. *)
Definition owns_settings (sh : Shape) : Prop :=
  plain (position_of sh) = true /\ plain (settings_of sh) = true.

(** Every object in the store does. *)
Definition all_own (d : Drawer) : Prop := Forall owns_settings (objects d).

Definition from_file (ev : event) : Prop :=
  match ev with
  | FileLoaded tmpList => plain tmpList = true
  | _ => True
  end.

(** The states of the page: the start, and the state any handler leaves. *)
Inductive reachable : Drawer -> Prop :=
| reachable_start : reachable drawer0
| reachable_step (d : Drawer) (ev : event) :
    reachable d -> from_file ev -> reachable (fst (step d ev)).

(** The events whose handlers assign to a property of [drawer.settings]. *)
Definition assigns_settings (ev : event) : Prop :=
  match ev with
  | ShapeClick _ | FillClick | ColorChange _ | SizeConfirm _ _ => True
  | _ => False
  end.

(** The object that [r] refers to in [d] has the position and the
    settings of [sh]. *)
Definition keeps (r : ref) (sh : Shape) (d : Drawer) : Prop :=
  exists sh', objects d !! r = Some sh' /\
    position_of sh' = position_of sh /\ settings_of sh' = settings_of sh.

(** The events that take entries off [drawer.shapes]: undo and redo, by
    button or by key, and the bin. *)
Definition rewinds (d : Drawer) (ev : event) : bool :=
  match ev with
  | UndoClick | RedoClick | ClearClick => true
  | KeyPress key ctrlKey _ =>
      negb (String.eqb (selectedShape d) "text" && not_null (selectedElement d))
      && is_Z_key key && ctrlKey
  | _ => false
  end.

(** An entry is [null] or refers to an object of a store of [n] objects. *)
Definition entry_ok (n : nat) (e : option ref) : Prop :=
  match e with
  | Some r => r < n
  | None => True
  end.

(** Every reference in the drawer refers to an object. *)
Definition no_dangling (d : Drawer) : Prop :=
  Forall (entry_ok (length (objects d))) (shapes d) /\
  Forall (entry_ok (length (objects d))) (undoneShapes d) /\
  entry_ok (length (objects d)) (selectedElement d).

(** *** Drawings for the instances *)

(** A rectangle drawn and committed, undone, and a stroke in progress. *)
Definition stroke_in_progress : Drawer :=
  run_events drawer0
    [ShapeClick li_rectangle; MouseDown 10 10; MouseMove 50 40; MouseUp;
     UndoClick; ShapeClick li_lineList; MouseDown 0 0; MouseMove 10 0].

(** The key of the letter n with a tilde: one character, one code unit,
    two bytes. *)
Definition key_n_tilde : string :=
  String (Ascii.ascii_of_nat 195) (String (Ascii.ascii_of_nat 177) EmptyString).

(** The key of the grinning face, U+1F600: one character, two code units,
    four bytes. *)
Definition key_grinning_face : string :=
  String (Ascii.ascii_of_nat 240)
    (String (Ascii.ascii_of_nat 159)
       (String (Ascii.ascii_of_nat 152)
          (String (Ascii.ascii_of_nat 128) EmptyString))).

(** A rectangle committed and a line committed and undone. *)
Definition rectangle_and_undone_line : Drawer :=
  run_events drawer0
    [ShapeClick li_rectangle; MouseDown 10 10; MouseMove 50 40; MouseUp;
     ShapeClick li_line; MouseDown 0 0; MouseMove 30 30; MouseUp; UndoClick].

(** The record of a rectangle from (10, 10) to (50, 40). *)
Definition rectangle_record : jsval :=
  VObj [("position", VObj [("x", VNum (Fin 10)); ("y", VNum (Fin 10))]);
        ("settings", VObj [("color", VStr "#000000"); ("filled", VBool false);
                           ("width", VNum (Fin 10));
                           ("font", VStr "36pt sans-serif")]);
        ("width", VNum (Fin 40)); ("height", VNum (Fin 30));
        ("type", VStr "Rectangle")].

(** *** The history and the controls *)

(** The committed entries followed by the undone ones, the last undone
    first: the entries in the order in which they were committed. *)
Definition history (d : Drawer) : list (option ref) :=
  shapes d ++ rev (undoneShapes d).

(** Undo ([false]) and redo ([true]), one after the other. *)
Definition rewind (d : Drawer) (steps : list bool) : Drawer :=
  fold_left (fun d (again : bool) => fst (if again then redo d else undo d)) steps d.

(** What the navigation bar sets: the tool, the settings, the fill toggle
    and the item that is marked active. *)
Definition controls (d : Drawer) : string * Settings * bool * list shape_item :=
  (selectedShape d, settings d, fill_toggle d, active d).

Definition loads_file (ev : event) : bool :=
  match ev with
  | FileLoaded _ => true
  | _ => false
  end.

Definition clicks_text_tool (ev : event) : bool :=
  match ev with
  | ShapeClick li_text => true
  | _ => false
  end.

(** No entry of the committed or of the undone list is [null]. *)
Definition no_null (d : Drawer) : Prop :=
  Forall (fun e => not_null e = true) (shapes d) /\
  Forall (fun e => not_null e = true) (undoneShapes d).

(** *** Drawing with the pointer and with the keys *)

(** The classes whose [resize] assigns the properties it computes. *)
Definition two_point (sh : Shape) : bool :=
  match sh with
  | Rectangle _ _ _ _ | Oval _ _ _ _ _ _ | Circle _ _ _ _ _ _ | Line _ _ _ _ => true
  | _ => false
  end.

(** A shape after [resize] took the pointer positions [pts], in turn. *)
Definition after_moves (amb : Settings) (sh : Shape) (pts : list (Q * Q)) : Shape :=
  fold_left (fun sh p => fst (resize amb sh (VNum (Fin (fst p))) (VNum (Fin (snd p)))))
            pts sh.

Definition moves (pts : list (Q * Q)) : list event :=
  map (fun p => MouseMove (fst p) (snd p)) pts.

(** A press at ([x0], [y0]), moves over [pts], and the release. *)
Definition drag (x0 y0 : Q) (pts : list (Q * Q)) : list event :=
  MouseDown x0 y0 :: moves pts ++ [MouseUp].

(** Key presses, each with its Ctrl and Shift flags. *)
Definition presses (keys : list (string * bool * bool)) : list event :=
  map (fun k => KeyPress (fst (fst k)) (snd (fst k)) (snd k)) keys.

Definition key_names (keys : list (string * bool * bool)) : list string :=
  map (fun k => fst (fst k)) keys.

(** The text tool selected, a press at (5, 5) and the key "H": a text in
    progress. *)
Definition text_in_progress : Drawer :=
  run_events (with_selectedShape drawer0 "text")
    [MouseDown 5 5; KeyPress "H" false false].



(** *** Files *)






(** A stroke of the pencil, or of the eraser. *)
Definition stroke (erase : bool) (p s : jsval) (xs ys : list jsval) : Shape :=
  if erase then EraseList p s xs ys else LineList p s xs ys.

(** The state [d] holds the drawing [d0] had replaced by the shapes
    [news]: they follow the objects of [d0] in the store and are the
    committed entries. *)
Definition loaded_onto (d0 d : Drawer) (news : list Shape) : Prop :=
  objects d = objects d0 ++ news /\
  shapes d = map Some (seq (length (objects d0)) (length news)) /\
  undoneShapes d = [] /\
  selectedElement d = None.

(** The objects that [createShapeFromJson] adds to the store for the
    record [jsonShape]: one shape, or none when the record is skipped or
    the call throws. *)
Definition created (d : Drawer) (jsonShape : jsval) : list Shape :=
  drop (length (objects d)) (objects (fst (createShapeFromJson d jsonShape))).

(** The records that a load reaches: the records up to the first one on
    which [createShapeFromJson] throws, this one included. *)
Fixpoint decoded (d : Drawer) (l : list jsval) : list jsval :=
  match l with
  | [] => []
  | jsonShape :: rest =>
      match snd (createShapeFromJson d jsonShape) with
      | Normal => jsonShape :: decoded d rest
      | Thrown => [jsonShape]
      end
  end.

(** *** Shapes that render and resize without an exception *)

(** A value whose properties can be read: neither [undefined] nor [null]. *)
Definition readable (v : jsval) : bool :=
  match v with
  | VUndef | VNull => false
  | _ => true
  end.

(** A number that is not negative; [NaN] is none. *)
Definition not_negative (v : jsval) : bool :=
  match v with
  | VNum (Fin q) => Qle_bool 0 q
  | VNum NaN => true
  | _ => false
  end.

(** The property [k] of [v] where it can be an object: the property of a
    plain object, and [undefined] for any other value, whose properties
    (the [length] of a string or of an array, the settings of the drawer)
    are no objects. *)
Definition field (v : jsval) (k : string) : jsval :=
  match v with
  | VObj props => assoc k props
  | _ => VUndef
  end.

(** What [render] passes to the context of the properties of a shape, other
    than its position and its settings. *)
Definition own_values (sh : Shape) : list jsval :=
  match sh with
  | Rectangle _ _ w h => [w; h]
  | Oval _ _ xr yr x y | Circle _ _ xr yr x y => [xr; yr; x; y]
  | Line _ _ ex ey => [ex; ey]
  | LineList _ _ xs ys | EraseList _ _ xs ys => xs ++ ys
  | DrawnText _ _ cs => cs
  end.

(** The radii of an oval or a circle are numbers that are not negative. *)
Definition radii_not_negative (sh : Shape) : bool :=
  match sh with
  | Oval _ _ xr yr _ _ | Circle _ _ xr yr _ _ => not_negative xr && not_negative yr
  | _ => true
  end.

(** Position and settings can be read, every value that [render] passes to
    the context converts, and the radii of an oval or a circle are numbers
    that are not negative. *)
Definition drawable (sh : Shape) : bool :=
  readable (position_of sh) && readable (settings_of sh) &&
  negb (existsb unprintable
          ([field (settings_of sh) "color"; field (settings_of sh) "width";
            field (settings_of sh) "font";
            field (position_of sh) "x"; field (position_of sh) "y"]
           ++ own_values sh)) &&
  radii_not_negative sh.

(** The events whose handlers can throw in a drawing made by hand: a click
    on the shape list, which looks for the item marked active, and saving,
    which reads the prototype of every entry. *)
Definition throws_by_hand (ev : event) : bool :=
  match ev with
  | ShapeClick _ | SaveClick => true
  | _ => false
  end.

(** ** The size dialog

    The dialog shows a line width and a font size in two cells, and keeps
    the values that were confirmed last in the attribute [data-value] of
    their rows.  The numbers it computes are integers, which are printed
    in decimal, or [NaN]. *)

(** White space in a string of ASCII characters. *)
Definition is_white_space (c : Ascii.ascii) : bool :=
  let n := Ascii.nat_of_ascii c in
  (n =? 9) || (n =? 10) || (n =? 11) || (n =? 12) || (n =? 13) || (n =? 32).

Fixpoint trim_start (s : string) : string :=
  match s with
  | String c rest => if is_white_space c then trim_start rest else s
  | EmptyString => s
  end.

(** The value of a character as a digit of the base [radix]. *)
Definition digit_of (radix : nat) (c : Ascii.ascii) : option nat :=
  let n := Ascii.nat_of_ascii c in
  let value :=
    if (48 <=? n) && (n <=? 57) then Some (n - 48)
    else if (97 <=? n) && (n <=? 122) then Some (n - 87)
    else if (65 <=? n) && (n <=? 90) then Some (n - 55)
    else None in
  match value with
  | Some k => if k <? radix then Some k else None
  | None => None
  end.

(** The number that the digits at the start of [s] spell, if there is one. *)
Fixpoint digits_from (radix : nat) (acc : option Z) (s : string) : option Z :=
  match s with
  | EmptyString => acc
  | String c rest =>
      match digit_of radix c with
      | Some k =>
          digits_from radix
            (Some (Z.of_nat radix * default 0%Z acc + Z.of_nat k)%Z) rest
      | None => acc
      end
  end.

(** [parseInt(s)]: white space is skipped, then a sign is read, then "0x"
    or "0X" selects the base 16; the digits up to the first character that
    is none give the value, and without a digit the result is [NaN]. *)
Definition parseInt (s : string) : num :=
  let s1 := trim_start s in
  let '(negative, s2) :=
    match s1 with
    | String "-" rest => (true, rest)
    | String "+" rest => (false, rest)
    | _ => (false, s1)
    end in
  let '(radix, s3) :=
    match s2 with
    | String "0" (String "x" rest) | String "0" (String "X" rest) => (16, rest)
    | _ => (10, s2)
    end in
  match digits_from radix None s3 with
  | Some z => Fin (nearest_double (inject_Z (if negative : bool then - z else z)))
  | None => NaN
  end.

(** [Math.min(a, b)] on numbers. *)
Definition nmin : num -> num -> num :=
  nlift2 (fun x y => if Qle_bool x y then x else y).

(** [s.slice(0, s.length - 2)]: a negative end counts from the end of the
    string, and gives the empty string here. *)
Definition slice_off_unit (s : string) : string :=
  String.substring 0 (String.length s - 2) s.

Record SizeDialog := {
  (** [widthValue.innerHTML] and [fontValue.innerHTML] *)
  width_cell : string;
  font_cell : string;
  (** [widthSetting.dataset["value"]] and [fontSetting.dataset["value"]] *)
  width_data : string;
  font_data : string;
}.

(** The dialog as the page is written. *)
Definition dialog0 : SizeDialog :=
  {| width_cell := "1"; font_cell := "12pt"; width_data := "1"; font_data := "12pt" |}.

Definition with_width_cell (g : SizeDialog) (s : string) : SizeDialog :=
  {| width_cell := s; font_cell := font_cell g;
     width_data := width_data g; font_data := font_data g |}.

Definition with_font_cell (g : SizeDialog) (s : string) : SizeDialog :=
  {| width_cell := width_cell g; font_cell := s;
     width_data := width_data g; font_data := font_data g |}.

(** "click" on the minus and on the plus of the line width. *)
Definition width_decrease (g : SizeDialog) : SizeDialog :=
  with_width_cell g
    (integer_to_digits (nmax (of_Z 1) (nsub (parseInt (width_cell g)) (of_Z 4)))).

Definition width_increase (g : SizeDialog) : SizeDialog :=
  with_width_cell g
    (integer_to_digits (nmin (of_Z 70) (nadd (parseInt (width_cell g)) (of_Z 4)))).

(** "click" on the minus and on the plus of the font size. *)
Definition font_decrease (g : SizeDialog) : SizeDialog :=
  with_font_cell g
    (integer_to_digits
       (nmax (of_Z 6) (nsub (parseInt (slice_off_unit (font_cell g))) (of_Z 4)))
     +:+ "pt").

Definition font_increase (g : SizeDialog) : SizeDialog :=
  with_font_cell g
    (integer_to_digits
       (nmin (of_Z 70) (nadd (parseInt (slice_off_unit (font_cell g))) (of_Z 4)))
     +:+ "pt").

(** "click" on one of the two buttons that abort. *)
Definition size_abort (g : SizeDialog) : SizeDialog :=
  {| width_cell := width_data g; font_cell := font_data g;
     width_data := width_data g; font_data := font_data g |}.

(** "click" on the confirm button: what it does to the dialog, and to the
    drawer. *)
Definition size_keep (g : SizeDialog) : SizeDialog :=
  {| width_cell := width_cell g; font_cell := font_cell g;
     width_data := width_cell g; font_data := font_cell g |}.

Definition size_confirm_click (d : Drawer) (g : SizeDialog) : Drawer * outcome :=
  size_confirm d (parseInt (width_cell g)) (font_cell g).

Inductive dialog_click :=
| WidthDecrease
| WidthIncrease
| FontDecrease
| FontIncrease
| SizeAbort
| SizeKeep.

Definition dialog_step (g : SizeDialog) (c : dialog_click) : SizeDialog :=
  match c with
  | WidthDecrease => width_decrease g
  | WidthIncrease => width_increase g
  | FontDecrease => font_decrease g
  | FontIncrease => font_increase g
  | SizeAbort => size_abort g
  | SizeKeep => size_keep g
  end.

Definition run_dialog (g : SizeDialog) (clicks : list dialog_click) : SizeDialog :=
  fold_left dialog_step clicks g.

(** The strings that print the integers from [lo] to [hi]. *)
Definition decimals (lo hi : nat) : list string :=
  map index_key (seq lo (S hi - lo)).

Definition adjusts (c : dialog_click) : bool :=
  match c with
  | SizeAbort | SizeKeep => false
  | _ => true
  end.

(** The font sizes from [lo] to [hi] points, and the fonts of these sizes. *)
Definition points (lo hi : nat) : list string :=
  map (fun s => s +:+ "pt") (decimals lo hi).

Definition fonts (lo hi : nat) : list string :=
  map (fun s => s +:+ " sans-serif") (points lo hi).

(** The page: the drawer and the size dialog.  An event of the page is an
    event of the drawer or a click in the dialog; the click on the confirm
    button is the one that reaches the drawer. *)
Definition page_step (pg : Drawer * SizeDialog) (e : event + dialog_click)
  : Drawer * SizeDialog :=
  match e with
  | inl ev => (fst (step (fst pg) ev), snd pg)
  | inr SizeKeep => (fst (size_confirm_click (fst pg) (snd pg)), size_keep (snd pg))
  | inr c => (fst pg, dialog_step (snd pg) c)
  end.

Definition run_page (pg : Drawer * SizeDialog) (es : list (event + dialog_click))
  : Drawer * SizeDialog :=
  fold_left page_step es pg.

(** The events of the drawer other than the confirmation of sizes, which
    the page has from the dialog. *)
Definition of_the_page (e : event + dialog_click) : Prop :=
  match e with
  | inl (SizeConfirm _ _) => False
  | _ => True
  end.

(** The same number, written the same way. *)
Definition same_number (a b : num) : bool :=
  match a, b with
  | Fin x, Fin y => Z.eqb (Qnum x) (Qnum y) && Pos.eqb (Qden x) (Qden y)
  | NaN, NaN => true
  | _, _ => false
  end.

(** *** Shapes made by hand *)










(** * Properties *)

(** ** Rounding

    A number that a double holds is its own nearest double, and the
    nearest double of a number that is not negative is not negative. *)

Lemma inject_Z_pos (m : Z) : (0 < m)%Z -> (0 < inject_Z m)%Q.
Proof. unfold Qlt. simpl. lia. Qed.

Lemma inject_Z_neg (m : Z) : (m < 0)%Z -> (inject_Z m < 0)%Q.
Proof. unfold Qlt. simpl. lia. Qed.

Lemma inject_Z_nonneg (m : Z) : (0 <= m)%Z -> (0 <= inject_Z m)%Q.
Proof. unfold Qle. simpl. lia. Qed.

Lemma two_power_pos (k : Z) : (0 < 2 ^ k)%Q.
Proof. by apply Qpower_0_lt. Qed.

Lemma two_power_Z (k : Z) : (0 <= k)%Z -> (2 ^ k == inject_Z (2 ^ k))%Q.
Proof. intros H. by rewrite Zpower_Qpower. Qed.

Lemma exponent_le (q : Q) : (0 < q)%Q -> (2 ^ exponent q <= q)%Q.
Proof.
  intros Hq. unfold exponent.
  destruct (Qle_bool _ q) eqn:Hk; [by apply Qle_bool_iff|]. clear Hk.
  destruct q as [n d]. cbn [Qnum Qden].
  assert (0 < n)%Z as Hn by (unfold Qlt in Hq; simpl in Hq; lia).
  destruct (Z.log2_spec n Hn) as [Hln _].
  destruct (Z.log2_spec (Z.pos d) (Pos2Z.is_pos d)) as [_ Hld].
  pose proof (Z.log2_nonneg n) as H0n.
  pose proof (Z.log2_nonneg (Z.pos d)) as H0d.
  replace (Z.log2 n - Z.log2 (Z.pos d) - 1)%Z
    with (Z.log2 n - Z.succ (Z.log2 (Z.pos d)))%Z by lia.
  rewrite Qpower_minus by done.
  rewrite !two_power_Z by lia.
  set (a := (2 ^ Z.log2 n)%Z) in *. set (b := (2 ^ Z.succ (Z.log2 (Z.pos d)))%Z) in *.
  assert (0 < a)%Z as Ha by (subst a; by apply Z.pow_pos_nonneg).
  assert (0 < b)%Z as Hb by lia.
  unfold Qle, Qdiv, Qmult, Qinv, inject_Z. cbn [Qnum Qden].
  destruct b as [|b|b]; try lia. cbn [Qnum Qden]. nia.
Qed.

Lemma nearest_even_integer (s : Q) (M : Z) :
  (s == inject_Z M)%Q -> nearest_even (Qnum s) (Z.pos (Qden s)) = M.
Proof.
  unfold Qeq, inject_Z. cbn [Qnum Qden]. rewrite Z.mul_1_r. intros ->.
  unfold nearest_even. rewrite Z.div_mul, Z.mod_mul by done. done.
Qed.

Lemma round_pos_exact (q : Q) (m e : Z) :
  (0 < m < 2 ^ 53)%Z -> (-1074 <= e)%Z -> (q == inject_Z m * 2 ^ e)%Q ->
  (round_pos q == q)%Q.
Proof.
  intros [Hm0 Hm] He Hq.
  assert (0 < q)%Q as Hpos.
  { rewrite Hq. apply Qmult_lt_0_compat; [|apply two_power_pos].
    by apply inject_Z_pos. }
  unfold round_pos. set (u := Z.max (exponent q - 52) (-1074)).
  assert (u <= e)%Z as Hu.
  { apply Z.max_lub; [|done].
    assert (exponent q < 53 + e)%Z; [|lia].
    apply (Qpower_lt_compat_l_inv 2); [|done].
    eapply Qle_lt_trans; [by apply exponent_le|].
    rewrite Hq, Qpower_plus by done. apply Qmult_lt_compat_r; [apply two_power_pos|].
    rewrite two_power_Z by done. by rewrite <- Zlt_Qlt. }
  assert (q * 2 ^ (- u) == inject_Z (m * 2 ^ (e - u)))%Q as Hs.
  { rewrite Hq, <- Qmult_assoc, <- Qpower_plus by done.
    rewrite inject_Z_mult, <- two_power_Z by lia.
    by replace (e + - u)%Z with (e - u)%Z by lia. }
  rewrite (nearest_even_integer _ _ Hs), <- Hs, <- Qmult_assoc, <- Qpower_plus by done.
  replace (- u + u)%Z with 0%Z by lia. apply Qmult_1_r.
Qed.

Lemma nearest_double_exact (q : Q) : double q -> nearest_double q = Qred q.
Proof.
  intros (m & e & Hm & He & Hq). unfold nearest_double.
  destruct q as [[|n|n] d]; cbn [Qnum].
  - symmetry. by apply (Qred_complete (0 # d) 0).
  - apply Qred_complete. apply (round_pos_exact _ m e); [|lia|done].
    assert (0 < m)%Z; [|lia].
    destruct (Z.lt_trichotomy 0 m) as [H|[<-|H]]; [done| |].
    + rewrite Qmult_0_l in Hq. discriminate Hq.
    + exfalso. assert (inject_Z m * 2 ^ e < 0)%Q as Hneg.
      { rewrite <- (Qmult_0_l (2 ^ e)). apply Qmult_lt_compat_r; [apply two_power_pos|].
        by apply inject_Z_neg. }
      rewrite <- Hq in Hneg. discriminate Hneg.
  - apply Qred_complete.
    assert (- (Z.neg n # d) == inject_Z (- m) * 2 ^ e)%Q as Hq'
      by (rewrite inject_Z_opp, Hq; ring).
    assert (0 < - m)%Z as Hm'.
    { destruct (Z.lt_trichotomy 0 (- m)) as [H|[H|H]]; [done| |].
      - assert (m = 0)%Z as -> by lia. rewrite Qmult_0_l in Hq. discriminate Hq.
      - exfalso. assert (0 < inject_Z m * 2 ^ e)%Q as Hp.
        { apply Qmult_lt_0_compat; [|apply two_power_pos].
          apply inject_Z_pos. lia. }
        rewrite <- Hq in Hp. discriminate Hp. }
    rewrite (round_pos_exact _ (- m) e); [|lia|lia|done].
    by rewrite Qopp_involutive.
Qed.

Lemma nearest_even_nonneg (n d : Z) : (0 <= n)%Z -> (0 < d)%Z -> (0 <= nearest_even n d)%Z.
Proof.
  intros Hn Hd. unfold nearest_even.
  pose proof (Z.div_pos n d Hn Hd). repeat case_match; lia.
Qed.

Lemma Qnum_nonneg (s : Q) : (0 <= s)%Q -> (0 <= Qnum s)%Z.
Proof. destruct s as [n d]. unfold Qle. simpl. lia. Qed.

Lemma round_pos_nonneg (q : Q) : (0 <= q)%Q -> (0 <= round_pos q)%Q.
Proof.
  intros Hq. unfold round_pos. apply Qmult_le_0_compat.
  - apply inject_Z_nonneg. apply nearest_even_nonneg; [|done].
    apply Qnum_nonneg.
    apply Qmult_le_0_compat; [done|apply Qlt_le_weak, two_power_pos].
  - apply Qlt_le_weak, two_power_pos.
Qed.

Lemma nearest_double_nonneg (q : Q) : (0 <= q)%Q -> (0 <= nearest_double q)%Q.
Proof.
  intros Hq. unfold nearest_double. destruct q as [[|n|n] d]; cbn [Qnum]; [done| |].
  - rewrite Qred_correct. by apply round_pos_nonneg.
  - unfold Qle in Hq. simpl in Hq. lia.
Qed.


(** ** Redrawing touches the canvas only *)

Lemma redraw_with_canvas (d : Drawer) :
  exists cs, fst (redraw d) = with_canvas d cs.
Proof. unfold redraw. destruct (run _) as [cs o]. by exists cs. Qed.

Lemma redraw_shapes (d : Drawer) : shapes (fst (redraw d)) = shapes d.
Proof. by destruct (redraw_with_canvas d) as [cs ->]. Qed.

Lemma redraw_undoneShapes (d : Drawer) :
  undoneShapes (fst (redraw d)) = undoneShapes d.
Proof. by destruct (redraw_with_canvas d) as [cs ->]. Qed.

Lemma redraw_objects (d : Drawer) : objects (fst (redraw d)) = objects d.
Proof. by destruct (redraw_with_canvas d) as [cs ->]. Qed.

Lemma redraw_settings (d : Drawer) : settings (fst (redraw d)) = settings d.
Proof. by destruct (redraw_with_canvas d) as [cs ->]. Qed.

Lemma redraw_selectedElement (d : Drawer) :
  selectedElement (fst (redraw d)) = selectedElement d.
Proof. by destruct (redraw_with_canvas d) as [cs ->]. Qed.

Lemma redraw_selectedShape (d : Drawer) :
  selectedShape (fst (redraw d)) = selectedShape d.
Proof. by destruct (redraw_with_canvas d) as [cs ->]. Qed.

(** ** A click on a tool *)

Ltac case_ifs :=
  repeat match goal with
         | |- context [if ?b then _ else _] => destruct b
         | |- context [match List.find ?f ?l with _ => _ end] =>
             destruct (List.find f l)
         end.

(** And on the results that a method matches on. *)
Ltac case_result :=
  match goal with
  | |- context [match ?r with Ok _ => _ | Throw => _ end] => destruct r; simpl
  end.

Lemma shape_click_objects (d : Drawer) (elem : shape_item) :
  objects (fst (shape_click d elem)) = objects d.
Proof. unfold shape_click. by case_ifs. Qed.

Lemma shape_click_shapes (d : Drawer) (elem : shape_item) :
  shapes (fst (shape_click d elem))
  = if String.eqb (dataset_shape elem) "text"
    then shapes d ++ [selectedElement d]
    else shapes d.
Proof.
  unfold shape_click.
  destruct (String.eqb (dataset_shape elem) "text"); by case_ifs.
Qed.

Lemma shape_click_undoneShapes (d : Drawer) (elem : shape_item) :
  undoneShapes (fst (shape_click d elem))
  = if String.eqb (dataset_shape elem) "text" then [] else undoneShapes d.
Proof.
  unfold shape_click.
  destruct (String.eqb (dataset_shape elem) "text"); by case_ifs.
Qed.

(** ** Undo and redo *)

Lemma length_snoc_pos {A} (l : list A) (e : A) : (0 <? length (l ++ [e])) = true.
Proof. rewrite length_app. simpl. apply Nat.ltb_lt. lia. Qed.

Lemma undo_snoc (d : Drawer) (l : list (option ref)) (e : option ref) :
  shapes d = l ++ [e] ->
  shapes (fst (undo d)) = l /\
  undoneShapes (fst (undo d)) = undoneShapes d ++ [e].
Proof.
  intros H. unfold undo. rewrite H, length_snoc_pos, last_snoc.
  rewrite redraw_shapes, redraw_undoneShapes. simpl.
  by rewrite removelast_last.
Qed.

Lemma redo_snoc (d : Drawer) (u : list (option ref)) (e : option ref) :
  undoneShapes d = u ++ [e] ->
  shapes (fst (redo d)) = shapes d ++ [e] /\
  undoneShapes (fst (redo d)) = u.
Proof.
  intros H. unfold redo. rewrite H, length_snoc_pos, last_snoc.
  rewrite redraw_shapes, redraw_undoneShapes. simpl.
  by rewrite removelast_last.
Qed.

Lemma undo_empty (d : Drawer) : shapes d = [] -> undo d = (d, Normal).
Proof. intros H. unfold undo. by rewrite H. Qed.

Lemma redo_empty (d : Drawer) : undoneShapes d = [] -> redo d = (d, Normal).
Proof. intros H. unfold redo. by rewrite H. Qed.

Lemma undo_times (l2 : list (option ref)) :
  forall (d : Drawer) (l1 : list (option ref)),
    shapes d = l1 ++ l2 ->
    shapes (times (length l2) undo d) = l1 /\
    undoneShapes (times (length l2) undo d) = undoneShapes d ++ rev l2.
Proof.
  induction l2 as [|e l2 IH] using rev_ind; intros d l1 H.
  - simpl. rewrite !app_nil_r in *. done.
  - rewrite length_app, Nat.add_comm. simpl.
    rewrite app_assoc in H. destruct (undo_snoc d _ _ H) as [Hs Hu].
    destruct (IH _ _ Hs) as [Hs' Hu']. split; [done|].
    by rewrite Hu', Hu, rev_app_distr, <- app_assoc.
Qed.

Lemma redo_times (l2 : list (option ref)) :
  forall (d : Drawer) (u : list (option ref)),
    undoneShapes d = u ++ rev l2 ->
    shapes (times (length l2) redo d) = shapes d ++ l2 /\
    undoneShapes (times (length l2) redo d) = u.
Proof.
  induction l2 as [|e l2 IH]; intros d u H.
  - simpl in *. rewrite !app_nil_r in *. done.
  - simpl in H. rewrite app_assoc in H.
    destruct (redo_snoc d _ _ H) as [Hs Hu]. simpl.
    destruct (IH _ _ Hu) as [Hs' Hu']. split; [|done].
    by rewrite Hs', Hs, <- app_assoc.
Qed.

(** ** Commits clear the redo history *)

Lemma for_loop_invariant {T : Type} (P : T -> Prop) (body : nat -> T -> T * outcome) :
  (forall j s, P s -> P (fst (body j s))) ->
  forall n j s, P s -> P (fst (for_loop n j body s)).
Proof.
  intros Hbody. induction n as [|n IH]; intros j s Hs; simpl; [done|].
  specialize (Hbody j s Hs). destruct (body j s) as [s' []]; simpl in *; auto.
Qed.

Lemma push_new_undoneShapes (d : Drawer) (r : result Shape) :
  undoneShapes (fst (push_new d r)) = undoneShapes d.
Proof. by destruct r. Qed.

Lemma createShapeFromJson_undoneShapes (d : Drawer) (jsonShape : jsval) :
  undoneShapes (fst (createShapeFromJson d jsonShape)) = undoneShapes d.
Proof.
  unfold createShapeFromJson.
  destruct (get _ jsonShape "type") as [type|]; [|done].
  repeat (match goal with |- context [if ?b then _ else _] => destruct b end;
          [apply push_new_undoneShapes|]).
  done.
Qed.

Lemma constructShapesFromFile_undoneShapes (d : Drawer) (tmpList : jsval) :
  undoneShapes (fst (constructShapesFromFile d tmpList)) = [].
Proof.
  unfold constructShapesFromFile.
  destruct (get _ tmpList "length") as [len|]; [|done].
  destruct (ToNumber len) as [n0|]; [|done].
  match goal with |- context [for_loop ?n ?j ?body ?d1] =>
    pose proof (for_loop_invariant (fun d => undoneShapes d = []) body) as Hinv;
    specialize (Hinv
      ltac:(intros i0 s0 Hs0; simpl; destruct (get_index _ tmpList i0); [|done];
            by rewrite createShapeFromJson_undoneShapes) n j d1 eq_refl);
    destruct (for_loop n j body d1) as [d2 []]
  end; simpl in *; [|done].
  by rewrite redraw_undoneShapes.
Qed.

(** *** What [commits] says of the handlers: those events push what is in
    progress, and among the other events only undo, redo and the bin change
    the committed list. *)

Lemma select_new_shapes (d : Drawer) (res : result Shape) :
  shapes (fst (select_new d res)) = shapes d.
Proof. by destruct res. Qed.

Lemma resize_then_redraw_shapes (d : Drawer) (r : ref) (a b : jsval) :
  shapes (fst (match resize_ref d r a b with
               | (d', Normal) => redraw d'
               | (d', Thrown) => (d', Thrown)
               end)) = shapes d.
Proof.
  unfold resize_ref. destruct (objects d !! r) as [sh|].
  - destruct (resize (settings d) sh a b) as [sh' []]; simpl; [|done].
    by rewrite redraw_shapes.
  - by rewrite redraw_shapes.
Qed.

Lemma commit_pushes_selected (d : Drawer) (ev : event) :
  commits d ev = true ->
  (forall tmpList, ev <> FileLoaded tmpList) ->
  shapes (fst (step d ev)) = shapes d ++ [selectedElement d].
Proof.
  intros H Hfile. destruct ev; simpl in H; try discriminate; simpl.
  - apply andb_prop in H as [Ht He]. apply String.eqb_eq in Ht.
    unfold mousedown. rewrite Ht. simpl.
    by destruct (selectedElement d).
  - apply andb_prop in H as [He Ht]. unfold mouseup.
    destruct (selectedElement d); [|done]. by rewrite Ht.
  - apply andb_prop in H as [H Hk]. unfold keypress. rewrite H.
    unfold textKeyPress. by rewrite Hk.
  - by rewrite shape_click_shapes, H.
  - by destruct (Hfile tmpList).
Qed.

Lemma no_commit_no_push (d : Drawer) (ev : event) :
  commits d ev = false -> rewinds d ev = false ->
  shapes (fst (step d ev)) = shapes d.
Proof.
  intros H Hr. destruct ev; simpl in H, Hr; try discriminate; simpl.
  - unfold mousedown.
    destruct (String.eqb (selectedShape d) "text") eqn:Ht.
    + apply String.eqb_eq in Ht. rewrite Ht. simpl.
      by destruct (selectedElement d).
    + case_ifs; try done; apply select_new_shapes.
  - unfold mousemove. destruct (selectedElement d); [|done].
    destruct (negb _); [|done]. apply resize_then_redraw_shapes.
  - unfold mouseup. destruct (selectedElement d); [|done].
    simpl in H. by rewrite H.
  - unfold keypress.
    destruct (String.eqb (selectedShape d) "text" && not_null (selectedElement d)).
    + simpl in H. unfold textKeyPress. rewrite H.
      destruct (selectedElement d); [|done]. apply resize_then_redraw_shapes.
    + simpl in Hr. by rewrite Hr.
  - unfold keydown. destruct (selectedElement d); [|done].
    destruct (String.eqb _ "text"); [|done].
    destruct (String.eqb key "Backspace"); [|done].
    apply resize_then_redraw_shapes.
  - by rewrite shape_click_shapes, H.
  - unfold fill_click. by destruct (negb _).
  - done.
  - done.
  - by destruct (createJsonBlob d).
Qed.

(** C2. After an event that commits (releasing the pointer over a shape in
    progress that is not text, Enter or a press on the canvas or a click on
    the text tool while a text is in progress, with or without characters,
    or a loaded file), nothing is left to redo: the undone list is empty and
    a redo that follows returns with the state as it is. *)
Theorem commit_clears_undone (d : Drawer) (ev : event) :
  commits d ev = true ->
  undoneShapes (fst (step d ev)) = [] /\
  redo (fst (step d ev)) = (fst (step d ev), Normal).
Proof.
  intros H.
  assert (undoneShapes (fst (step d ev)) = []) as Hu; [|by auto using redo_empty].
  destruct ev; simpl in H; try discriminate; simpl.
  - (* mousedown with the text tool *)
    apply andb_prop in H as [Ht He]. apply String.eqb_eq in Ht.
    unfold mousedown. rewrite Ht. simpl.
    by destruct (selectedElement d).
  - (* mouseup *)
    apply andb_prop in H as [He Ht]. unfold mouseup.
    destruct (selectedElement d); [|done]. by rewrite Ht.
  - (* Enter *)
    apply andb_prop in H as [H Hk]. unfold keypress. rewrite H.
    unfold textKeyPress. by rewrite Hk.
  - (* the text tool *)
    by rewrite shape_click_undoneShapes, H.
  - apply constructShapesFromFile_undoneShapes.
Qed.

(** ** The text tool *)

Lemma drawAllStoredShapes_skips_null (d : Drawer) :
  drawAllStoredShapes (with_shapes d (List.filter not_null (shapes d)))
  = drawAllStoredShapes d.
Proof.
  unfold drawAllStoredShapes. simpl.
  change (fun e : option ref =>
            match e with
            | Some r => render_ref (with_shapes d (List.filter not_null (shapes d))) r
            | None => []
            end)
    with (fun e : option ref =>
            match e with
            | Some r => render_ref d r
            | None => []
            end).
  induction (shapes d) as [|[r|] l IH]; simpl; [done| |done].
  by rewrite IH.
Qed.

Lemma redraw_skips_null (d : Drawer) :
  canvas (fst (redraw (with_shapes d (List.filter not_null (shapes d)))))
  = canvas (fst (redraw d)) /\
  snd (redraw (with_shapes d (List.filter not_null (shapes d)))) = snd (redraw d).
Proof.
  unfold redraw. rewrite drawAllStoredShapes_skips_null.
  change (drawSelected (with_shapes d (List.filter not_null (shapes d))))
    with (drawSelected d).
  by destruct (run _).
Qed.

(** C10. A click on the text tool appends [drawer.selectedElement] to
    [drawer.shapes] and empties [drawer.undoneShapes], whatever is in
    progress; with nothing in progress the entry appended is [null].  A
    redraw paints the same, and ends the same way, as without the [null]
    entries; undo moves the [null] entry to the undone list as it does any
    entry, and redo moves it back. *)
Theorem text_tool_click_pushes_selected (d : Drawer) :
  let d' := fst (shape_click d li_text) in
  shapes d' = shapes d ++ [selectedElement d] /\
  undoneShapes d' = [] /\
  canvas (fst (redraw d'))
  = canvas (fst (redraw (with_shapes d' (List.filter not_null (shapes d'))))) /\
  snd (redraw d')
  = snd (redraw (with_shapes d' (List.filter not_null (shapes d')))) /\
  (selectedElement d = None ->
   shapes d' = shapes d ++ [None] /\
   shapes (fst (undo d')) = shapes d /\
   undoneShapes (fst (undo d')) = [None] /\
   shapes (fst (redo (fst (undo d')))) = shapes d ++ [None] /\
   undoneShapes (fst (redo (fst (undo d')))) = []).
Proof.
  intros d'. subst d'.
  pose proof (shape_click_shapes d li_text) as Hs.
  pose proof (shape_click_undoneShapes d li_text) as Hu.
  simpl in Hs, Hu.
  destruct (redraw_skips_null (fst (shape_click d li_text))) as [Hc Hr].
  split_and!; try done.
  intros Hnull. rewrite Hnull in Hs.
  destruct (undo_snoc _ _ _ Hs) as [Hs1 Hu1]. rewrite Hu in Hu1. simpl in Hu1.
  destruct (redo_snoc _ [] _ Hu1) as [Hs2 Hu2]. rewrite Hs1 in Hs2.
  done.
Qed.

(** ** Typing into a text *)

Lemma js_length_one (k : string) : String.length k = 1 -> js_length k = 1.
Proof.
  destruct k as [|a [|b k]]; try discriminate. intros _.
  unfold js_length. cbn [code_units]. by repeat case_match.
Qed.

Lemma is_one_length (n : nat) : is_one (VNum (of_nat n)) = (n =? 1).
Proof.
  destruct (Nat.eqb_spec n 1) as [->|Hn]; [done|].
  apply not_true_is_false. intros H. apply Qeq_bool_eq in H.
  unfold Qeq in H. simpl in H. lia.
Qed.

Lemma DrawnText_resize_Backspace (amb : Settings) (p s : jsval) (chars : list jsval) :
  DrawnText_resize amb (DrawnText p s chars) (VStr "Backspace")
  = (DrawnText p s (removelast chars), Normal).
Proof. by destruct chars. Qed.

Lemma DrawnText_resize_other (amb : Settings) (p s : jsval) (chars : list jsval)
    (key : string) :
  key <> "Backspace" ->
  DrawnText_resize amb (DrawnText p s chars) (VStr key)
  = (DrawnText p s (if js_length key =? 1 then chars ++ [VStr key] else chars),
     Normal).
Proof.
  intros Hk. apply String.eqb_neq in Hk.
  unfold DrawnText_resize. cbn [is_string get]. rewrite Hk.
  change (String.eqb "length" "length") with true. cbn iota.
  rewrite is_one_length. by destruct (js_length key =? 1).
Qed.

(** C8, as the code has it.  [resize] of a text with a key name:
    "Backspace" takes the last character away, and leaves an empty text
    empty; a key of length 1, one code unit, which a letter is also outside
    ASCII, goes at the end; with any other key the characters stay as they
    are, and a character of two code units is such a key.  'H', 'i',
    "Backspace" leave ['H']. *)
Theorem DrawnText_resize_keys (amb : Settings) (p s : jsval) (chars : list jsval)
    (key : string) :
  (key = "Backspace" ->
   DrawnText_resize amb (DrawnText p s chars) (VStr key)
   = (DrawnText p s (removelast chars), Normal)) /\
  DrawnText_resize amb (DrawnText p s []) (VStr "Backspace")
  = (DrawnText p s [], Normal) /\
  (js_length key = 1 ->
   DrawnText_resize amb (DrawnText p s chars) (VStr key)
   = (DrawnText p s (chars ++ [VStr key]), Normal)) /\
  (key <> "Backspace" -> js_length key <> 1 ->
   DrawnText_resize amb (DrawnText p s chars) (VStr key)
   = (DrawnText p s chars, Normal)) /\
  type_keys amb (DrawnText p s []) ["H"; "i"; "Backspace"] = DrawnText p s [VStr "H"].
Proof.
  split_and!; [|done| | |done].
  - intros ->. apply DrawnText_resize_Backspace.
  - intros Hlen.
    assert (key <> "Backspace") as Hk by (intros ->; discriminate).
    rewrite DrawnText_resize_other by done. by rewrite Hlen.
  - intros Hk Hlen. rewrite DrawnText_resize_other by done.
    by apply Nat.eqb_neq in Hlen as ->.
Qed.

(** ** Conversions *)

Lemma ToNumber_printable (v : jsval) :
  unprintable v = false -> ToNumber v = Ok (number_of v).
Proof. intros H. unfold ToNumber. by rewrite H. Qed.

Lemma ToString_printable (v : jsval) :
  unprintable v = false -> ToString v = Ok (string_of v).
Proof. intros H. unfold ToString. by rewrite H. Qed.

Lemma ToPrimitive_printable (v : jsval) :
  unprintable v = false -> ToPrimitive v = Ok (primitive_of v).
Proof. intros H. unfold ToPrimitive. by rewrite H. Qed.

Lemma ToNumber_VNum (n : num) : ToNumber (VNum n) = Ok n.
Proof. done. Qed.

Lemma ToNumber_unprintable (v : jsval) : unprintable v = true -> ToNumber v = Throw.
Proof. intros H. unfold ToNumber. by rewrite H. Qed.

Lemma doubles_printable (args : list jsval) :
  existsb unprintable args = false -> doubles args = Ok tt.
Proof.
  induction args as [|v args IH]; simpl; [done|].
  intros [Hv Hargs]%orb_false_elim. rewrite (ToNumber_printable v Hv). by apply IH.
Qed.

Lemma DOMString_printable (v : jsval) : unprintable v = false -> DOMString v = Ok tt.
Proof. intros H. unfold DOMString. by rewrite (ToString_printable v H). Qed.

Lemma js_sub_printable (a b : jsval) :
  unprintable a = false -> unprintable b = false ->
  js_sub a b = Ok (VNum (nsub (number_of a) (number_of b))).
Proof.
  intros Ha Hb. unfold js_sub.
  by rewrite (ToNumber_printable a Ha), (ToNumber_printable b Hb).
Qed.

Lemma js_add_printable (a b : jsval) :
  unprintable a = false -> unprintable b = false ->
  exists v, js_add a b = Ok v /\ unprintable v = false.
Proof.
  intros Ha Hb. unfold js_add.
  rewrite (ToPrimitive_printable a Ha), (ToPrimitive_printable b Hb). simpl.
  eexists. split; [done|]. by destruct (primitive_of a), (primitive_of b).
Qed.

Lemma js_half_printable (a : jsval) :
  unprintable a = false -> js_half a = Ok (VNum (nhalf (number_of a))).
Proof. intros Ha. unfold js_half. by rewrite (ToNumber_printable a Ha). Qed.

Lemma middle_printable (a b : jsval) :
  unprintable a = false -> unprintable b = false ->
  exists n, middle a b = Ok (VNum n).
Proof.
  intros Ha Hb. unfold middle.
  destruct (js_add_printable a b Ha Hb) as (v & -> & Hv). simpl.
  rewrite (js_half_printable v Hv). eauto.
Qed.

Lemma middle_numbers (x y : num) :
  middle (VNum x) (VNum y) = Ok (VNum (nhalf (nadd x y))).
Proof. done. Qed.

Lemma item_printable (a : list jsval) (i : nat) :
  existsb unprintable a = false -> unprintable (item a i) = false.
Proof.
  intros Ha. unfold item. destruct (a !! i) as [v|] eqn:Hv; [|done]. simpl.
  destruct (unprintable v) eqn:Hu; [|done].
  assert (existsb unprintable a = true) as H; [|congruence].
  apply existsb_exists. exists v. split; [|done].
  by apply list_elem_of_In, (list_elem_of_lookup_2 a i).
Qed.

Lemma numbers_printable (l : list Q) :
  existsb unprintable (map (fun q => VNum (Fin q)) l) = false.
Proof. by induction l. Qed.

Lemma existsb_app_false {A} (f : A -> bool) (l1 l2 : list A) :
  existsb f (l1 ++ l2) = false -> existsb f l1 = false /\ existsb f l2 = false.
Proof. rewrite existsb_app. apply orb_false_elim. Qed.



(** ** Statements *)


Lemma run_all_ok (body : list stmt) :
  Forall (fun st => st <> Throw) body -> snd (run body) = Normal.
Proof.
  induction 1 as [|[cs|] body Hst Hbody IH]; simpl; [done| |done].
  by destruct (run body).
Qed.


(** ** The smoothing loop *)

Lemma smooth_loop_step (xList yList : list jsval) (i : nat) :
  smooth_loop xList yList i =
  if (Z.of_nat (length xList) - 1 <? Z.of_nat i)%Z
  then [ctx_quadraticCurveTo (item xList i) (item yList i)
                             (item xList (i + 1)) (item yList (i + 1))]
  else interior xList yList i :: smooth_loop xList yList (S i).
Proof. funelim (smooth_loop xList yList i); by rewrite e. Qed.

(** The loop breaks in the round [i = xList.length], after a round for
    every index of the array. *)
Lemma smooth_loop_from (xList yList : list jsval) (k : nat) :
  forall i, i + k = length xList ->
    smooth_loop xList yList i =
    map (interior xList yList) (seq i k)
    ++ [ctx_quadraticCurveTo
          (item xList (length xList)) (item yList (length xList))
          (item xList (length xList + 1)) (item yList (length xList + 1))].
Proof.
  induction k as [|k IH]; intros i Hi; rewrite smooth_loop_step.
  - rewrite Nat.add_0_r in Hi. subst i.
    by destruct (Z.ltb_spec (Z.of_nat (length xList) - 1) (Z.of_nat (length xList)));
      [|lia].
  - destruct (Z.ltb_spec (Z.of_nat (length xList) - 1) (Z.of_nat i)); [lia|].
    simpl. f_equal. apply IH. lia.
Qed.




Lemma ctx_quadraticCurveTo_printable (cpx cpy x y : jsval) :
  existsb unprintable [cpx; cpy; x; y] = false ->
  ctx_quadraticCurveTo cpx cpy x y = Ok [QuadraticCurveTo cpx cpy x y].
Proof. intros H. unfold ctx_quadraticCurveTo. by rewrite (doubles_printable _ H). Qed.

Lemma interior_printable (xList yList : list jsval) (i : nat) :
  existsb unprintable xList = false -> existsb unprintable yList = false ->
  interior xList yList i <> Throw.
Proof.
  intros Hx Hy. unfold interior.
  destruct (middle_printable (item xList i) (item xList (i + 1))) as [cx ->];
    [by apply item_printable..|].
  destruct (middle_printable (item yList i) (item yList (i + 1))) as [cy ->];
    [by apply item_printable..|].
  simpl. rewrite ctx_quadraticCurveTo_printable; [done|].
  simpl. by rewrite !item_printable.
Qed.

Lemma smooth_loop_printable (xList yList : list jsval) :
  existsb unprintable xList = false -> existsb unprintable yList = false ->
  Forall (fun st => st <> Throw) (smooth_loop xList yList 0).
Proof.
  intros Hx Hy.
  rewrite (smooth_loop_from xList yList (length xList) 0 eq_refl).
  apply Forall_app. split.
  - apply Forall_map, Forall_forall. intros i _. by apply interior_printable.
  - apply Forall_singleton. rewrite ctx_quadraticCurveTo_printable; [done|].
    simpl. by rewrite !item_printable.
Qed.

Lemma item_past_end (a : list jsval) (i : nat) : length a <= i -> item a i = VUndef.
Proof. intros H. unfold item. by rewrite lookup_ge_None_2. Qed.

Lemma item_last (a : list jsval) (v : jsval) : item (a ++ [v]) (length a) = v.
Proof. unfold item. by rewrite list_lookup_middle. Qed.

Lemma item_xs_of (pts : list (Q * Q)) (i : nat) (x y : Q) :
  pts !! i = Some (x, y) -> item (xs_of pts) i = VNum (Fin x).
Proof. intros H. unfold item, xs_of. by rewrite list_lookup_fmap, H. Qed.

Lemma item_ys_of (pts : list (Q * Q)) (i : nat) (x y : Q) :
  pts !! i = Some (x, y) -> item (ys_of pts) i = VNum (Fin y).
Proof. intros H. unfold item, ys_of. by rewrite list_lookup_fmap, H. Qed.

(** C4. What [LineList.render] and [EraseList.render] draw for the points
    [pts] followed by a last point ([a], [b]): the rounds before the last
    point, each a curve from a point to the middle of it and the next, then
    a curve whose control point is the last point and whose end point is
    [NaN], [NaN], the half of its sum with the element one past the end of
    the arrays, then a curve whose four arguments are elements past the
    end.  No curve ends at the last point.  The canvas after a press at
    (0, 0) and moves to (10, 0) and (20, 10), with the pencil and with the
    eraser, is as listed. *)
Theorem smooth_loop_reads_past_the_end (pts : list (Q * Q)) (a b : Q) :
  let xList := xs_of (pts ++ [(a, b)]) in
  let yList := ys_of (pts ++ [(a, b)]) in
  smooth_loop xList yList 0
  = map (interior xList yList) (seq 0 (length pts))
    ++ [Ok [QuadraticCurveTo (VNum (Fin a)) (VNum (Fin b)) (VNum NaN) (VNum NaN)];
        Ok [QuadraticCurveTo VUndef VUndef VUndef VUndef]] /\
  (forall (i : nat) (x y x' y' : Q),
     (pts ++ [(a, b)]) !! i = Some (x, y) ->
     (pts ++ [(a, b)]) !! (i + 1) = Some (x', y') ->
     interior xList yList i
     = Ok [QuadraticCurveTo (VNum (Fin x)) (VNum (Fin y))
             (VNum (nhalf (nadd (Fin x) (Fin x'))))
             (VNum (nhalf (nadd (Fin y) (Fin y'))))]) /\
  canvas (run_events drawer0 [MouseDown 0 0; MouseMove 10 0; MouseMove 20 10])
  = [SetGlobalCompositeOperation "source-over";
     SetFillStyle (VStr "#000000"); SetStrokeStyle (VStr "#000000");
     SetLineWidth (VNum (Fin 10)); SetFont (VStr "36pt sans-serif");
     BeginPath; MoveTo (VNum (Fin 0)) (VNum (Fin 0));
     QuadraticCurveTo (VNum (Fin 10)) (VNum (Fin 0)) (VNum (Fin 15)) (VNum (Fin 5));
     QuadraticCurveTo (VNum (Fin 20)) (VNum (Fin 10)) (VNum NaN) (VNum NaN);
     QuadraticCurveTo VUndef VUndef VUndef VUndef;
     Stroke; ClosePath] /\
  canvas (run_events (with_selectedShape drawer0 "eraseList")
            [MouseDown 0 0; MouseMove 10 0; MouseMove 20 10])
  = [SetFillStyle (VStr "#000000"); SetStrokeStyle (VStr "#000000");
     SetLineWidth (VNum (Fin 20)); SetFont (VStr "36pt sans-serif");
     BeginPath; SetGlobalCompositeOperation "destination-out";
     MoveTo (VNum (Fin 0)) (VNum (Fin 0));
     QuadraticCurveTo (VNum (Fin 10)) (VNum (Fin 0)) (VNum (Fin 15)) (VNum (Fin 5));
     QuadraticCurveTo (VNum (Fin 20)) (VNum (Fin 10)) (VNum NaN) (VNum NaN);
     QuadraticCurveTo VUndef VUndef VUndef VUndef;
     Stroke; ClosePath].
Proof.
  intros xList yList. split; [|split; [|split; by vm_compute]].
  - assert (length xList = S (length pts)) as Hx
      by (unfold xList, xs_of; rewrite length_map, length_app; simpl; lia).
    assert (length yList = S (length pts)) as Hy
      by (unfold yList, ys_of; rewrite length_map, length_app; simpl; lia).
    assert (item xList (length pts) = VNum (Fin a)) as Hxa.
    { unfold xList, xs_of. rewrite map_app. simpl.
      replace (length pts)
        with (length (map (fun p : Q * Q => VNum (Fin (fst p))) pts))
        by apply length_map.
      apply item_last. }
    assert (item yList (length pts) = VNum (Fin b)) as Hyb.
    { unfold yList, ys_of. rewrite map_app. simpl.
      replace (length pts)
        with (length (map (fun p : Q * Q => VNum (Fin (snd p))) pts))
        by apply length_map.
      apply item_last. }
    rewrite (smooth_loop_from xList yList (length xList) 0 eq_refl).
    rewrite Hx, seq_S, map_app, <- app_assoc. simpl. f_equal.
    unfold interior. rewrite Hxa, Hyb.
    rewrite (item_past_end xList (length pts + 1)) by lia.
    rewrite (item_past_end yList (length pts + 1)) by lia.
    rewrite (item_past_end xList (S (length pts))) by lia.
    rewrite (item_past_end yList (S (length pts))) by lia.
    rewrite (item_past_end xList (S (length pts + 1))) by lia.
    rewrite (item_past_end yList (S (length pts + 1))) by lia.
    done.
  - intros i x y x' y' Hi Hi'. unfold interior, xList, yList.
    rewrite (item_xs_of _ _ _ _ Hi), (item_xs_of _ _ _ _ Hi').
    rewrite (item_ys_of _ _ _ _ Hi), (item_ys_of _ _ _ _ Hi').
    by rewrite !middle_numbers.
Qed.

(** ** The eraser *)


Lemma double_Qeq (p q : Q) : (p == q)%Q -> double q -> double p.
Proof. intros H (m & e & Hm & He & Hq). exists m, e. by rewrite H. Qed.




(** ** Save and load *)

(** C1. An oval drawn from (10, 10) to (50, 40) and committed has the
    second point (50, 40) in its properties [x] and [y], and the file holds
    them; the oval that loading the file creates has (10, 10) there, the
    position, and is painted around the centre (10, 10) where the oval that
    was saved was painted around (30, 25). *)
Theorem oval_second_point_lost_on_load :
  let d := run_events drawer0
             [ShapeClick li_oval; MouseDown 10 10; MouseMove 50 40; MouseUp] in
  let pos := VObj [("x", VNum (Fin 10)); ("y", VNum (Fin 10))] in
  let s := VObj [("color", VStr "#000000"); ("filled", VBool false);
                 ("width", VNum (Fin 10)); ("font", VStr "36pt sans-serif")] in
  committed d
  = [Some (Oval pos s (VNum (Fin 20)) (VNum (Fin 15)) (VNum (Fin 50)) (VNum (Fin 40)))] /\
  createJsonBlob d
  = Ok (VArr [VObj [("position", pos); ("settings", s);
                    ("xRadius", VNum (Fin 20)); ("yRadius", VNum (Fin 15));
                    ("x", VNum (Fin 50)); ("y", VNum (Fin 40));
                    ("type", VStr "Oval")]]) /\
  exists d', save_and_load d = Ok (d', Normal) /\
    committed d'
    = [Some (Oval pos s (VNum (Fin 20)) (VNum (Fin 15)) (VNum (Fin 10)) (VNum (Fin 10)))] /\
    committed d' <> committed d /\
    In (Ellipse (VNum (Fin 30)) (VNum (Fin 25)) (VNum (Fin 20)) (VNum (Fin 15)))
       (canvas d) /\
    In (Ellipse (VNum (Fin 10)) (VNum (Fin 10)) (VNum (Fin 20)) (VNum (Fin 15)))
       (canvas d').
Proof.
  intros d pos s. split; [by vm_compute|]. split; [by vm_compute|].
  eexists. split; [by vm_compute|].
  split_and!; [by vm_compute|by vm_compute|vm_compute; tauto|vm_compute; tauto].
Qed.

(** The same for a circle. *)
Example Circle_second_point_lost_on_load :
  let d := run_events drawer0
             [ShapeClick li_circle; MouseDown 10 10; MouseMove 50 40; MouseUp] in
  exists d' pos s, save_and_load d = Ok (d', Normal) /\
    committed d
    = [Some (Circle pos s (VNum (Fin 20)) (VNum (Fin 20)) (VNum (Fin 50)) (VNum (Fin 40)))] /\
    committed d'
    = [Some (Circle pos s (VNum (Fin 20)) (VNum (Fin 20)) (VNum (Fin 10)) (VNum (Fin 10)))].
Proof. eexists _, _, _. by vm_compute. Qed.

(** The other classes, on an example each: the file gives back the shape
    that was saved. *)
Example Rectangle_save_and_load :
  let d := run_events drawer0
             [ShapeClick li_rectangle; MouseDown 10 10; MouseMove 50 40; MouseUp] in
  committed d
  = [Some (Rectangle (VObj [("x", VNum (Fin 10)); ("y", VNum (Fin 10))])
             (VObj [("color", VStr "#000000"); ("filled", VBool false);
                    ("width", VNum (Fin 10)); ("font", VStr "36pt sans-serif")])
             (VNum (Fin 40)) (VNum (Fin 30)))] /\
  save_and_load_same d.
Proof. split; [by vm_compute|]. eexists. by vm_compute. Qed.

Example Line_save_and_load :
  save_and_load_same
    (run_events drawer0 [ShapeClick li_line; MouseDown 10 10; MouseMove 50 40; MouseUp]).
Proof. eexists. by vm_compute. Qed.

Example LineList_save_and_load :
  save_and_load_same
    (run_events drawer0 [MouseDown 0 0; MouseMove 10 0; MouseMove 20 10; MouseUp]).
Proof. eexists. by vm_compute. Qed.

Example EraseList_save_and_load :
  save_and_load_same
    (run_events (with_selectedShape drawer0 "eraseList")
       [MouseDown 0 0; MouseMove 10 0; MouseMove 20 10; MouseUp]).
Proof. eexists. by vm_compute. Qed.

Example DrawnText_save_and_load :
  save_and_load_same
    (run_events (with_selectedShape drawer0 "text")
       [MouseDown 5 5; KeyPress "H" false false; KeyPress "i" false false;
        KeyDown "Backspace"; KeyPress "Enter" false false]).
Proof. eexists. by vm_compute. Qed.

(** After a click on the text tool with nothing in progress, saving throws:
    the committed list holds [null]. *)
Example save_after_text_tool_click :
  createJsonBlob (fst (shape_click drawer0 li_text)) = Throw /\
  snd (step (fst (shape_click drawer0 li_text)) SaveClick) = Thrown.
Proof. split; reflexivity. Qed.

(** A rectangle from (10, 10) to (50, 40), committed, undone and redone. *)
Example Rectangle_undo_redo :
  let d := run_events drawer0
             [ShapeClick li_rectangle; MouseDown 10 10; MouseMove 50 40; MouseUp] in
  shapes d = [Some 0] /\ undoneShapes d = [] /\
  shapes (fst (undo d)) = [] /\ undoneShapes (fst (undo d)) = [Some 0] /\
  shapes (fst (redo (fst (undo d)))) = [Some 0] /\
  undoneShapes (fst (redo (fst (undo d)))) = [] /\
  createJsonBlob d = Ok (VArr [rectangle_record]).
Proof. by vm_compute. Qed.

(** ** Records that load skips, and records that end it *)

Lemma loop_count_length (n : nat) : loop_count (of_nat n) = n.
Proof. simpl. rewrite Qceiling_Z. apply Nat2Z.id. Qed.

Lemma for_loop_records (l : list jsval) :
  forall (pre : list jsval) (d : Drawer),
    for_loop (length l) (length pre)
      (fun i d =>
         match get_index (settings d) (VArr (pre ++ l)) i with
         | Throw => (d, Thrown)
         | Ok jsonShape => createShapeFromJson d jsonShape
         end) d
    = load_records d l.
Proof.
  induction l as [|r l IH]; intros pre d; simpl; [done|].
  rewrite list_lookup_middle by done. simpl.
  destruct (createShapeFromJson d r) as [d' []]; [|done].
  specialize (IH (pre ++ [r]) d').
  rewrite <- app_assoc, length_app, Nat.add_comm in IH. apply IH.
Qed.

Lemma constructShapesFromFile_array (d : Drawer) (l : list jsval) :
  constructShapesFromFile d (VArr l)
  = match load_records (reset d) l with
    | (d2, Normal) => redraw d2
    | (d2, Thrown) => (d2, Thrown)
    end.
Proof.
  unfold constructShapesFromFile. cbn [get]. cbn iota.
  change (String.eqb "length" "length") with true. cbn iota.
  cbn [ToNumber unprintable number_of]. rewrite loop_count_length.
  by rewrite <- (for_loop_records l [] (reset d)).
Qed.

Lemma createShapeFromJson_unknown_tag (d : Drawer) (jsonShape : jsval) :
  unknown_tag jsonShape = true -> createShapeFromJson d jsonShape = (d, Normal).
Proof.
  intros H. unfold createShapeFromJson.
  destruct jsonShape as [| | | | s |l|props|]; try discriminate; try done.
  simpl in *. apply negb_true_iff in H.
  repeat (apply orb_false_elim in H as [-> H]). done.
Qed.

Lemma load_records_skips (l : list jsval) :
  forall d : Drawer,
    load_records d (List.filter (fun r => negb (unknown_tag r)) l) = load_records d l.
Proof.
  induction l as [|r l IH]; intros d; simpl; [done|].
  destruct (unknown_tag r) eqn:Hr; simpl.
  - by rewrite createShapeFromJson_unknown_tag.
  - destruct (createShapeFromJson d r) as [d' []]; [apply IH|done].
Qed.

Lemma createShapeFromJson_ends_load (d : Drawer) (jsonShape : jsval) :
  ends_load jsonShape = true -> createShapeFromJson d jsonShape = (d, Thrown).
Proof.
  intros H. unfold createShapeFromJson.
  destruct jsonShape as [| | | | s |l|props|]; try discriminate; try done.
  cbn [ends_load] in H. cbn [get].
  assert (forall v, nullish v = true -> forall k, get (settings d) v k = Throw)
    as Hnull by (by intros []).
  destruct (is_string (assoc "type" props) "Rectangle") eqn:H0.
  { destruct (assoc "type" props) as [| | | |t| | |]; try discriminate.
    apply String.eqb_eq in H0 as ->. discriminate. }
  destruct (is_string (assoc "type" props) "Oval") eqn:H1.
  { destruct (assoc "type" props) as [| | | |t| | |]; try discriminate.
    apply String.eqb_eq in H1 as ->. cbn in H. rewrite !orb_false_r in H.
    unfold new_Oval, new_Circle, new_Line. cbn [get rbind]. by rewrite (Hnull _ H). }
  destruct (is_string (assoc "type" props) "Circle") eqn:H2.
  { destruct (assoc "type" props) as [| | | |t| | |]; try discriminate.
    apply String.eqb_eq in H2 as ->. cbn in H. rewrite !orb_false_r in H.
    unfold new_Oval, new_Circle, new_Line. cbn [get rbind]. by rewrite (Hnull _ H). }
  destruct (is_string (assoc "type" props) "Line") eqn:H3.
  { destruct (assoc "type" props) as [| | | |t| | |]; try discriminate.
    apply String.eqb_eq in H3 as ->. cbn in H. rewrite !orb_false_r in H.
    unfold new_Oval, new_Circle, new_Line. cbn [get rbind]. by rewrite (Hnull _ H). }
  destruct (is_string (assoc "type" props) "LineList") eqn:H4.
  { destruct (assoc "type" props) as [| | | |t| | |]; try discriminate.
    apply String.eqb_eq in H4 as ->. cbn in H. rewrite !orb_false_r in H.
    unfold new_LineList, new_EraseList, replay_points. cbn [get rbind].
    by rewrite (Hnull _ H). }
  destruct (is_string (assoc "type" props) "EraseList") eqn:H5.
  { destruct (assoc "type" props) as [| | | |t| | |]; try discriminate.
    apply String.eqb_eq in H5 as ->. cbn in H. rewrite !orb_false_r in H.
    unfold new_LineList, new_EraseList, replay_points. cbn [get rbind].
    by rewrite (Hnull _ H). }
  destruct (is_string (assoc "type" props) "DrawnText") eqn:H6.
  { destruct (assoc "type" props) as [| | | |t| | |]; try discriminate.
    apply String.eqb_eq in H6 as ->. cbn in H.
    unfold new_DrawnText, replay_chars. cbn [get rbind].
    by rewrite (Hnull _ H). }
  discriminate.
Qed.

Lemma load_records_app (pre l : list jsval) :
  forall d : Drawer,
    load_records d (pre ++ l)
    = match load_records d pre with
      | (d', Normal) => load_records d' l
      | (d', Thrown) => (d', Thrown)
      end.
Proof.
  induction pre as [|r pre IH]; intros d; simpl; [done|].
  destruct (createShapeFromJson d r) as [d' []]; [apply IH|done].
Qed.

Lemma createShapeFromJson_canvas (d : Drawer) (jsonShape : jsval) :
  canvas (fst (createShapeFromJson d jsonShape)) = canvas d.
Proof.
  unfold createShapeFromJson.
  destruct (get (settings d) jsonShape "type") as [type|]; [|done].
  case_ifs; try done;
    match goal with |- context [push_new d ?res] => by destruct res end.
Qed.

Lemma load_records_canvas (l : list jsval) :
  forall d : Drawer, canvas (fst (load_records d l)) = canvas d.
Proof.
  induction l as [|r l IH]; intros d; simpl; [done|].
  pose proof (createShapeFromJson_canvas d r) as Hc.
  destruct (createShapeFromJson d r) as [d' []]; simpl in *; [|done].
  by rewrite IH.
Qed.

(** C5, as the code has it.  A record that is not [null] and whose [type]
    is missing or none of the seven names is skipped: loading an array
    does the same as loading it without these records.  A [null] record,
    and a record with a known [type] that lacks what its constructor or its
    replay loop reads from ([position] of an Oval or a Circle, [endPosition]
    of a Line, [xList] of a LineList or an EraseList, [chars] of a
    DrawnText), end the load with a [TypeError], wherever they stand in the
    array: the records before it are decoded, the records after it are
    not, and nothing is redrawn, the canvas stays as it was before the
    load. *)
Theorem load_skips_unknown_tags (d : Drawer) (l pre post : list jsval) (bad : jsval) :
  constructShapesFromFile d (VArr l)
  = constructShapesFromFile d (VArr (List.filter (fun r => negb (unknown_tag r)) l)) /\
  (ends_load bad = true ->
   snd (load_records (reset d) pre) = Normal ->
   constructShapesFromFile d (VArr (pre ++ bad :: post))
   = (fst (load_records (reset d) pre), Thrown) /\
   constructShapesFromFile d (VArr pre) = redraw (fst (load_records (reset d) pre)) /\
   canvas (fst (constructShapesFromFile d (VArr (pre ++ bad :: post)))) = canvas d).
Proof.
  split.
  - rewrite !constructShapesFromFile_array. by rewrite load_records_skips.
  - intros Hbad Hpre. rewrite !constructShapesFromFile_array, load_records_app.
    pose proof (load_records_canvas pre (reset d)) as Hc.
    destruct (load_records (reset d) pre) as [d1 []]; [|discriminate].
    cbn [load_records fst] in *. rewrite (createShapeFromJson_ends_load d1 bad Hbad).
    by split_and!.
Qed.

(** ** Shapes own their settings *)

Lemma plain_assoc (k : string) (props : list (string * jsval)) :
  plain (VObj props) = true -> plain (assoc k props) = true.
Proof.
  induction props as [|[k' v] props IH]; simpl; [done|].
  intros [Hv Hrest]%andb_prop. destruct (String.eqb k k'); auto.
Qed.

Lemma plain_char_at (s : string) : forall j, plain (char_at s j) = true.
Proof. intros j. unfold char_at. by destruct (code_units s !! j). Qed.

Lemma get_plain (amb : Settings) (v v' : jsval) (k : string) :
  plain v = true -> get amb v k = Ok v' -> plain v' = true.
Proof.
  destruct v; simpl; intros Hv Hget; try discriminate;
    injection Hget as <-; auto using plain_assoc.
  - by destruct (String.eqb k "length").
  - by destruct (String.eqb k "length").
Qed.

Lemma get_index_plain (amb : Settings) (v v' : jsval) (j : nat) :
  plain v = true -> get_index amb v j = Ok v' -> plain v' = true.
Proof.
  destruct v; simpl; intros Hv Hget; try discriminate;
    injection Hget as <-; auto using plain_assoc, plain_char_at.
  destruct (elems !! j) as [e|] eqn:He; simpl; [|done].
  rewrite forallb_forall in Hv. apply Hv.
  apply list_elem_of_In. by eapply list_elem_of_lookup_2.
Qed.

Lemma get_ambient_free (amb amb' : Settings) (v : jsval) (k : string) :
  plain v = true -> get amb v k = get amb' v k.
Proof. by destruct v. Qed.

Lemma render_ambient_free (amb amb' : Settings) (sh : Shape) :
  owns_settings sh -> render amb sh = render amb' sh.
Proof.
  intros [Hp Hs].
  destruct sh as [p s ? ?|p s ? ? ? ?|p s ? ? ? ?|p s ? ?|p s ? ?|p s ? ?|p s ?];
    simpl in Hp, Hs; unfold render, Rectangle_render, Oval_render, Line_render,
      LineList_render, EraseList_render, DrawnText_render, Shape_render;
    cbn [settings_of position_of];
    repeat rewrite (get_ambient_free amb amb' p) by done;
    repeat rewrite (get_ambient_free amb amb' s) by done;
    reflexivity.
Qed.

Lemma resize_keeps (amb : Settings) (sh : Shape) (a b : jsval) :
  position_of (fst (resize amb sh a b)) = position_of sh /\
  settings_of (fst (resize amb sh a b)) = settings_of sh.
Proof.
  destruct sh as [p s ? ?|p s ? ? ? ?|p s ? ? ? ?|p s ? ?|p s ? ?|p s ? ?|p s cs];
    simpl; try done.
  - by repeat case_result.
  - by repeat case_result.
  - by repeat case_result.
  - destruct (is_string a "Backspace").
    + by destruct (0 <? length cs).
    + destruct (get amb a "length") as [len|]; [|done]. by destruct (is_one len).
Qed.

Lemma resize_owns (amb : Settings) (sh : Shape) (a b : jsval) :
  owns_settings sh -> owns_settings (fst (resize amb sh a b)).
Proof.
  unfold owns_settings. by destruct (resize_keeps amb sh a b) as [-> ->].
Qed.

Lemma select_new_all_own (d : Drawer) (r : result Shape) :
  all_own d -> (forall sh, r = Ok sh -> owns_settings sh) ->
  all_own (fst (select_new d r)).
Proof.
  intros Hd Hr. destruct r as [sh|]; simpl; [|done].
  apply Forall_app. split; [done|]. apply Forall_singleton. by apply Hr.
Qed.

Lemma push_new_all_own (d : Drawer) (r : result Shape) :
  all_own d -> (forall sh, r = Ok sh -> owns_settings sh) ->
  all_own (fst (push_new d r)).
Proof.
  intros Hd Hr. destruct r as [sh|]; simpl; [|done].
  apply Forall_app. split; [done|]. apply Forall_singleton. by apply Hr.
Qed.

Lemma resize_ref_all_own (d : Drawer) (r : ref) (a b : jsval) :
  all_own d -> all_own (fst (resize_ref d r a b)).
Proof.
  intros Hd. unfold resize_ref.
  destruct (objects d !! r) as [sh|] eqn:Hsh; [|done].
  pose proof (resize_owns (settings d) sh a b) as Hown.
  destruct (resize (settings d) sh a b) as [sh' o]. simpl in *.
  apply Forall_insert; [done|]. apply Hown.
  by eapply (Forall_lookup_1 _ _ _ _ Hd).
Qed.

Lemma redraw_all_own (d : Drawer) : all_own d -> all_own (fst (redraw d)).
Proof. unfold all_own. by rewrite redraw_objects. Qed.

Lemma undo_objects (d : Drawer) : objects (fst (undo d)) = objects d.
Proof.
  unfold undo. destruct (0 <? length (shapes d)); [|done].
  destruct (last (shapes d)); [|done]. by rewrite redraw_objects.
Qed.

Lemma redo_objects (d : Drawer) : objects (fst (redo d)) = objects d.
Proof.
  unfold redo. destruct (0 <? length (undoneShapes d)); [|done].
  destruct (last (undoneShapes d)); [|done]. by rewrite redraw_objects.
Qed.

Lemma resize_then_redraw_all_own (d : Drawer) (r : ref) (a b : jsval) :
  all_own d ->
  all_own (fst (match resize_ref d r a b with
                | (d', Normal) => redraw d'
                | (d', Thrown) => (d', Thrown)
                end)).
Proof.
  intros Hd. pose proof (resize_ref_all_own d r a b Hd) as H.
  destruct (resize_ref d r a b) as [d' []]; simpl in *; auto using redraw_all_own.
Qed.

Lemma mousedown_all_own (d : Drawer) (x y : Q) :
  all_own d -> all_own (fst (mousedown d x y)).
Proof.
  intros Hd. unfold mousedown.
  repeat match goal with
         | |- context [if ?b then _ else _] => destruct b
         end; try done;
    try (apply select_new_all_own; [done|]; simpl; intros sh Hsh;
         injection Hsh as <-; by split).
  apply select_new_all_own; [by destruct (selectedElement d)|].
  simpl. intros sh Hsh. injection Hsh as <-. by split.
Qed.

Lemma for_loop_keeps (amb : Settings) (body : nat -> Shape -> Shape * outcome)
    (n j : nat) (this : Shape) :
  (forall j t, position_of (fst (body j t)) = position_of t /\
               settings_of (fst (body j t)) = settings_of t) ->
  position_of (fst (for_loop n j body this)) = position_of this /\
  settings_of (fst (for_loop n j body this)) = settings_of this.
Proof.
  intros Hbody.
  apply (for_loop_invariant
           (fun t => position_of t = position_of this /\
                     settings_of t = settings_of this) body); [|done].
  intros j' t [Hp Hs]. destruct (Hbody j' t) as [-> ->]. done.
Qed.

Lemma replay_points_keeps (amb : Settings) (jsonShape : jsval) (this this' : Shape) :
  replay_points amb jsonShape this = Ok this' ->
  position_of this' = position_of this /\ settings_of this' = settings_of this.
Proof.
  unfold replay_points.
  destruct (get amb jsonShape "xList") as [xList|]; [|done]. simpl.
  destruct (get amb xList "length") as [len|]; [|done]. simpl.
  destruct (ToNumber len) as [n0|]; [|done]. simpl.
  match goal with |- context [for_loop ?n ?j ?body ?t] =>
    pose proof (for_loop_keeps amb body n j t) as Hkeep;
    destruct (for_loop n j body t) as [t' []]
  end; [|done].
  intros [= <-]. apply Hkeep. intros j t.
  destruct (get_index amb xList j); [|done].
  destruct (rbind _ _); [|done]. apply resize_keeps.
Qed.

Lemma replay_chars_keeps (amb : Settings) (jsonShape : jsval) (this this' : Shape) :
  replay_chars amb jsonShape this = Ok this' ->
  position_of this' = position_of this /\ settings_of this' = settings_of this.
Proof.
  unfold replay_chars.
  destruct (get amb jsonShape "chars") as [chars|]; [|done]. simpl.
  destruct (get amb chars "length") as [len|]; [|done]. simpl.
  destruct (ToNumber len) as [n0|]; [|done]. simpl.
  match goal with |- context [for_loop ?n ?j ?body ?t] =>
    pose proof (for_loop_keeps amb body n j t) as Hkeep;
    destruct (for_loop n j body t) as [t' []]
  end; [|done].
  intros [= <-]. apply Hkeep. intros j t.
  destruct (get_index amb chars j); [|done]. apply resize_keeps.
Qed.

Lemma createShapeFromJson_all_own (d : Drawer) (jsonShape : jsval) :
  all_own d -> plain jsonShape = true ->
  all_own (fst (createShapeFromJson d jsonShape)).
Proof.
  intros Hd Hjs. unfold createShapeFromJson.
  destruct (get (settings d) jsonShape "type") as [type|]; [|done].
  repeat match goal with
         | |- context [if ?b then _ else _] => destruct b
         end; try done;
    (apply push_new_all_own; [done|]; intros sh;
     destruct (get (settings d) jsonShape "position") as [p|] eqn:Hp; [|done];
     destruct (get (settings d) jsonShape "settings") as [s|] eqn:Hs; [|done];
     apply get_plain in Hp; [|done]; apply get_plain in Hs; [|done]; simpl).
  - destruct (get _ jsonShape "width"); [|done].
    destruct (get _ jsonShape "height"); [|done]. simpl. by intros [= <-].
  - destruct (get _ jsonShape "xRadius"); [|done].
    destruct (get _ jsonShape "yRadius"); [|done]. simpl. unfold new_Oval.
    destruct (get _ p "x"); [|done]. destruct (get _ p "y"); [|done].
    simpl. by intros [= <-].
  - destruct (get _ jsonShape "xRadius"); [|done]. simpl. unfold new_Circle.
    destruct (get _ p "x"); [|done]. destruct (get _ p "y"); [|done].
    simpl. by intros [= <-].
  - destruct (get _ jsonShape "endPosition") as [e|]; [|done]. simpl.
    unfold new_Line.
    destruct (get _ e "x"); [|done]. destruct (get _ e "y"); [|done].
    simpl. by intros [= <-].
  - intros H. apply replay_points_keeps in H as [Hp' Hs']. simpl in Hp', Hs'.
    unfold owns_settings. by rewrite Hp', Hs'.
  - intros H. apply replay_points_keeps in H as [Hp' Hs']. simpl in Hp', Hs'.
    unfold owns_settings. by rewrite Hp', Hs'.
  - intros H. apply replay_chars_keeps in H as [Hp' Hs']. simpl in Hp', Hs'.
    unfold owns_settings. by rewrite Hp', Hs'.
Qed.

Lemma constructShapesFromFile_all_own (d : Drawer) (tmpList : jsval) :
  all_own d -> plain tmpList = true ->
  all_own (fst (constructShapesFromFile d tmpList)).
Proof.
  intros Hd Hfile. unfold constructShapesFromFile.
  destruct (get _ tmpList "length") as [len|]; [|done].
  destruct (ToNumber len) as [n0|]; [|done].
  match goal with |- context [for_loop ?n ?j ?body ?d1] =>
    pose proof (for_loop_invariant all_own body) as Hinv;
    specialize (Hinv
      ltac:(intros i0 s0 Hs0; simpl;
            destruct (get_index _ tmpList i0) as [js|] eqn:Hjs; [|done];
            apply createShapeFromJson_all_own; [done|];
            by eapply get_index_plain) n j d1 Hd);
    destruct (for_loop n j body d1) as [d2 []]
  end; simpl in *; auto using redraw_all_own.
Qed.

Lemma step_all_own (d : Drawer) (ev : event) :
  all_own d -> from_file ev -> all_own (fst (step d ev)).
Proof.
  intros Hd Hev. destruct ev; simpl.
  - by apply mousedown_all_own.
  - unfold mousemove. destruct (selectedElement d); [|done].
    destruct (negb _); [|done]. by apply resize_then_redraw_all_own.
  - unfold mouseup. destruct (selectedElement d); [|done]. by destruct (negb _).
  - unfold keypress. destruct (_ && _).
    + unfold textKeyPress. destruct (String.eqb key "Enter"); [done|].
      destruct (selectedElement d); [|done]. by apply resize_then_redraw_all_own.
    + destruct (_ && _); [|done].
      destruct shiftKey; unfold all_own; by rewrite ?redo_objects, ?undo_objects.
  - unfold keydown. destruct (selectedElement d); [|done].
    destruct (String.eqb _ "text"); [|done].
    destruct (String.eqb key "Backspace"); [|done].
    by apply resize_then_redraw_all_own.
  - unfold all_own. by rewrite undo_objects.
  - unfold all_own. by rewrite redo_objects.
  - unfold all_own. by rewrite shape_click_objects.
  - unfold fill_click. by destruct (negb _).
  - done.
  - done.
  - by destruct (createJsonBlob d).
  - by apply constructShapesFromFile_all_own.
  - done.
Qed.

Lemma reachable_all_own (d : Drawer) : reachable d -> all_own d.
Proof.
  induction 1 as [|d ev Hd IH Hev]; [by apply Forall_nil|by apply step_all_own].
Qed.

Lemma assigns_settings_objects (d : Drawer) (ev : event) :
  assigns_settings ev -> objects (fst (step d ev)) = objects d.
Proof.
  destruct ev; simpl; try done; intros _.
  - apply shape_click_objects.
  - unfold fill_click. by destruct (negb _).
Qed.

(** *** No handler gives an object other settings *)

Lemma keeps_objects (r : ref) (sh : Shape) (d d' : Drawer) :
  objects d' = objects d -> keeps r sh d -> keeps r sh d'.
Proof. unfold keeps. by intros ->. Qed.

Lemma keeps_alloc (r : ref) (sh new : Shape) (d d' : Drawer) :
  objects d' = objects d ++ [new] -> keeps r sh d -> keeps r sh d'.
Proof.
  unfold keeps. intros -> (sh' & Hsh' & H). exists sh'. split; [|done].
  by apply lookup_app_l_Some.
Qed.

Lemma select_new_keeps (r : ref) (sh : Shape) (d : Drawer) (res : result Shape) :
  keeps r sh d -> keeps r sh (fst (select_new d res)).
Proof. destruct res as [new|]; [by apply keeps_alloc with new|done]. Qed.

Lemma push_new_keeps (r : ref) (sh : Shape) (d : Drawer) (res : result Shape) :
  keeps r sh d -> keeps r sh (fst (push_new d res)).
Proof. destruct res as [new|]; [by apply keeps_alloc with new|done]. Qed.

Lemma resize_ref_keeps (r r' : ref) (sh : Shape) (d : Drawer) (a b : jsval) :
  keeps r sh d -> keeps r sh (fst (resize_ref d r' a b)).
Proof.
  intros (sh' & Hsh' & Hp & Hs). unfold resize_ref.
  destruct (objects d !! r') as [this|] eqn:Hthis; [|by exists sh'].
  pose proof (resize_keeps (settings d) this a b) as [Hp' Hs'].
  destruct (resize (settings d) this a b) as [this' o]. simpl in *.
  destruct (decide (r = r')) as [->|Hne].
  - assert (this = sh') as -> by congruence.
    exists this'. split; [|split; congruence].
    simpl. apply list_lookup_insert_eq. by eapply lookup_lt_Some.
  - exists sh'. split; [|done]. simpl. by rewrite list_lookup_insert_ne.
Qed.

Lemma resize_then_redraw_keeps (r r' : ref) (sh : Shape) (d : Drawer) (a b : jsval) :
  keeps r sh d ->
  keeps r sh (fst (match resize_ref d r' a b with
                   | (d', Normal) => redraw d'
                   | (d', Thrown) => (d', Thrown)
                   end)).
Proof.
  intros Hd. pose proof (resize_ref_keeps r r' sh d a b Hd) as H.
  destruct (resize_ref d r' a b) as [d' []]; simpl in *; [|done].
  by apply (keeps_objects r sh d'); [apply redraw_objects|].
Qed.

Lemma mousedown_keeps (r : ref) (sh : Shape) (d : Drawer) (x y : Q) :
  keeps r sh d -> keeps r sh (fst (mousedown d x y)).
Proof.
  intros Hd. unfold mousedown.
  repeat match goal with
         | |- context [if ?b then _ else _] => destruct b
         end; try done; try by apply select_new_keeps.
  apply select_new_keeps. by destruct (selectedElement d).
Qed.

Lemma createShapeFromJson_keeps (r : ref) (sh : Shape) (d : Drawer) (jsonShape : jsval) :
  keeps r sh d -> keeps r sh (fst (createShapeFromJson d jsonShape)).
Proof.
  intros Hd. unfold createShapeFromJson.
  destruct (get (settings d) jsonShape "type") as [type|]; [|done].
  repeat match goal with
         | |- context [if ?b then _ else _] => destruct b
         end; try done; by apply push_new_keeps.
Qed.

Lemma constructShapesFromFile_keeps (r : ref) (sh : Shape) (d : Drawer)
    (tmpList : jsval) :
  keeps r sh d -> keeps r sh (fst (constructShapesFromFile d tmpList)).
Proof.
  intros Hd. unfold constructShapesFromFile.
  destruct (get _ tmpList "length") as [len|]; [|done].
  destruct (ToNumber len) as [n0|]; [|done].
  match goal with |- context [for_loop ?n ?j ?body ?d1] =>
    pose proof (for_loop_invariant (keeps r sh) body) as Hinv;
    specialize (Hinv
      ltac:(intros i0 s0 Hs0; simpl;
            destruct (get_index _ tmpList i0) as [js|]; [|done];
            by apply createShapeFromJson_keeps) n j d1 Hd);
    destruct (for_loop n j body d1) as [d2 []]
  end; simpl in *; [|done].
  by apply (keeps_objects r sh d2); [apply redraw_objects|].
Qed.

Lemma step_keeps (r : ref) (sh : Shape) (d : Drawer) (ev : event) :
  keeps r sh d -> keeps r sh (fst (step d ev)).
Proof.
  intros Hd. destruct ev; simpl.
  - by apply mousedown_keeps.
  - unfold mousemove. destruct (selectedElement d); [|done].
    destruct (negb _); [|done]. by apply resize_then_redraw_keeps.
  - unfold mouseup. destruct (selectedElement d); [|done]. by destruct (negb _).
  - unfold keypress. destruct (_ && _).
    + unfold textKeyPress. destruct (String.eqb key "Enter"); [done|].
      destruct (selectedElement d); [|done]. by apply resize_then_redraw_keeps.
    + destruct (_ && _); [|done].
      destruct shiftKey;
        by apply (keeps_objects r sh d); [apply redo_objects || apply undo_objects|].
  - unfold keydown. destruct (selectedElement d); [|done].
    destruct (String.eqb _ "text"); [|done].
    destruct (String.eqb key "Backspace"); [|done].
    by apply resize_then_redraw_keeps.
  - by apply (keeps_objects r sh d); [apply undo_objects|].
  - by apply (keeps_objects r sh d); [apply redo_objects|].
  - by apply (keeps_objects r sh d); [apply shape_click_objects|].
  - unfold fill_click. by destruct (negb _).
  - done.
  - done.
  - by destruct (createJsonBlob d).
  - by apply constructShapesFromFile_keeps.
  - done.
Qed.

Lemma run_events_keeps (r : ref) (sh : Shape) (evs : list event) :
  forall d : Drawer, keeps r sh d -> keeps r sh (run_events d evs).
Proof.
  induction evs as [|ev evs IH]; intros d Hd; simpl; [done|].
  by apply IH, step_keeps.
Qed.

Lemma Shape_render_settings (amb amb' : Settings) (sh sh' : Shape) :
  plain (settings_of sh) = true -> settings_of sh' = settings_of sh ->
  Shape_render amb' sh' = Shape_render amb sh.
Proof.
  intros Hplain Hs. unfold Shape_render. rewrite Hs.
  by rewrite !(get_ambient_free amb' amb (settings_of sh)).
Qed.

(** C6. In a state of the page, take a shape that an entry of the
    committed or of the undone list refers to.  A handler that assigns to
    [drawer.settings] leaves the object as it is.  Under any settings of the
    drawer whatever, the shape reads the same colour, fill flag, width and
    font from its own settings, and its [render] makes the same calls with
    the same values.  And after any events whatever, the object has the
    settings it had, and [Shape.render] assigns the same colour, width and
    font for it. *)
Theorem committed_shapes_keep_their_settings (d : Drawer) (r : ref) (sh : Shape) :
  reachable d ->
  In (Some r) (shapes d ++ undoneShapes d) ->
  objects d !! r = Some sh ->
  (forall ev, assigns_settings ev -> objects (fst (step d ev)) !! r = Some sh) /\
  (forall (amb' : Settings) (k : string),
     get amb' (settings_of sh) k = get (settings d) (settings_of sh) k) /\
  (forall amb' : Settings, render amb' sh = render (settings d) sh) /\
  (forall evs : list event,
     exists sh', objects (run_events d evs) !! r = Some sh' /\
       settings_of sh' = settings_of sh /\
       Shape_render (settings (run_events d evs)) sh' = Shape_render (settings d) sh).
Proof.
  intros Hreach _ Hsh.
  pose proof (reachable_all_own d Hreach) as Hall.
  pose proof (Forall_lookup_1 _ _ _ _ Hall Hsh) as Hown.
  split_and!.
  - intros ev Hev. by rewrite assigns_settings_objects.
  - intros amb' k. apply get_ambient_free, Hown.
  - intros amb'. by apply render_ambient_free.
  - intros evs.
    destruct (run_events_keeps r sh evs d) as (sh' & Hsh' & Hp & Hs);
      [by exists sh|].
    exists sh'. split; [done|]. split; [done|].
    apply Shape_render_settings; [apply Hown|done].
Qed.

(** ** resize takes any arguments *)

Lemma get_not_null (amb : Settings) (v : jsval) (k : string) :
  v <> VUndef -> v <> VNull -> exists v', get amb v k = Ok v'.
Proof. destruct v; simpl; intros; try done; eauto. Qed.

Lemma distance_printable (amb : Settings) (v p pk : jsval) (k : string) :
  get amb p k = Ok pk -> unprintable v = false -> unprintable pk = false ->
  distance amb v p k = Ok (VNum (nabs (nsub (number_of v) (number_of pk)))).
Proof.
  intros Hget Hv Hpk. unfold distance. rewrite Hget. cbn [rbind].
  by rewrite (js_sub_printable v pk Hv Hpk).
Qed.

Lemma half_distance_printable (amb : Settings) (v p pk : jsval) (k : string) :
  get amb p k = Ok pk -> unprintable v = false -> unprintable pk = false ->
  half_distance amb v p k
  = Ok (VNum (nhalf (nabs (nsub (number_of v) (number_of pk))))).
Proof.
  intros Hget Hv Hpk. unfold half_distance.
  by rewrite (distance_printable amb v p pk k Hget Hv Hpk).
Qed.

Lemma js_sub_unprintable (a b : jsval) : unprintable a = true -> js_sub a b = Throw.
Proof. intros H. unfold js_sub. by rewrite (ToNumber_unprintable a H). Qed.

Lemma distance_unprintable (amb : Settings) (v p : jsval) (k : string) :
  unprintable v = true -> distance amb v p k = Throw.
Proof.
  intros H. unfold distance. destruct (get amb p k); [|done]. cbn [rbind].
  by rewrite (js_sub_unprintable v _ H).
Qed.

(** C9, as the code has it.  [resize] checks neither the class of the
    shape nor the type of its arguments.  On a shape whose position is
    neither [undefined] nor [null] and holds values that convert to numbers
    as [x] and [y], it returns normally for arguments that convert (numbers,
    strings, booleans, [undefined], [null], arrays and objects of such
    values), save that a text throws on a key that is [undefined] or [null],
    whose [length] it reads.  A text given a number as key stays as it is;
    a rectangle given a key name that spells no number, and nothing as [y],
    takes [NaN] as width and as height, what the subtractions make of them.
    The subtractions of a rectangle, an oval and a circle throw for a first
    argument that does not convert; a line and a stroke keep any argument
    as it is. *)
Theorem resize_checks_no_argument (amb : Settings) (sh : Shape) (a b : jsval) :
  position_of sh <> VUndef ->
  position_of sh <> VNull ->
  reads_printable amb (position_of sh) "x" ->
  reads_printable amb (position_of sh) "y" ->
  unprintable a = false ->
  unprintable b = false ->
  (forall p s chars, sh = DrawnText p s chars -> a <> VUndef /\ a <> VNull) ->
  snd (resize amb sh a b) = Normal /\
  (forall (p s : jsval) (chars : list jsval),
     snd (resize amb (DrawnText p s chars) VUndef b) = Thrown /\
     snd (resize amb (DrawnText p s chars) VNull b) = Thrown) /\
  (forall (p s : jsval) (chars : list jsval) (n : num),
     resize amb (DrawnText p s chars) (VNum n) b = (DrawnText p s chars, Normal)) /\
  (forall (px py : num) (s w h : jsval) (key : string),
     StringToNumber key = NaN ->
     resize amb (Rectangle (VObj [("x", VNum px); ("y", VNum py)]) s w h)
            (VStr key) VUndef
     = (Rectangle (VObj [("x", VNum px); ("y", VNum py)]) s
                  (VNum NaN) (VNum NaN), Normal)) /\
  (forall (a' b' p s u v x y : jsval),
     unprintable a' = true ->
     snd (resize amb (Rectangle p s u v) a' b') = Thrown /\
     snd (resize amb (Oval p s u v x y) a' b') = Thrown /\
     snd (resize amb (Circle p s u v x y) a' b') = Thrown) /\
  (forall (a' b' p s u v : jsval) (xs ys : list jsval),
     resize amb (Line p s u v) a' b' = (Line p s a' b', Normal) /\
     resize amb (LineList p s xs ys) a' b'
     = (LineList p s (xs ++ [a']) (ys ++ [b']), Normal) /\
     resize amb (EraseList p s xs ys) a' b'
     = (EraseList p s (xs ++ [a']) (ys ++ [b']), Normal)).
Proof.
  intros Hu Hn Hx Hy Ha Hb Hkey. split_and!.
  - destruct (get_not_null amb (position_of sh) "x" Hu Hn) as [vx Hvx].
    destruct (get_not_null amb (position_of sh) "y" Hu Hn) as [vy Hvy].
    pose proof (Hx vx Hvx) as Hpx. pose proof (Hy vy Hvy) as Hpy.
    destruct sh as [p s ? ?|p s ? ? ? ?|p s ? ? ? ?|p s ? ?|p s ? ?|p s ? ?|p s cs];
      cbn [position_of] in *; try done.
    + cbn [resize Rectangle_resize]. rewrite Hvx, Hvy. cbn [rbind].
      by rewrite !js_sub_printable.
    + cbn [resize Oval_resize].
      by rewrite (half_distance_printable amb a p vx "x"),
        (half_distance_printable amb b p vy "y").
    + cbn [resize Circle_resize].
      by rewrite (distance_printable amb a p vx "x"),
        (distance_printable amb b p vy "y").
    + cbn [resize DrawnText_resize].
      destruct (is_string a "Backspace"); [by destruct (0 <? length cs)|].
      destruct (Hkey p s cs eq_refl) as [Ha1 Ha2].
      destruct (get_not_null amb a "length" Ha1 Ha2) as [len ->].
      by destruct (is_one len).
  - done.
  - intros p s chars n. by destruct n.
  - intros px py s w h key Hnan. cbn. by rewrite Hnan.
  - intros a' b' p s u v x y Ha'. split_and!.
    + cbn [resize Rectangle_resize]. destruct (get amb p "x"); [|done].
      cbn [rbind]. by rewrite (js_sub_unprintable a' _ Ha').
    + cbn [resize Oval_resize]. unfold half_distance.
      by rewrite (distance_unprintable amb a' p "x" Ha').
    + cbn [resize Circle_resize].
      by rewrite (distance_unprintable amb a' p "x" Ha').
  - done.
Qed.

(** ** References refer to objects *)

Lemma entry_ok_mono (n m : nat) (e : option ref) :
  n <= m -> entry_ok n e -> entry_ok m e.
Proof. destruct e; simpl; [lia|done]. Qed.

Lemma Forall_entry_ok_mono (n m : nat) (l : list (option ref)) :
  n <= m -> Forall (entry_ok n) l -> Forall (entry_ok m) l.
Proof.
  intros Hnm H. eapply Forall_impl; [exact H|]. intros e. by apply entry_ok_mono.
Qed.

Lemma Forall_removelast {A} (P : A -> Prop) (l : list A) :
  Forall P l -> Forall P (removelast l).
Proof.
  induction l as [|a l IH] using rev_ind; [done|].
  rewrite removelast_last. by intros [H _]%Forall_app.
Qed.

Lemma Forall_last {A} (P : A -> Prop) (l : list A) (a : A) :
  Forall P l -> last l = Some a -> P a.
Proof.
  induction l as [|b l IH] using rev_ind; [done|].
  rewrite last_snoc. intros [_ H]%Forall_app [= <-]. by inversion H.
Qed.

Lemma no_dangling_objects (d d' : Drawer) :
  length (objects d') = length (objects d) -> shapes d' = shapes d ->
  undoneShapes d' = undoneShapes d -> selectedElement d' = selectedElement d ->
  no_dangling d -> no_dangling d'.
Proof. unfold no_dangling. by intros -> -> -> ->. Qed.

Lemma redraw_no_dangling (d : Drawer) : no_dangling d -> no_dangling (fst (redraw d)).
Proof. by destruct (redraw_with_canvas d) as [cs ->]. Qed.

Lemma select_new_no_dangling (d : Drawer) (res : result Shape) :
  no_dangling d -> no_dangling (fst (select_new d res)).
Proof.
  intros (Hs & Hu & He). destruct res as [sh|]; [|done].
  unfold no_dangling. simpl. rewrite length_app. simpl.
  split_and!; [| |lia];
    by apply (Forall_entry_ok_mono (length (objects d))); [lia|].
Qed.

Lemma push_new_no_dangling (d : Drawer) (res : result Shape) :
  no_dangling d -> no_dangling (fst (push_new d res)).
Proof.
  intros (Hs & Hu & He). destruct res as [sh|]; [|done].
  unfold no_dangling. simpl. rewrite length_app. simpl. split_and!.
  - apply Forall_app. split.
    + by apply (Forall_entry_ok_mono (length (objects d))); [lia|].
    + apply Forall_singleton. simpl. lia.
  - by apply (Forall_entry_ok_mono (length (objects d))); [lia|].
  - by apply (entry_ok_mono (length (objects d))); [lia|].
Qed.

Lemma resize_then_redraw_no_dangling (d : Drawer) (r : ref) (a b : jsval) :
  no_dangling d ->
  no_dangling (fst (match resize_ref d r a b with
                    | (d', Normal) => redraw d'
                    | (d', Thrown) => (d', Thrown)
                    end)).
Proof.
  intros Hd.
  assert (no_dangling (fst (resize_ref d r a b))) as H.
  { unfold resize_ref. destruct (objects d !! r) as [sh|]; [|done].
    destruct (resize (settings d) sh a b) as [sh' o]. simpl.
    apply (no_dangling_objects d); try done. simpl. apply length_insert. }
  destruct (resize_ref d r a b) as [d' []]; simpl in *;
    auto using redraw_no_dangling.
Qed.

Lemma undo_no_dangling (d : Drawer) : no_dangling d -> no_dangling (fst (undo d)).
Proof.
  intros (Hs & Hu & He). unfold undo.
  destruct (0 <? length (shapes d)); [|done].
  destruct (last (shapes d)) as [e|] eqn:Hlast; [|done].
  apply redraw_no_dangling. split_and!; simpl; try done.
  - by apply Forall_removelast.
  - apply Forall_app. split; [done|]. apply Forall_singleton.
    exact (Forall_last _ _ _ Hs Hlast).
Qed.

Lemma redo_no_dangling (d : Drawer) : no_dangling d -> no_dangling (fst (redo d)).
Proof.
  intros (Hs & Hu & He). unfold redo.
  destruct (0 <? length (undoneShapes d)); [|done].
  destruct (last (undoneShapes d)) as [e|] eqn:Hlast; [|done].
  apply redraw_no_dangling. split_and!; simpl; try done.
  - apply Forall_app. split; [done|]. apply Forall_singleton.
    exact (Forall_last _ _ _ Hu Hlast).
  - by apply Forall_removelast.
Qed.

Lemma createShapeFromJson_no_dangling (d : Drawer) (jsonShape : jsval) :
  no_dangling d -> no_dangling (fst (createShapeFromJson d jsonShape)).
Proof.
  intros Hd. unfold createShapeFromJson.
  destruct (get (settings d) jsonShape "type") as [type|]; [|done].
  repeat match goal with
         | |- context [if ?b then _ else _] => destruct b
         end; try done; by apply push_new_no_dangling.
Qed.

Lemma constructShapesFromFile_no_dangling (d : Drawer) (tmpList : jsval) :
  no_dangling (fst (constructShapesFromFile d tmpList)).
Proof.
  unfold constructShapesFromFile.
  assert (no_dangling (reset d)) as Hd by by split_and!.
  destruct (get _ tmpList "length") as [len|]; [|done].
  destruct (ToNumber len) as [n0|]; [|done].
  match goal with |- context [for_loop ?n ?j ?body ?d1] =>
    pose proof (for_loop_invariant no_dangling body) as Hinv;
    specialize (Hinv
      ltac:(intros i0 s0 Hs0; simpl;
            destruct (get_index _ tmpList i0) as [js|]; [|done];
            by apply createShapeFromJson_no_dangling) n j d1 Hd);
    destruct (for_loop n j body d1) as [d2 []]
  end; simpl in *; auto using redraw_no_dangling.
Qed.

Lemma step_no_dangling (d : Drawer) (ev : event) :
  no_dangling d -> no_dangling (fst (step d ev)).
Proof.
  intros Hd. pose proof Hd as (Hs & Hu & He).
  assert (forall e, entry_ok (length (objects d)) e ->
            Forall (entry_ok (length (objects d))) (shapes d ++ [e])) as Hpush.
  { intros e Hok. apply Forall_app. split; [done|]. by apply Forall_singleton. }
  destruct ev; simpl.
  - unfold mousedown. case_ifs; try done; try by apply select_new_no_dangling.
    apply select_new_no_dangling.
    destruct (selectedElement d) as [r|] eqn:Hsel; [|done].
    split_and!; simpl; rewrite ?Hsel; auto.
  - unfold mousemove. destruct (selectedElement d); [|done].
    destruct (negb _); [|done]. by apply resize_then_redraw_no_dangling.
  - unfold mouseup. destruct (selectedElement d) as [r|] eqn:Hsel; [|done].
    destruct (negb _); [|done]. split_and!; simpl; rewrite ?Hsel; auto.
  - unfold keypress. destruct (_ && _).
    + unfold textKeyPress. destruct (String.eqb key "Enter").
      * split_and!; simpl; auto.
      * destruct (selectedElement d); [|done].
        by apply resize_then_redraw_no_dangling.
    + destruct (_ && _); [|done].
      destruct shiftKey; auto using undo_no_dangling, redo_no_dangling.
  - unfold keydown. destruct (selectedElement d); [|done].
    destruct (String.eqb _ "text"); [|done].
    destruct (String.eqb key "Backspace"); [|done].
    by apply resize_then_redraw_no_dangling.
  - by apply undo_no_dangling.
  - by apply redo_no_dangling.
  - unfold shape_click.
    destruct (String.eqb (dataset_shape elem) "text"); case_ifs;
      split_and!; simpl; auto.
  - unfold fill_click. by destruct (negb _).
  - done.
  - done.
  - by destruct (createJsonBlob d).
  - apply constructShapesFromFile_no_dangling.
  - by split_and!.
Qed.

Lemma reachable_no_dangling (d : Drawer) : reachable d -> no_dangling d.
Proof.
  induction 1 as [|d ev Hd IH Hev]; [by split_and!|by apply step_no_dangling].
Qed.

Lemma reachable_run_events (evs : list event) :
  forall d : Drawer,
    reachable d -> Forall from_file evs -> reachable (run_events d evs).
Proof.
  induction evs as [|ev evs IH]; intros d Hd Hevs; simpl; [done|].
  inversion Hevs as [|? ? Hev Hrest]; subst.
  apply IH; [|done]. by apply reachable_step.
Qed.

(** C3. Undoing as many times as there are committed entries and then
    redoing as many times gives back the committed list, in its order, and
    the undone list; [undo] with nothing committed and [redo] with nothing
    undone return normally and leave the whole state as it is. *)
Theorem undo_redo_symmetry (d : Drawer) :
  let n := length (shapes d) in
  shapes (times n redo (times n undo d)) = shapes d /\
  undoneShapes (times n redo (times n undo d)) = undoneShapes d /\
  (shapes d = [] -> undo d = (d, Normal)) /\
  (undoneShapes d = [] -> redo d = (d, Normal)).
Proof.
  intros n. subst n.
  destruct (undo_times (shapes d) d [] eq_refl) as [Hs Hu].
  destruct (redo_times (shapes d) _ _ Hu) as [Hs' Hu'].
  rewrite Hs in Hs'. simpl in Hs'.
  repeat split; auto using undo_empty, redo_empty.
Qed.

(** ** Undo and redo conserve the history *)

Lemma snoc_cases {A} (l : list A) : l = [] \/ exists l' e, l = l' ++ [e].
Proof. induction l as [|e l _] using rev_ind; eauto. Qed.

Lemma undo_history (d : Drawer) : history (fst (undo d)) = history d.
Proof.
  unfold history. destruct (snoc_cases (shapes d)) as [H|(l & e & H)].
  - by rewrite undo_empty.
  - destruct (undo_snoc d l e H) as [-> ->].
    by rewrite H, rev_app_distr, <- app_assoc.
Qed.

Lemma redo_history (d : Drawer) : history (fst (redo d)) = history d.
Proof.
  unfold history. destruct (snoc_cases (undoneShapes d)) as [H|(u & e & H)].
  - by rewrite redo_empty.
  - destruct (redo_snoc d u e H) as [-> ->].
    by rewrite H, rev_app_distr, <- app_assoc.
Qed.

Lemma undo_frame (d : Drawer) :
  selectedElement (fst (undo d)) = selectedElement d /\
  controls (fst (undo d)) = controls d.
Proof.
  unfold undo. destruct (0 <? length (shapes d)); [|done].
  destruct (last (shapes d)); [|done].
  match goal with |- context [redraw ?d'] =>
    by destruct (redraw_with_canvas d') as [cs ->]
  end.
Qed.

Lemma redo_frame (d : Drawer) :
  selectedElement (fst (redo d)) = selectedElement d /\
  controls (fst (redo d)) = controls d.
Proof.
  unfold redo. destruct (0 <? length (undoneShapes d)); [|done].
  destruct (last (undoneShapes d)); [|done].
  match goal with |- context [redraw ?d'] =>
    by destruct (redraw_with_canvas d') as [cs ->]
  end.
Qed.

Lemma undo_and_redo_conserve (d : Drawer) (steps : list bool) :
  history (rewind d steps) = history d /\
  objects (rewind d steps) = objects d /\
  selectedElement (rewind d steps) = selectedElement d /\
  controls (rewind d steps) = controls d.
Proof.
  revert d. induction steps as [|again steps IH]; intros d; [done|].
  unfold rewind in *. simpl.
  destruct (IH (fst (if again then redo d else undo d))) as (-> & -> & -> & ->).
  destruct again.
  - destruct (redo_frame d) as [-> ->]. by rewrite redo_history, redo_objects.
  - destruct (undo_frame d) as [-> ->]. by rewrite undo_history, undo_objects.
Qed.

(** X1. Undo and redo, in any number and order, move entries between the
    committed and the undone list and lose none: the entries in the order
    of their commits stay what they are, so the two lists always hold as
    many entries together.  The shape objects, the shape in progress, the
    tool and the settings stay as they are. *)
Theorem undo_and_redo_conserve_the_history (d : Drawer) (steps : list bool) :
  history (rewind d steps) = history d /\
  length (shapes (rewind d steps)) + length (undoneShapes (rewind d steps))
  = length (shapes d) + length (undoneShapes d) /\
  objects (rewind d steps) = objects d /\
  selectedElement (rewind d steps) = selectedElement d /\
  controls (rewind d steps) = controls d.
Proof.
  destruct (undo_and_redo_conserve d steps) as (Hh & Ho & He & Hc).
  split_and!; try done.
  apply (f_equal length) in Hh. unfold history in Hh.
  by rewrite !length_app, !length_rev in Hh.
Qed.

(** ** The bin *)

Lemma rewind_nothing (d : Drawer) (steps : list bool) :
  shapes d = [] -> undoneShapes d = [] -> rewind d steps = d.
Proof.
  intros Hs Hu. induction steps as [|[] steps IH]; [done| |];
    unfold rewind in *; cbn [fold_left];
    [rewrite redo_empty by done|rewrite undo_empty by done]; apply IH.
Qed.

(** X2. A click on the bin returns normally with a blank canvas and nothing
    committed, undone or in progress; undo and redo, in any number and
    order, bring nothing back afterwards. *)
Theorem the_bin_leaves_nothing_to_undo (d : Drawer) (steps : list bool) :
  clear_click d = (with_canvas (reset d) [], Normal) /\
  shapes (fst (clear_click d)) = [] /\
  undoneShapes (fst (clear_click d)) = [] /\
  selectedElement (fst (clear_click d)) = None /\
  rewind (fst (clear_click d)) steps = fst (clear_click d).
Proof. split_and!; try done. by apply rewind_nothing. Qed.

(** ** What changes the tool and the settings *)

Lemma redraw_controls (d : Drawer) : controls (fst (redraw d)) = controls d.
Proof. by destruct (redraw_with_canvas d) as [cs ->]. Qed.

Lemma select_new_controls (d : Drawer) (res : result Shape) :
  controls (fst (select_new d res)) = controls d.
Proof. by destruct res. Qed.

Lemma push_new_controls (d : Drawer) (res : result Shape) :
  controls (fst (push_new d res)) = controls d.
Proof. by destruct res. Qed.

Lemma resize_then_redraw_controls (d : Drawer) (r : ref) (a b : jsval) :
  controls (fst (match resize_ref d r a b with
                 | (d', Normal) => redraw d'
                 | (d', Thrown) => (d', Thrown)
                 end)) = controls d.
Proof.
  unfold resize_ref. destruct (objects d !! r) as [sh|].
  - destruct (resize (settings d) sh a b) as [sh' []]; simpl; [|done].
    by rewrite redraw_controls.
  - by rewrite redraw_controls.
Qed.

Lemma mousedown_controls (d : Drawer) (x y : Q) :
  controls (fst (mousedown d x y)) = controls d.
Proof.
  unfold mousedown. case_ifs; try done; rewrite select_new_controls; try done.
  by destruct (selectedElement d).
Qed.

Lemma createShapeFromJson_controls (d : Drawer) (jsonShape : jsval) :
  controls (fst (createShapeFromJson d jsonShape)) = controls d.
Proof.
  unfold createShapeFromJson.
  destruct (get (settings d) jsonShape "type") as [type|]; [|done].
  case_ifs; try done; apply push_new_controls.
Qed.

Lemma constructShapesFromFile_controls (d : Drawer) (tmpList : jsval) :
  controls (fst (constructShapesFromFile d tmpList)) = controls d.
Proof.
  unfold constructShapesFromFile.
  destruct (get _ tmpList "length") as [len|]; [|done].
  destruct (ToNumber len) as [n0|]; [|done].
  match goal with |- context [for_loop ?n ?j ?body ?d1] =>
    pose proof (for_loop_invariant (fun d' => controls d' = controls d) body) as Hinv;
    specialize (Hinv
      ltac:(intros i0 s0 Hs0; simpl;
            destruct (get_index _ tmpList i0) as [js|]; [|done];
            by rewrite createShapeFromJson_controls) n j d1 eq_refl);
    destruct (for_loop n j body d1) as [d2 []]
  end; simpl in *; [|done].
  by rewrite redraw_controls.
Qed.

Lemma step_controls (d : Drawer) (ev : event) :
  ~ assigns_settings ev -> controls (fst (step d ev)) = controls d.
Proof.
  intros Hev. destruct ev; simpl in *; try done.
  - apply mousedown_controls.
  - unfold mousemove. destruct (selectedElement d); [|done].
    destruct (negb _); [|done]. apply resize_then_redraw_controls.
  - unfold mouseup. destruct (selectedElement d); [|done]. by destruct (negb _).
  - unfold keypress. destruct (_ && _).
    + unfold textKeyPress. destruct (String.eqb key "Enter"); [done|].
      destruct (selectedElement d); [|done]. apply resize_then_redraw_controls.
    + destruct (_ && _); [|done].
      destruct shiftKey; [apply redo_frame|apply undo_frame].
  - unfold keydown. destruct (selectedElement d); [|done].
    destruct (String.eqb _ "text"); [|done].
    destruct (String.eqb key "Backspace"); [|done].
    apply resize_then_redraw_controls.
  - apply undo_frame.
  - apply redo_frame.
  - by destruct (createJsonBlob d).
  - apply constructShapesFromFile_controls.
Qed.

Lemma step_active (d : Drawer) (ev : event) :
  active d = [] -> active (fst (step d ev)) = [].
Proof.
  intros Ha.
  assert (forall ev', ~ assigns_settings ev' -> active (fst (step d ev')) = [])
    as Hframe.
  { intros ev' Hev'. pose proof (step_controls d ev' Hev') as Hc.
    unfold controls in Hc. by injection Hc as _ _ _ ->. }
  destruct ev; try (apply Hframe; simpl; tauto).
  - simpl. unfold shape_click.
    destruct (String.eqb (dataset_shape elem) "text");
      destruct (negb (fill_toggle d)); simpl; rewrite ?Ha; simpl; by case_ifs.
  - simpl. unfold fill_click. by destruct (negb _).
  - done.
  - done.
Qed.

Lemma reachable_active (d : Drawer) : reachable d -> active d = [].
Proof. induction 1 as [|d ev Hd IH Hev]; [done|by apply step_active]. Qed.

(** X3. No item of the shape list is ever marked active, in any state of the
    page.  So a click on the item of another tool than the selected one
    throws, reading [classList] of [undefined], after it has selected the
    tool and dropped what was in progress; a click on the item of the
    selected tool returns normally and leaves the tool selected. *)
Theorem a_change_of_tool_throws (d : Drawer) (elem : shape_item) :
  reachable d ->
  active d = [] /\
  (dataset_shape elem <> selectedShape d ->
   snd (shape_click d elem) = Thrown /\
   selectedShape (fst (shape_click d elem)) = dataset_shape elem /\
   selectedElement (fst (shape_click d elem)) = None /\
   active (fst (shape_click d elem)) = []) /\
  (dataset_shape elem = selectedShape d ->
   snd (shape_click d elem) = Normal /\
   selectedShape (fst (shape_click d elem)) = selectedShape d).
Proof.
  intros Hd. pose proof (reachable_active d Hd) as Ha.
  split; [done|]. unfold shape_click. split.
  - intros Hne%String.eqb_neq.
    destruct (String.eqb (dataset_shape elem) "text");
      destruct (negb (fill_toggle d)); simpl; rewrite Hne, ?Ha; simpl; done.
  - intros Heq. pose proof Heq as Heq'%String.eqb_eq.
    destruct (String.eqb (dataset_shape elem) "text");
      destruct (negb (fill_toggle d)); simpl; by rewrite Heq'.
Qed.

Lemma run_events_snoc (d : Drawer) (evs : list event) (ev : event) :
  run_events d (evs ++ [ev]) = fst (step (run_events d evs) ev).
Proof. unfold run_events. by rewrite fold_left_app. Qed.

Lemma run_events_invariant (P : Drawer -> Prop) (Q : event -> Prop) :
  (forall d ev, P d -> Q ev -> P (fst (step d ev))) ->
  forall evs d, P d -> Forall Q evs -> P (run_events d evs).
Proof.
  intros Hstep. induction evs as [|ev evs IH]; intros d Hd Hevs; simpl; [done|].
  inversion Hevs as [|? ? Hev Hrest]; subst. apply IH; auto.
Qed.

(** X4. Pointer and key events, undo, redo, saving, loading and the bin leave
    the tool, the settings, the fill toggle and the marks of the shape list
    as they are: only the clicks on the shape list, on the fill toggle, on
    the colour picker and on the confirm button of the size dialog change
    them. *)
Theorem only_the_navigation_bar_changes_the_controls (d : Drawer) (evs : list event) :
  Forall (fun ev => ~ assigns_settings ev) evs ->
  controls (run_events d evs) = controls d.
Proof.
  intros Hevs.
  apply (run_events_invariant (fun d' => controls d' = controls d)
           (fun ev => ~ assigns_settings ev)); [|done|done].
  intros d' ev Hd' Hev. by rewrite step_controls.
Qed.

(** ** The fill toggle *)

Lemma step_fill_toggle (d : Drawer) (ev : event) :
  (fill_toggle d = true -> filled (settings d) = true) ->
  fill_toggle (fst (step d ev)) = true -> filled (settings (fst (step d ev))) = true.
Proof.
  intros Hd.
  assert (forall ev', ~ assigns_settings ev' ->
            fill_toggle (fst (step d ev')) = true ->
            filled (settings (fst (step d ev'))) = true) as Hframe.
  { intros ev' Hev'. pose proof (step_controls d ev' Hev') as Hc.
    unfold controls in Hc. by injection Hc as _ -> -> _. }
  destruct ev; try (apply Hframe; simpl; tauto); simpl.
  - unfold shape_click.
    destruct (String.eqb (dataset_shape elem) "text");
      destruct (fill_toggle d) eqn:Ht; simpl; case_ifs; simpl; auto; by rewrite ?Ht.
  - unfold fill_click. by destruct (negb _).
  - done.
  - done.
Qed.

Lemma reachable_fill_toggle (d : Drawer) :
  reachable d -> fill_toggle d = true -> filled (settings d) = true.
Proof. induction 1 as [|d ev Hd IH Hev]; [done|by apply step_fill_toggle]. Qed.

(** X5. In every state of the page, while the fill toggle is on the drawer's
    setting [filled] is on.  A click on the item of a tool other than text
    sets [filled] to what the toggle shows; a click on the text tool turns
    it on whatever the toggle shows; two clicks on the toggle give back the
    toggle and the setting of a state in which the two agree. *)
Theorem the_fill_setting_follows_the_toggle (d : Drawer) (elem : shape_item) :
  reachable d ->
  (fill_toggle d = true -> filled (settings d) = true) /\
  (dataset_shape elem <> "text" ->
   filled (settings (fst (shape_click d elem))) = fill_toggle d) /\
  filled (settings (fst (shape_click d li_text))) = true /\
  fill_toggle (fst (shape_click d elem)) = fill_toggle d /\
  filled (settings (fst (fill_click d))) = fill_toggle (fst (fill_click d)) /\
  fill_toggle (fst (fill_click d)) = negb (fill_toggle d) /\
  fill_toggle (fst (fill_click (fst (fill_click d)))) = fill_toggle d.
Proof.
  intros Hd. pose proof (reachable_fill_toggle d Hd) as Hinv.
  split_and!; try done.
  - intros Hne%String.eqb_neq. unfold shape_click. rewrite Hne.
    destruct (fill_toggle d) eqn:Ht; simpl; case_ifs; simpl; auto.
  - unfold shape_click. simpl. by case_ifs.
  - unfold shape_click. by case_ifs.
  - unfold fill_click. by destruct (fill_toggle d).
  - unfold fill_click. by destruct (fill_toggle d).
  - unfold fill_click. by destruct (fill_toggle d).
Qed.

(** ** What the handlers do to the shape objects *)

Lemma resize_then_redraw_objects (d : Drawer) (r : ref) (a b : jsval) :
  objects (fst (match resize_ref d r a b with
                | (d', Normal) => redraw d'
                | (d', Thrown) => (d', Thrown)
                end))
  = match objects d !! r with
    | Some sh => <[r := fst (resize (settings d) sh a b)]> (objects d)
    | None => objects d
    end.
Proof.
  unfold resize_ref. destruct (objects d !! r) as [sh|].
  - destruct (resize (settings d) sh a b) as [sh' []]; simpl; [|done].
    by rewrite redraw_objects.
  - by rewrite redraw_objects.
Qed.

Lemma resize_then_redraw_Forall (P : Shape -> Prop) (d : Drawer) (r : ref) (a b : jsval) :
  (forall sh, P sh -> P (fst (resize (settings d) sh a b))) ->
  Forall P (objects d) ->
  Forall P (objects (fst (match resize_ref d r a b with
                          | (d', Normal) => redraw d'
                          | (d', Thrown) => (d', Thrown)
                          end))).
Proof.
  intros Hresize Hd. rewrite resize_then_redraw_objects.
  destruct (objects d !! r) as [sh|] eqn:Hsh; [|done].
  apply Forall_insert; [done|]. apply Hresize.
  by eapply (Forall_lookup_1 _ _ _ _ Hd).
Qed.

(** A property of the shape objects that [resize] keeps and that the
    objects made by a press have is kept by every handler but the one of a
    loaded file. *)
Lemma step_Forall_objects (P : Shape -> Prop) (d : Drawer) (ev : event) :
  loads_file ev = false ->
  (forall amb sh a b, unprintable a = false -> unprintable b = false ->
     P sh -> P (fst (resize amb sh a b))) ->
  (forall x y, Forall P (objects (fst (mousedown d x y)))) ->
  Forall P (objects d) -> Forall P (objects (fst (step d ev))).
Proof.
  intros Hev Hresize Hdown Hd. destruct ev; simpl in *; try done.
  - unfold mousemove. destruct (selectedElement d); [|done].
    destruct (negb _); [|done]. apply resize_then_redraw_Forall; auto.
  - unfold mouseup. destruct (selectedElement d); [|done]. by destruct (negb _).
  - unfold keypress. destruct (_ && _).
    + unfold textKeyPress. destruct (String.eqb key "Enter"); [done|].
      destruct (selectedElement d); [|done].
      apply resize_then_redraw_Forall; auto.
    + destruct (_ && _); [|done].
      destruct shiftKey; by rewrite ?redo_objects, ?undo_objects.
  - unfold keydown. destruct (selectedElement d); [|done].
    destruct (String.eqb _ "text"); [|done].
    destruct (String.eqb key "Backspace"); [|done].
    apply resize_then_redraw_Forall; auto.
  - by rewrite undo_objects.
  - by rewrite redo_objects.
  - by rewrite shape_click_objects.
  - unfold fill_click. by destruct (negb _).
  - by destruct (createJsonBlob d).
Qed.

Lemma resize_constructor_name (amb : Settings) (sh : Shape) (a b : jsval) :
  constructor_name (fst (resize amb sh a b)) = constructor_name sh.
Proof.
  destruct sh as [p s ? ?|p s ? ? ? ?|p s ? ? ? ?|p s ? ?|p s ? ?|p s ? ?|p s cs];
    simpl; try done.
  - by repeat case_result.
  - by repeat case_result.
  - by repeat case_result.
  - destruct (is_string a "Backspace").
    + by destruct (0 <? length cs).
    + destruct (get amb a "length") as [len|]; [|done]. by destruct (is_one len).
Qed.

(** ** The eraser *)

Lemma step_selectedShape (d : Drawer) (ev : event) :
  In (selectedShape d) (map dataset_shape shape_list) ->
  In (selectedShape (fst (step d ev))) (map dataset_shape shape_list).
Proof.
  intros Hd.
  assert (forall ev', ~ assigns_settings ev' ->
            In (selectedShape (fst (step d ev'))) (map dataset_shape shape_list))
    as Hframe.
  { intros ev' Hev'. pose proof (step_controls d ev' Hev') as Hc.
    unfold controls in Hc. by injection Hc as -> _ _ _. }
  destruct ev; try (apply Hframe; simpl; tauto); simpl.
  - unfold shape_click.
    destruct (String.eqb (dataset_shape elem) "text"); case_ifs; simpl; try done;
      destruct elem; simpl; tauto.
  - unfold fill_click. by destruct (negb _).
  - done.
  - done.
Qed.

Lemma mousedown_no_EraseList (d : Drawer) (x y : Q) :
  In (selectedShape d) (map dataset_shape shape_list) ->
  Forall (fun sh => constructor_name sh <> "EraseList") (objects d) ->
  Forall (fun sh => constructor_name sh <> "EraseList")
    (objects (fst (mousedown d x y))).
Proof.
  intros Hin Hd. unfold mousedown. simpl in Hin.
  destruct Hin as [<-|[<-|[<-|[<-|[<-|[<-|[]]]]]]]; simpl;
    try (apply Forall_app; split; [done|]; by apply Forall_singleton).
  destruct (selectedElement d); simpl;
    apply Forall_app; split; try done; by apply Forall_singleton.
Qed.

(** X6. The tool is always one of the six of the shape list, whose items are
    the only ones to select a tool: never the eraser.  Without a loaded
    file no shape object is an erase stroke, so erase strokes come into a
    drawing from files only. *)
Theorem the_eraser_is_out_of_reach (evs : list event) :
  Forall (fun ev => loads_file ev = false) evs ->
  In (selectedShape (run_events drawer0 evs))
     ["rectangle"; "oval"; "circle"; "line"; "lineList"; "text"] /\
  selectedShape (run_events drawer0 evs) <> "eraseList" /\
  Forall (fun sh => constructor_name sh <> "EraseList")
    (objects (run_events drawer0 evs)).
Proof.
  intros Hevs.
  assert (In (selectedShape (run_events drawer0 evs)) (map dataset_shape shape_list) /\
          Forall (fun sh => constructor_name sh <> "EraseList")
            (objects (run_events drawer0 evs))) as [Hin Hobj].
  { apply (run_events_invariant
             (fun d => In (selectedShape d) (map dataset_shape shape_list) /\
                       Forall (fun sh => constructor_name sh <> "EraseList") (objects d))
             (fun ev => loads_file ev = false)); [| |done].
    - intros d ev [Hin Hobj] Hev. split; [by apply step_selectedShape|].
      apply step_Forall_objects; try done.
      + intros amb sh a b. by rewrite resize_constructor_name.
      + intros x y. by apply mousedown_no_EraseList.
    - split; [simpl; tauto|by apply Forall_nil]. }
  split_and!; [done| |done].
  intros Heq. rewrite Heq in Hin. simpl in Hin.
  repeat destruct Hin as [Hin|Hin]; try discriminate Hin. done.
Qed.

(** ** When saving throws *)

Lemma json_of_entries_Throw (d : Drawer) (l : list (option ref)) :
  Forall (entry_ok (length (objects d))) l ->
  json_of_entries d l = Throw <-> In None l.
Proof.
  induction l as [|e l IH]; intros Hl; [simpl; split; [done|tauto]|].
  inversion Hl as [|? ? He Hrest]; subst. specialize (IH Hrest).
  cbn [json_of_entries].
  destruct e as [r|]; cbn [json_of_entry]; [|split; [simpl; tauto|done]].
  simpl in He. apply lookup_lt_is_Some_2 in He as [sh Hsh].
  unfold ref in *. rewrite Hsh.
  assert (exists v, match jsonify (settings d) (VObj (own_props sh)) with
                    | VObj tmp =>
                        Ok (VObj (set_prop "type" (VStr (constructor_name sh)) tmp))
                    | tmp => Ok tmp
                    end = Ok v) as [v ->].
  { destruct (jsonify (settings d) (VObj (own_props sh))); eauto. }
  simpl. destruct (json_of_entries d l) as [lst|]; simpl.
  - split; [done|]. intros [H|H]; [done|]. by apply IH in H.
  - split; [|done]. intros _. right. by apply IH.
Qed.

Lemma createJsonBlob_Throw (d : Drawer) :
  no_dangling d -> createJsonBlob d = Throw <-> In None (shapes d).
Proof.
  intros (Hs & _ & _). rewrite <- (json_of_entries_Throw d (shapes d) Hs).
  unfold createJsonBlob. by destruct (json_of_entries d (shapes d)).
Qed.

(** X7. In every state of the page, saving throws exactly when an entry of the
    committed list is [null]: every other entry refers to a shape object,
    which has a prototype.  The drawing is left as it is either way. *)
Theorem saving_throws_exactly_on_a_null_entry (d : Drawer) :
  reachable d ->
  (createJsonBlob d = Throw <-> In None (shapes d)) /\
  (snd (step d SaveClick) = Thrown <-> In None (shapes d)) /\
  fst (step d SaveClick) = d.
Proof.
  intros Hd%reachable_no_dangling.
  pose proof (createJsonBlob_Throw d Hd) as H. split; [done|]. simpl.
  destruct (createJsonBlob d); simpl; split; try done.
  - split; [done|]. intros Hin. by apply H in Hin.
  - split; [intros _|done]. by apply H.
Qed.

Lemma Forall_not_null_removelast (l : list (option ref)) :
  Forall (fun e => not_null e = true) l ->
  Forall (fun e => not_null e = true) (removelast l).
Proof. apply Forall_removelast. Qed.

Lemma undo_no_null (d : Drawer) : no_null d -> no_null (fst (undo d)).
Proof.
  intros [Hs Hu]. destruct (snoc_cases (shapes d)) as [H|(l & e & H)].
  - by rewrite undo_empty.
  - unfold no_null. destruct (undo_snoc d l e H) as [-> ->].
    rewrite H in Hs. apply Forall_app in Hs as [Hl He].
    split; [done|]. by apply Forall_app.
Qed.

Lemma redo_no_null (d : Drawer) : no_null d -> no_null (fst (redo d)).
Proof.
  intros [Hs Hu]. destruct (snoc_cases (undoneShapes d)) as [H|(u & e & H)].
  - by rewrite redo_empty.
  - unfold no_null. destruct (redo_snoc d u e H) as [-> ->].
    rewrite H in Hu. apply Forall_app in Hu as [Hl He].
    split; [|done]. by apply Forall_app.
Qed.

Lemma no_null_frame (d d' : Drawer) :
  shapes d' = shapes d -> undoneShapes d' = undoneShapes d ->
  no_null d -> no_null d'.
Proof. unfold no_null. by intros -> ->. Qed.

Lemma push_new_no_null (d : Drawer) (res : result Shape) :
  no_null d -> no_null (fst (push_new d res)).
Proof.
  intros [Hs Hu]. destruct res as [sh|]; [|done]. split; [|done]. simpl.
  apply Forall_app. split; [done|]. by apply Forall_singleton.
Qed.

Lemma createShapeFromJson_no_null (d : Drawer) (jsonShape : jsval) :
  no_null d -> no_null (fst (createShapeFromJson d jsonShape)).
Proof.
  intros Hd. unfold createShapeFromJson.
  destruct (get (settings d) jsonShape "type") as [type|]; [|done].
  case_ifs; try done; by apply push_new_no_null.
Qed.

Lemma constructShapesFromFile_no_null (d : Drawer) (tmpList : jsval) :
  no_null (fst (constructShapesFromFile d tmpList)).
Proof.
  unfold constructShapesFromFile.
  assert (no_null (reset d)) as Hd by (split; apply Forall_nil; done).
  destruct (get _ tmpList "length") as [len|]; [|done].
  destruct (ToNumber len) as [n0|]; [|done].
  match goal with |- context [for_loop ?n ?j ?body ?d1] =>
    pose proof (for_loop_invariant no_null body) as Hinv;
    specialize (Hinv
      ltac:(intros i0 s0 Hs0; simpl;
            destruct (get_index _ tmpList i0) as [js|]; [|done];
            by apply createShapeFromJson_no_null) n j d1 Hd);
    destruct (for_loop n j body d1) as [d2 []]
  end; simpl in *; [|done].
  apply (no_null_frame d2); auto using redraw_shapes, redraw_undoneShapes.
Qed.

Lemma step_no_null (d : Drawer) (ev : event) :
  clicks_text_tool ev = false -> no_null d -> no_null (fst (step d ev)).
Proof.
  intros Hev Hd. pose proof Hd as [Hs Hu].
  assert (forall r, Forall (fun e => not_null e = true) (shapes d ++ [Some r]))
    as Hpush.
  { intros r. apply Forall_app. split; [done|]. by apply Forall_singleton. }
  destruct ev; simpl.
  - unfold mousedown. case_ifs; try done;
      try (apply (no_null_frame d); [apply select_new_shapes|by destruct new_Oval|done]);
      try (apply (no_null_frame d); [apply select_new_shapes|by destruct new_Circle|done]);
      try (apply (no_null_frame d); [apply select_new_shapes|by destruct new_Line|done]).
    destruct (selectedElement d) as [r|]; [|done].
    split; [apply Hpush|by apply Forall_nil].
  - unfold mousemove. destruct (selectedElement d); [|done].
    destruct (negb _); [|done].
    apply (no_null_frame d); [apply resize_then_redraw_shapes| |done].
    unfold resize_ref. destruct (objects d !! r) as [sh|].
    + destruct (resize _ sh _ _) as [sh' []]; simpl; [|done].
      by rewrite redraw_undoneShapes.
    + by rewrite redraw_undoneShapes.
  - unfold mouseup. destruct (selectedElement d) as [r|]; [|done].
    destruct (negb _); [|done]. split; [apply Hpush|by apply Forall_nil].
  - unfold keypress.
    destruct (String.eqb (selectedShape d) "text" && not_null (selectedElement d))
      eqn:Htext.
    + apply andb_prop in Htext as [_ Hsel]. unfold textKeyPress.
      destruct (selectedElement d) as [r|]; [|done].
      destruct (String.eqb key "Enter").
      * split; [apply Hpush|by apply Forall_nil].
      * apply (no_null_frame d); [apply resize_then_redraw_shapes| |done].
        unfold resize_ref. destruct (objects d !! r) as [sh|].
        -- destruct (resize _ sh _ _) as [sh' []]; simpl; [|done].
           by rewrite redraw_undoneShapes.
        -- by rewrite redraw_undoneShapes.
    + destruct (is_Z_key key && ctrlKey); [|exact Hd].
      destruct shiftKey; auto using undo_no_null, redo_no_null.
  - unfold keydown. destruct (selectedElement d); [|done].
    destruct (String.eqb _ "text"); [|done].
    destruct (String.eqb key "Backspace"); [|done].
    apply (no_null_frame d); [apply resize_then_redraw_shapes| |done].
    unfold resize_ref. destruct (objects d !! r) as [sh|].
    + destruct (resize _ sh _ _) as [sh' []]; simpl; [|done].
      by rewrite redraw_undoneShapes.
    + by rewrite redraw_undoneShapes.
  - by apply undo_no_null.
  - by apply redo_no_null.
  - apply (no_null_frame d); [| |done].
    + rewrite shape_click_shapes. by destruct elem.
    + rewrite shape_click_undoneShapes. by destruct elem.
  - unfold fill_click. by destruct (negb _).
  - done.
  - done.
  - by destruct (createJsonBlob d).
  - apply constructShapesFromFile_no_null.
  - split; by apply Forall_nil.
Qed.

(** X8. A [null] entry comes from a click on the text tool only.  After
    events none of which is one, whatever they draw, undo, load or clear,
    no entry of the committed or of the undone list is [null], and saving
    returns a file. *)
Theorem a_drawing_without_the_text_tool_can_be_saved (evs : list event) :
  Forall (fun ev => clicks_text_tool ev = false) evs ->
  ~ In None (shapes (run_events drawer0 evs)) /\
  ~ In None (undoneShapes (run_events drawer0 evs)) /\
  (exists file, createJsonBlob (run_events drawer0 evs) = Ok file) /\
  snd (step (run_events drawer0 evs) SaveClick) = Normal.
Proof.
  intros Hevs.
  assert (no_null (run_events drawer0 evs)) as [Hs Hu].
  { apply (run_events_invariant no_null (fun ev => clicks_text_tool ev = false));
      [|split; by apply Forall_nil|done].
    intros d ev Hd Hev. by apply step_no_null. }
  assert (no_dangling (run_events drawer0 evs)) as Hdang.
  { apply (run_events_invariant no_dangling (fun _ => True));
      [|by split_and!|by apply Forall_forall].
    intros d ev Hd _. by apply step_no_dangling. }
  assert (forall l, Forall (fun e => not_null e = true) l -> ~ In None l) as Hnone.
  { intros l Hl Hin. rewrite Forall_forall in Hl.
    by apply list_elem_of_In, Hl in Hin. }
  pose proof (Hnone _ Hs) as Hs'. pose proof (Hnone _ Hu) as Hu'.
  pose proof (createJsonBlob_Throw _ Hdang) as Hthrow.
  assert (exists file, createJsonBlob (run_events drawer0 evs) = Ok file)
    as [file Hfile].
  { destruct (createJsonBlob (run_events drawer0 evs)) as [file|]; [eauto|].
    destruct Hs'. by apply Hthrow. }
  split_and!; [done|done|eauto|]. cbn [step]. by rewrite Hfile.
Qed.

(** ** Dragging *)

Lemma resize_two_point (amb : Settings) (sh : Shape) (a b : jsval) :
  two_point (fst (resize amb sh a b)) = two_point sh.
Proof.
  destruct sh as [p s ? ?|p s ? ? ? ?|p s ? ? ? ?|p s ? ?|p s ? ?|p s ? ?|p s cs];
    simpl; try done.
  - by repeat case_result.
  - by repeat case_result.
  - by repeat case_result.
  - destruct (is_string a "Backspace").
    + by destruct (0 <? length cs).
    + destruct (get amb a "length") as [len|]; [|done]. by destruct (is_one len).
Qed.

Lemma get_both (amb : Settings) (p vx : jsval) :
  get amb p "x" = Ok vx -> exists vy, get amb p "y" = Ok vy.
Proof. destruct p; try done; eauto. Qed.

Lemma get_neither (amb : Settings) (p : jsval) (k k' : string) :
  get amb p k = Throw -> get amb p k' = Throw.
Proof. by destruct p. Qed.

Lemma resize_overwrites (amb : Settings) (sh : Shape) (a b a' b' : jsval) :
  two_point sh = true ->
  reads_printable amb (position_of sh) "x" ->
  reads_printable amb (position_of sh) "y" ->
  unprintable a = false ->
  unprintable b = false ->
  resize amb (fst (resize amb sh a' b')) a b = resize amb sh a b.
Proof.
  intros Hsh Hx Hy Ha Hb.
  destruct (get amb (position_of sh) "x") as [vx|] eqn:Hvx.
  - destruct (get_both amb _ vx Hvx) as [vy Hvy].
    pose proof (Hx vx Hvx) as Hpx. pose proof (Hy vy Hvy) as Hpy.
    destruct sh as [p s w h|p s xr yr x y|p s xr yr x y|p s ? ?|p s ? ?|p s ? ?|p s cs];
      try done; cbn [position_of] in *.
    + assert (exists w' h', fst (resize amb (Rectangle p s w h) a' b')
                            = Rectangle p s w' h') as (w' & h' & ->)
        by (cbn [resize Rectangle_resize]; repeat case_result; eauto).
      cbn [resize Rectangle_resize]. rewrite Hvx, Hvy. cbn [rbind].
      by rewrite !js_sub_printable.
    + assert (exists xr' yr', fst (resize amb (Oval p s xr yr x y) a' b')
                              = Oval p s xr' yr' a' b') as (xr' & yr' & ->)
        by (cbn [resize Oval_resize]; repeat case_result; eauto).
      cbn [resize Oval_resize].
      by rewrite (half_distance_printable amb a p vx "x"),
        (half_distance_printable amb b p vy "y").
    + assert (exists xr' yr', fst (resize amb (Circle p s xr yr x y) a' b')
                              = Circle p s xr' yr' a' b') as (xr' & yr' & ->)
        by (cbn [resize Circle_resize]; repeat case_result; eauto).
      cbn [resize Circle_resize].
      by rewrite (distance_printable amb a p vx "x"),
        (distance_printable amb b p vy "y").
  - destruct sh as [p s w h|p s xr yr x y|p s xr yr x y|p s ? ?|p s ? ?|p s ? ?|p s cs];
      try done; cbn [position_of] in *;
      cbn [resize Rectangle_resize Oval_resize Circle_resize];
      unfold half_distance, distance; rewrite ?Hvx; cbn [rbind fst];
      cbn [resize Rectangle_resize Oval_resize Circle_resize];
      unfold half_distance, distance; by rewrite ?Hvx.
Qed.

Lemma after_moves_last (amb : Settings) (sh : Shape) (pts : list (Q * Q)) (x y : Q) :
  two_point sh = true ->
  reads_printable amb (position_of sh) "x" ->
  reads_printable amb (position_of sh) "y" ->
  resize amb (after_moves amb sh pts) (VNum (Fin x)) (VNum (Fin y))
  = resize amb sh (VNum (Fin x)) (VNum (Fin y)) /\
  after_moves amb sh (pts ++ [(x, y)]) = after_moves amb sh [(x, y)].
Proof.
  intros Hsh Hx Hy.
  assert (resize amb (after_moves amb sh pts) (VNum (Fin x)) (VNum (Fin y))
          = resize amb sh (VNum (Fin x)) (VNum (Fin y))) as H.
  { induction pts as [|p pts IH] using rev_ind; [done|].
    unfold after_moves in *. rewrite fold_left_app. simpl.
    assert (two_point (fold_left
              (fun sh p => fst (resize amb sh (VNum (Fin (fst p))) (VNum (Fin (snd p)))))
              pts sh) = true
            /\ position_of (fold_left
              (fun sh p => fst (resize amb sh (VNum (Fin (fst p))) (VNum (Fin (snd p)))))
              pts sh) = position_of sh) as [Htwo Hpos].
    { clear IH. induction pts as [|q pts IH] using rev_ind; [done|].
      rewrite fold_left_app. simpl. rewrite resize_two_point.
      destruct (resize_keeps amb (fold_left
              (fun sh p => fst (resize amb sh (VNum (Fin (fst p))) (VNum (Fin (snd p)))))
              pts sh) (VNum (Fin (fst q))) (VNum (Fin (snd q)))) as [-> _].
      done. }
    rewrite resize_overwrites; [done|done|by rewrite Hpos..|done|done]. }
  split; [done|]. unfold after_moves in *. rewrite fold_left_app. simpl.
  by rewrite H.
Qed.

(** X9. For a rectangle, an oval, a circle and a line whose position holds
    values that convert to numbers as [x] and [y], a [resize] with arguments
    that convert (numbers, as the pointer gives them, strings, booleans,
    [undefined], [null], arrays and objects of such values) overwrites what
    an earlier [resize] computed, whatever that one was given and however it
    ended: the shape and the way the call ends are what the last call alone
    gives.  After the positions [pts] and then ([x], [y]) the shape is what
    ([x], [y]) alone makes of it: it follows the pointer and keeps no trace
    of its path. *)
Theorem resize_keeps_the_last_point_only (amb : Settings) (sh : Shape)
    (a b a' b' : jsval) (pts : list (Q * Q)) (x y : Q) :
  two_point sh = true ->
  reads_printable amb (position_of sh) "x" ->
  reads_printable amb (position_of sh) "y" ->
  unprintable a = false ->
  unprintable b = false ->
  resize amb (fst (resize amb sh a' b')) a b = resize amb sh a b /\
  after_moves amb sh (pts ++ [(x, y)]) = after_moves amb sh [(x, y)].
Proof.
  intros Hsh Hx Hy Ha Hb.
  split; [by apply resize_overwrites|by apply after_moves_last].
Qed.

Lemma resize_then_redraw_frame (d : Drawer) (r : ref) (a b : jsval) :
  let d' := fst (match resize_ref d r a b with
                 | (d', Normal) => redraw d'
                 | (d', Thrown) => (d', Thrown)
                 end) in
  undoneShapes d' = undoneShapes d /\ selectedElement d' = selectedElement d.
Proof.
  unfold resize_ref. destruct (objects d !! r) as [sh|].
  - destruct (resize (settings d) sh a b) as [sh' []]; simpl; [|done].
    by rewrite redraw_undoneShapes, redraw_selectedElement.
  - by rewrite redraw_undoneShapes, redraw_selectedElement.
Qed.

Lemma moves_resize (pts : list (Q * Q)) :
  forall (d : Drawer) (os : list Shape) (sh : Shape),
    selectedElement d = Some (length os) ->
    String.eqb (selectedShape d) "text" = false ->
    objects d = os ++ [sh] ->
    objects (run_events d (moves pts)) = os ++ [after_moves (settings d) sh pts] /\
    shapes (run_events d (moves pts)) = shapes d /\
    undoneShapes (run_events d (moves pts)) = undoneShapes d /\
    selectedElement (run_events d (moves pts)) = Some (length os) /\
    controls (run_events d (moves pts)) = controls d.
Proof.
  induction pts as [|[x y] pts IH]; intros d os sh Hsel Htool Hobj; [done|].
  cbn [moves map run_events fold_left fst snd step].
  change (fold_left (fun d ev => fst (step d ev)) (map _ pts) ?d')
    with (run_events d' (moves pts)).
  unfold mousemove. rewrite Hsel, Htool. cbn [negb].
  pose proof (resize_then_redraw_objects d (length os) (VNum (Fin x)) (VNum (Fin y)))
    as Ho.
  pose proof (resize_then_redraw_shapes d (length os) (VNum (Fin x)) (VNum (Fin y)))
    as Hs.
  pose proof (resize_then_redraw_frame d (length os) (VNum (Fin x)) (VNum (Fin y)))
    as [Hu He].
  pose proof (resize_then_redraw_controls d (length os) (VNum (Fin x)) (VNum (Fin y)))
    as Hc.
  rewrite Hobj, list_lookup_middle in Ho by done.
  rewrite insert_app_r_alt, Nat.sub_diag in Ho by done. simpl in Ho.
  set (d1 := fst (match resize_ref d (length os) (VNum (Fin x)) (VNum (Fin y)) with
                  | (d', Normal) => redraw d'
                  | (d', Thrown) => (d', Thrown)
                  end)) in *.
  assert (settings d1 = settings d) as Hset
    by (unfold controls in Hc; by injection Hc as _ -> _ _).
  assert (selectedShape d1 = selectedShape d) as Hshape
    by (unfold controls in Hc; by injection Hc as -> _ _ _).
  destruct (IH d1 os _ (eq_trans He Hsel) (eq_trans (f_equal (fun t => String.eqb t "text") Hshape) Htool) Ho)
    as (-> & -> & -> & -> & ->).
  by rewrite Hset.
Qed.

Lemma drag_commits (d : Drawer) (x0 y0 : Q) (pts : list (Q * Q)) (sh0 : Shape) :
  String.eqb (selectedShape d) "text" = false ->
  mousedown d x0 y0 = select_new d (Ok sh0) ->
  objects (run_events d (drag x0 y0 pts))
  = objects d ++ [after_moves (settings d) sh0 pts] /\
  shapes (run_events d (drag x0 y0 pts)) = shapes d ++ [Some (length (objects d))] /\
  undoneShapes (run_events d (drag x0 y0 pts)) = [] /\
  selectedElement (run_events d (drag x0 y0 pts)) = None /\
  controls (run_events d (drag x0 y0 pts)) = controls d.
Proof.
  intros Htool Hdown. unfold drag.
  change (run_events d (MouseDown x0 y0 :: moves pts ++ [MouseUp]))
    with (run_events (fst (mousedown d x0 y0)) (moves pts ++ [MouseUp])).
  rewrite Hdown, run_events_snoc. cbn [select_new fst].
  set (d1 := with_selectedElement (with_objects d (objects d ++ [sh0]))
                                  (Some (length (objects d)))).
  destruct (moves_resize pts d1 (objects d) sh0 eq_refl Htool eq_refl)
    as (Ho & Hs & Hu & He & Hc).
  cbn [step]. unfold mouseup. rewrite He.
  assert (String.eqb (selectedShape (run_events d1 (moves pts))) "text" = false)
    as -> by (unfold controls in Hc; by injection Hc as -> _ _ _).
  cbn [negb fst]. simpl. rewrite Ho, Hs. split_and!; try done.
Qed.

Lemma after_moves_LineList (amb : Settings) (p s : jsval) (pts : list (Q * Q)) :
  forall xs ys,
    after_moves amb (LineList p s xs ys) pts
    = LineList p s (xs ++ xs_of pts) (ys ++ ys_of pts).
Proof.
  induction pts as [|[x y] pts IH]; intros xs ys; simpl.
  - by rewrite !app_nil_r.
  - unfold after_moves in *. simpl. rewrite IH. by rewrite <- !app_assoc.
Qed.

(** X10. With a tool other than text, a press on the canvas, any moves and the
    release commit one entry, the shape that the press made after [resize]
    took the moves; without a move the entry is the shape as the press made
    it, of no extent.  Nothing is left to redo or in progress, and the tool
    and the settings are as before. *)
Theorem a_press_and_release_commit_one_shape (d : Drawer) (x0 y0 : Q)
    (pts : list (Q * Q)) :
  In (selectedShape d) ["rectangle"; "oval"; "circle"; "line"; "lineList"; "eraseList"] ->
  exists sh0 : Shape,
    objects (fst (mousedown d x0 y0)) = objects d ++ [sh0] /\
    objects (run_events d (drag x0 y0 pts))
    = objects d ++ [after_moves (settings d) sh0 pts] /\
    objects (run_events d (drag x0 y0 [])) = objects d ++ [sh0] /\
    shapes (run_events d (drag x0 y0 pts)) = shapes d ++ [Some (length (objects d))] /\
    undoneShapes (run_events d (drag x0 y0 pts)) = [] /\
    selectedElement (run_events d (drag x0 y0 pts)) = None /\
    controls (run_events d (drag x0 y0 pts)) = controls d.
Proof.
  intros Hin. simpl in Hin.
  assert (exists sh0, String.eqb (selectedShape d) "text" = false /\
                      mousedown d x0 y0 = select_new d (Ok sh0)) as (sh0 & Ht & Hdown).
  { unfold mousedown.
    destruct Hin as [<-|[<-|[<-|[<-|[<-|[<-|[]]]]]]]; simpl; eauto. }
  exists sh0.
  destruct (drag_commits d x0 y0 pts sh0 Ht Hdown) as (Ho & Hs & Hu & He & Hc).
  destruct (drag_commits d x0 y0 [] sh0 Ht Hdown) as (Ho' & _).
  rewrite Hdown. by split_and!.
Qed.

(** X11. A stroke of the pencil holds the positions of all the moves between
    press and release, in their order, and starts at the position of the
    press. *)
Theorem a_stroke_keeps_every_point (d : Drawer) (x0 y0 : Q) (pts : list (Q * Q)) :
  selectedShape d = "lineList" ->
  objects (run_events d (drag x0 y0 pts))
  = objects d ++ [LineList (VObj [("x", VNum (Fin x0)); ("y", VNum (Fin y0))])
                           (currentSettings d) (xs_of pts) (ys_of pts)] /\
  shapes (run_events d (drag x0 y0 pts)) = shapes d ++ [Some (length (objects d))].
Proof.
  intros Ht.
  destruct (drag_commits d x0 y0 pts
              (LineList (VObj [("x", VNum (Fin x0)); ("y", VNum (Fin y0))])
                        (currentSettings d) [] []))
    as (Ho & Hs & _); [by rewrite Ht|by unfold mousedown; rewrite Ht|].
  by rewrite Ho, Hs, after_moves_LineList.
Qed.

Lemma Qred_inject_Z (z : Z) : Qred (inject_Z z) = inject_Z z.
Proof.
  unfold Qred, inject_Z. cbn [Qnum Qden].
  pose proof (Z.ggcd_gcd z 1) as Hg.
  pose proof (Z.ggcd_correct_divisors z 1) as Hd.
  destruct (Z.ggcd z 1) as [g [a b]]. cbn [fst snd] in *.
  rewrite Z.gcd_1_r in Hg. subst g. destruct Hd as [Ha Hb].
  rewrite !Z.mul_1_l in *. by subst a b.
Qed.

Lemma Qred_is_integer (q : Q) (z : Z) : (q == inject_Z z)%Q -> Qred q = inject_Z z.
Proof. intros H. rewrite (Qred_complete _ _ H). apply Qred_inject_Z. Qed.

Lemma double_of_Z (z : Z) : (Z.abs z < 2 ^ 53)%Z -> double (inject_Z z).
Proof. intros H. exists z, 0%Z. split_and!; [done|lia|lia|]. simpl. ring. Qed.

Lemma nearest_double_of_Z (z : Z) :
  (Z.abs z < 2 ^ 53)%Z -> nearest_double (inject_Z z) = inject_Z z.
Proof.
  intros H. rewrite nearest_double_exact by (by apply double_of_Z).
  apply Qred_inject_Z.
Qed.

Lemma nsub_of_Z (a b : Z) :
  (Z.abs a < 2 ^ 53)%Z -> (Z.abs b < 2 ^ 53)%Z -> (Z.abs (a - b) < 2 ^ 53)%Z ->
  nsub (of_Z a) (of_Z b) = of_Z (a - b).
Proof.
  intros Ha Hb H. unfold nsub, nround2, of_Z. f_equal.
  rewrite !nearest_double_of_Z by done.
  assert (inject_Z a - inject_Z b == inject_Z (a - b))%Q as Heq
    by (unfold Qminus; by rewrite <- inject_Z_opp, <- inject_Z_plus).
  rewrite nearest_double_exact; [by apply Qred_is_integer|].
  apply (double_Qeq _ _ Heq). by apply double_of_Z.
Qed.

Lemma nabs_of_Z (z : Z) : nabs (of_Z z) = of_Z (Z.abs z).
Proof. unfold nabs, of_Z. f_equal. by apply Qred_is_integer. Qed.

Lemma nmax_of_Z (a b : Z) : nmax (of_Z a) (of_Z b) = of_Z (Z.max a b).
Proof.
  unfold nmax, nlift2, of_Z. f_equal.
  destruct (Qle_bool (inject_Z a) (inject_Z b)) eqn:Hle.
  - apply Qle_bool_iff in Hle. rewrite <- Zle_Qle in Hle.
    rewrite Z.max_r by done. apply Qred_inject_Z.
  - assert (~ (inject_Z a <= inject_Z b)%Q) as Hnle
      by (intros H; apply Qle_bool_iff in H; congruence).
    rewrite <- Zle_Qle in Hnle. rewrite Z.max_l by lia. apply Qred_inject_Z.
Qed.

Lemma nhalf_of_Z (z : Z) : (Z.abs z < 2 ^ 53)%Z -> nhalf (of_Z z) = half_of_Z z.
Proof.
  intros H. unfold nhalf, half_of_Z, of_Z. f_equal.
  rewrite nearest_double_of_Z by done. rewrite nearest_double_exact.
  - apply Qred_complete. unfold Qeq, Qdiv, Qmult, Qinv, inject_Z. simpl. lia.
  - exists z, (-1)%Z. split_and!; [done|lia|lia|]. simpl. field.
Qed.

(** X12. A rectangle, an oval, a circle and a line are what the press and the
    last move make them, whatever the moves in between.  For positions
    whose coordinates are integers below [2 ^ 52] in absolute value,
    as the pointer gives them: the rectangle has the differences of the two
    positions as width and height, which are negative when the pointer went
    left or up; the line ends at the last position; the oval and the circle
    hold the last position and as radii the halves of the distances, the
    circle the larger one twice.  The differences are integers below
    [2 ^ 53] and the radii halves of such: numbers that doubles hold, which
    the subtraction and the halving give without rounding. *)
Theorem a_dragged_shape_spans_press_and_last_move (d : Drawer) (x0 y0 x1 y1 : Z)
    (pts : list (Q * Q)) :
  In (selectedShape d) ["rectangle"; "oval"; "circle"; "line"] ->
  (Z.abs x0 < 2 ^ 52)%Z -> (Z.abs y0 < 2 ^ 52)%Z ->
  (Z.abs x1 < 2 ^ 52)%Z -> (Z.abs y1 < 2 ^ 52)%Z ->
  let pos := VObj [("x", VNum (of_Z x0)); ("y", VNum (of_Z y0))] in
  let dx := (x1 - x0)%Z in
  let dy := (y1 - y0)%Z in
  let d' := run_events d (drag (inject_Z x0) (inject_Z y0)
                               (pts ++ [(inject_Z x1, inject_Z y1)])) in
  objects d'
  = objects (run_events d (drag (inject_Z x0) (inject_Z y0)
                                [(inject_Z x1, inject_Z y1)])) /\
  (selectedShape d = "rectangle" ->
   objects d'
   = objects d ++ [Rectangle pos (currentSettings d) (VNum (of_Z dx)) (VNum (of_Z dy))]) /\
  (selectedShape d = "line" ->
   objects d'
   = objects d ++ [Line pos (currentSettings d) (VNum (of_Z x1)) (VNum (of_Z y1))]) /\
  (selectedShape d = "oval" ->
   objects d'
   = objects d ++ [Oval pos (currentSettings d)
                        (VNum (half_of_Z (Z.abs dx))) (VNum (half_of_Z (Z.abs dy)))
                        (VNum (of_Z x1)) (VNum (of_Z y1))]) /\
  (selectedShape d = "circle" ->
   objects d'
   = objects d ++ [Circle pos (currentSettings d)
                          (VNum (half_of_Z (Z.max (Z.abs dx) (Z.abs dy))))
                          (VNum (half_of_Z (Z.max (Z.abs dx) (Z.abs dy))))
                          (VNum (of_Z x1)) (VNum (of_Z y1))]) /\
  (Z.abs dx < 2 ^ 53)%Z /\ (Z.abs dy < 2 ^ 53)%Z.
Proof.
  intros Hin Hx0 Hy0 Hx1 Hy1 pos dx dy d'. subst d'. simpl in Hin.
  assert (exists sh0, String.eqb (selectedShape d) "text" = false /\
                      mousedown d (inject_Z x0) (inject_Z y0) = select_new d (Ok sh0) /\
                      two_point sh0 = true /\
                      position_of sh0 = pos /\
                      (selectedShape d = "rectangle" ->
                       sh0 = Rectangle pos (currentSettings d) (VNum (of_Z 0)) (VNum (of_Z 0))) /\
                      (selectedShape d = "line" ->
                       sh0 = Line pos (currentSettings d) (VNum (of_Z x0)) (VNum (of_Z y0))) /\
                      (selectedShape d = "oval" ->
                       sh0 = Oval pos (currentSettings d) (VNum (of_Z 0)) (VNum (of_Z 0))
                                  (VNum (of_Z x0)) (VNum (of_Z y0))) /\
                      (selectedShape d = "circle" ->
                       sh0 = Circle pos (currentSettings d) (VNum (of_Z 0)) (VNum (of_Z 0))
                                    (VNum (of_Z x0)) (VNum (of_Z y0))))
    as (sh0 & Ht & Hdown & Htwo & Hpos & Hrect & Hline & Hoval & Hcircle).
  { unfold mousedown.
    destruct Hin as [<-|[<-|[<-|[<-|[]]]]]; simpl; eexists; split_and!; try done. }
  destruct (drag_commits d (inject_Z x0) (inject_Z y0)
              (pts ++ [(inject_Z x1, inject_Z y1)]) sh0 Ht Hdown) as (-> & _).
  destruct (drag_commits d (inject_Z x0) (inject_Z y0)
              [(inject_Z x1, inject_Z y1)] sh0 Ht Hdown) as (-> & _).
  assert (forall amb, get amb pos "x" = Ok (VNum (of_Z x0))) as Hgx by done.
  assert (forall amb, get amb pos "y" = Ok (VNum (of_Z y0))) as Hgy by done.
  destruct (after_moves_last (settings d) sh0 pts (inject_Z x1) (inject_Z y1) Htwo)
    as [_ ->]; [rewrite Hpos; intros v; rewrite ?Hgx, ?Hgy; by intros [= <-]..|].
  split; [done|].
  assert ((Z.abs dx < 2 ^ 53)%Z /\ (Z.abs dy < 2 ^ 53)%Z) as [Hdx Hdy]
    by (subst dx dy; lia).
  assert (nsub (of_Z x1) (of_Z x0) = of_Z dx) as Hsx
    by (rewrite nsub_of_Z; [done|lia..]).
  assert (nsub (of_Z y1) (of_Z y0) = of_Z dy) as Hsy
    by (rewrite nsub_of_Z; [done|lia..]).
  assert (forall amb, distance amb (VNum (of_Z x1)) pos "x"
                      = Ok (VNum (of_Z (Z.abs dx)))) as Hdistx
    by (intros amb; rewrite (distance_printable amb _ pos _ "x" (Hgx amb)) by done;
        cbn [number_of]; by rewrite Hsx, nabs_of_Z).
  assert (forall amb, distance amb (VNum (of_Z y1)) pos "y"
                      = Ok (VNum (of_Z (Z.abs dy)))) as Hdisty
    by (intros amb; rewrite (distance_printable amb _ pos _ "y" (Hgy amb)) by done;
        cbn [number_of]; by rewrite Hsy, nabs_of_Z).
  assert (forall z : Z, (Z.abs z < 2 ^ 53)%Z ->
            js_half (VNum (of_Z (Z.abs z))) = Ok (VNum (half_of_Z (Z.abs z))))
    as Hhalf
    by (intros z Hz; rewrite js_half_printable by done; cbn [number_of];
        rewrite nhalf_of_Z; [done|lia]).
  assert (js_sub (VNum (of_Z x1)) (VNum (of_Z x0)) = Ok (VNum (of_Z dx))) as Hjx
    by (rewrite js_sub_printable by done; cbn [number_of]; by rewrite Hsx).
  assert (js_sub (VNum (of_Z y1)) (VNum (of_Z y0)) = Ok (VNum (of_Z dy))) as Hjy
    by (rewrite js_sub_printable by done; cbn [number_of]; by rewrite Hsy).
  assert (Math_max (VNum (of_Z (Z.abs dx))) (VNum (of_Z (Z.abs dy)))
          = Ok (VNum (of_Z (Z.max (Z.abs dx) (Z.abs dy))))) as Hmax
    by (unfold Math_max, ToNumber; cbn [unprintable number_of rbind];
        by rewrite nmax_of_Z).
  assert (js_half (VNum (of_Z (Z.max (Z.abs dx) (Z.abs dy))))
          = Ok (VNum (half_of_Z (Z.max (Z.abs dx) (Z.abs dy))))) as Hhm
    by (rewrite js_half_printable by done; cbn [number_of];
        rewrite nhalf_of_Z; [done|lia]).
  pose proof (Hhalf dx Hdx) as Hhx. pose proof (Hhalf dy Hdy) as Hhy.
  split_and!; try done; intros H;
    [rewrite (Hrect H)|rewrite (Hline H)|rewrite (Hoval H)|rewrite (Hcircle H)];
    unfold after_moves; cbn [fold_left fst snd resize Rectangle_resize Oval_resize
                             Circle_resize Line_resize];
    fold (of_Z x1) (of_Z y1); unfold half_distance;
    rewrite ?Hgx, ?Hgy, ?Hdistx, ?Hdisty; cbn [rbind];
    rewrite ?Hjx, ?Hjy, ?Hmax, ?Hhx, ?Hhy; cbn [rbind]; rewrite ?Hhm; done.
Qed.

(** ** Typing *)

Lemma DrawnText_resize_DrawnText (amb : Settings) (p s : jsval) (cs : list jsval)
    (key : string) :
  exists cs', DrawnText_resize amb (DrawnText p s cs) (VStr key)
              = (DrawnText p s cs', Normal).
Proof.
  destruct (String.eqb_spec key "Backspace") as [->|Hk].
  - rewrite DrawnText_resize_Backspace. eauto.
  - rewrite DrawnText_resize_other by done. eauto.
Qed.

Lemma type_keys_single (amb : Settings) (p s : jsval) (keys : list string) :
  Forall (fun k => js_length k = 1) keys ->
  forall cs, type_keys amb (DrawnText p s cs) keys = DrawnText p s (cs ++ map VStr keys).
Proof.
  induction 1 as [|k keys Hk Hkeys IH]; intros cs.
  - simpl. by rewrite app_nil_r.
  - unfold type_keys in *. cbn [fold_left map].
    assert (k <> "Backspace") as Hb by (intros ->; discriminate).
    rewrite DrawnText_resize_other by done. rewrite Hk. cbn [Nat.eqb fst].
    by rewrite IH, <- app_assoc.
Qed.

Lemma presses_type (keys : list (string * bool * bool)) :
  forall (d : Drawer) (os : list Shape) (p s : jsval) (cs : list jsval),
    selectedShape d = "text" ->
    selectedElement d = Some (length os) ->
    objects d = os ++ [DrawnText p s cs] ->
    Forall (fun k => k <> "Enter") (key_names keys) ->
    objects (run_events d (presses keys))
    = os ++ [type_keys (settings d) (DrawnText p s cs) (key_names keys)] /\
    shapes (run_events d (presses keys)) = shapes d /\
    undoneShapes (run_events d (presses keys)) = undoneShapes d /\
    selectedElement (run_events d (presses keys)) = Some (length os) /\
    controls (run_events d (presses keys)) = controls d.
Proof.
  induction keys as [|[[key c] sf] keys IH]; intros d os p s cs Htool Hsel Hobj Hkeys;
    [done|].
  cbn [key_names map fst snd] in Hkeys.
  inversion Hkeys as [|? ? Hkey Hrest]; subst.
  cbn [presses key_names map run_events fold_left fst snd step].
  change (fold_left (fun d ev => fst (step d ev)) (map _ keys) ?d')
    with (run_events d' (presses keys)).
  change (map (fun k : string * bool * bool => fst (fst k)) keys) with (key_names keys).
  unfold keypress, textKeyPress. rewrite Htool, Hsel, String.eqb_refl.
  cbn [andb not_null].
  apply String.eqb_neq in Hkey. rewrite Hkey.
  pose proof (resize_then_redraw_objects d (length os) (VStr key) VUndef) as Ho.
  pose proof (resize_then_redraw_shapes d (length os) (VStr key) VUndef) as Hs.
  pose proof (resize_then_redraw_frame d (length os) (VStr key) VUndef) as [Hu He].
  pose proof (resize_then_redraw_controls d (length os) (VStr key) VUndef) as Hc.
  rewrite Hobj, list_lookup_middle in Ho by done.
  rewrite insert_app_r_alt, Nat.sub_diag in Ho by done. cbn [insert list_insert] in Ho.
  destruct (DrawnText_resize_DrawnText (settings d) p s cs key) as [cs' Hcs'].
  change (resize (settings d) (DrawnText p s cs) (VStr key) VUndef)
    with (DrawnText_resize (settings d) (DrawnText p s cs) (VStr key)) in Ho.
  set (d1 := fst (match resize_ref d (length os) (VStr key) VUndef with
                  | (d', Normal) => redraw d'
                  | (d', Thrown) => (d', Thrown)
                  end)) in *.
  assert (settings d1 = settings d) as Hset
    by (unfold controls in Hc; by injection Hc as _ -> _ _).
  assert (selectedShape d1 = "text") as Hshape
    by (unfold controls in Hc; injection Hc as -> _ _ _; done).
  rewrite Hcs' in Ho. cbn [fst] in Ho.
  destruct (IH d1 os p s cs' Hshape (eq_trans He Hsel) Ho Hrest)
    as (-> & -> & -> & -> & ->).
  rewrite Hset. split_and!; try done.
  unfold type_keys. cbn [fold_left]. by rewrite Hcs'.
Qed.

(** X13. With the text tool and nothing in progress, a press on the canvas,
    key presses and Enter commit one text at the position of the press,
    which holds what [resize] made of the keys: the keys of length 1, in
    their order, when all are of one code unit.  Ctrl and Shift play no
    part, so Ctrl+Z goes into the text as a letter and undoes nothing. *)
Theorem a_typed_text_holds_the_keys (d : Drawer) (x y : Q)
    (keys : list (string * bool * bool)) (ctrlKey shiftKey : bool) :
  selectedShape d = "text" ->
  selectedElement d = None ->
  Forall (fun k => k <> "Enter") (key_names keys) ->
  let pos := VObj [("x", VNum (Fin x)); ("y", VNum (Fin y))] in
  let d' := run_events d (MouseDown x y :: presses keys
                            ++ [KeyPress "Enter" ctrlKey shiftKey]) in
  objects d'
  = objects d ++ [type_keys (settings d) (DrawnText pos (currentSettings d) [])
                            (key_names keys)] /\
  (Forall (fun k => js_length k = 1) (key_names keys) ->
   objects d'
   = objects d ++ [DrawnText pos (currentSettings d) (map VStr (key_names keys))]) /\
  shapes d' = shapes d ++ [Some (length (objects d))] /\
  undoneShapes d' = [] /\
  selectedElement d' = None.
Proof.
  intros Htool Hsel Hkeys pos d'. subst d'.
  change (run_events d (MouseDown x y :: presses keys ++ [KeyPress "Enter" ctrlKey shiftKey]))
    with (run_events (fst (mousedown d x y))
            (presses keys ++ [KeyPress "Enter" ctrlKey shiftKey])).
  assert (mousedown d x y
          = select_new d (Ok (DrawnText pos (currentSettings d) []))) as ->
    by (unfold mousedown; rewrite Htool, Hsel; done).
  rewrite run_events_snoc. cbn [select_new fst].
  set (d1 := with_selectedElement
               (with_objects d (objects d ++ [DrawnText pos (currentSettings d) []]))
               (Some (length (objects d)))).
  destruct (presses_type keys d1 (objects d) pos (currentSettings d) []
              Htool eq_refl eq_refl Hkeys) as (Ho & Hs & Hu & He & Hc).
  cbn [step]. unfold keypress, textKeyPress.
  assert (selectedShape (run_events d1 (presses keys)) = "text") as ->
    by (unfold controls in Hc; injection Hc as -> _ _ _; done).
  rewrite He. simpl. rewrite Ho, Hs. split_and!; try done.
  intros Hone. by rewrite type_keys_single.
Qed.

(** ** A text in progress and the shape list *)

(** X14. A click on the item of another tool than the selected one, text apart,
    drops what is in progress: it is not committed, and no undo or redo
    brings it into the committed or the undone list afterwards.  So a text
    that was typed and not ended with Enter is lost by choosing another
    tool. *)
Theorem another_tool_drops_what_is_in_progress (d : Drawer) (elem : shape_item)
    (r : ref) (steps : list bool) :
  selectedElement d = Some r ->
  dataset_shape elem <> "text" ->
  dataset_shape elem <> selectedShape d ->
  ~ In (Some r) (history d) ->
  let d' := fst (shape_click d elem) in
  selectedElement d' = None /\
  shapes d' = shapes d /\
  undoneShapes d' = undoneShapes d /\
  selectedElement (rewind d' steps) = None /\
  ~ In (Some r) (shapes (rewind d' steps)) /\
  ~ In (Some r) (undoneShapes (rewind d' steps)).
Proof.
  intros Hsel Htext%String.eqb_neq Hne%String.eqb_neq Hr d'.
  assert (selectedElement d' = None /\ shapes d' = shapes d /\
          undoneShapes d' = undoneShapes d) as (He & Hs & Hu).
  { subst d'. unfold shape_click. rewrite Htext.
    destruct (negb (fill_toggle d)); simpl; rewrite Hne; simpl; by case_ifs. }
  destruct (undo_and_redo_conserve d' steps) as (Hh & _ & Hsel' & _).
  split_and!; try done; try congruence.
  - intros Hin. apply Hr. unfold history in *. rewrite <- Hs, <- Hu, <- Hh.
    apply in_or_app. by left.
  - intros Hin. apply Hr. unfold history in *. rewrite <- Hs, <- Hu, <- Hh.
    apply in_or_app. right. by apply in_rev in Hin.
Qed.

(** X15. A click on the text tool while a text is in progress commits the text
    and leaves it in progress: the committed entry and
    [drawer.selectedElement] refer to one object.  A key pressed afterwards
    changes the committed text, and Enter commits the same object a second
    time. *)
Theorem the_text_tool_commits_a_text_and_keeps_typing (d : Drawer) (r : ref)
    (p s : jsval) (chars : list jsval) (key : string) (c1 s1 c2 s2 : bool) :
  selectedShape d = "text" ->
  selectedElement d = Some r ->
  objects d !! r = Some (DrawnText p s chars) ->
  String.length key = 1 ->
  let d1 := fst (shape_click d li_text) in
  let d2 := run_events d1 [KeyPress key c1 s1] in
  let d3 := run_events d2 [KeyPress "Enter" c2 s2] in
  shape_click d li_text = (d1, Normal) /\
  shapes d1 = shapes d ++ [Some r] /\
  selectedElement d1 = Some r /\
  shapes d2 = shapes d ++ [Some r] /\
  objects d2 !! r = Some (DrawnText p s (chars ++ [VStr key])) /\
  shapes d3 = shapes d ++ [Some r; Some r] /\
  selectedElement d3 = None.
Proof.
  intros Htool Hsel Hobj Hkey d1 d2 d3.
  assert (key <> "Backspace") as Hb by (intros ->; discriminate).
  assert (String.eqb key "Enter" = false) as He
    by (apply String.eqb_neq; intros ->; discriminate).
  assert (shape_click d li_text = (d1, Normal) /\ shapes d1 = shapes d ++ [Some r] /\
          selectedElement d1 = Some r /\ selectedShape d1 = "text" /\
          objects d1 = objects d /\ settings d1 = set_filled (settings d) true)
    as (Hclick & Hs1 & Hsel1 & Htool1 & Hobj1 & Hset1).
  { subst d1. unfold shape_click.
    destruct (negb (fill_toggle d)); simpl; rewrite Htool, Hsel; done. }
  assert (shapes d2 = shapes d ++ [Some r] /\ selectedElement d2 = Some r /\
          selectedShape d2 = "text" /\
          objects d2 !! r = Some (DrawnText p s (chars ++ [VStr key])))
    as (Hs2 & Hsel2 & Htool2 & Hobj2).
  { subst d2. cbn [run_events fold_left step]. unfold keypress, textKeyPress.
    rewrite Htool1, Hsel1, String.eqb_refl. cbn [andb not_null]. rewrite He.
    pose proof (resize_then_redraw_objects d1 r (VStr key) VUndef) as Ho.
    pose proof (resize_then_redraw_shapes d1 r (VStr key) VUndef) as Hs.
    pose proof (resize_then_redraw_frame d1 r (VStr key) VUndef) as [_ Hse].
    pose proof (resize_then_redraw_controls d1 r (VStr key) VUndef) as Hc.
    unfold controls in Hc. injection Hc as Hc _ _ _.
    rewrite Hs, Hse, Hc, Ho, Hobj1. unfold ref in *. rewrite Hobj.
    split_and!; try done.
    rewrite list_lookup_insert_eq by (by eapply lookup_lt_Some).
    change (resize (settings d1) (DrawnText p s chars) (VStr key) VUndef)
      with (DrawnText_resize (settings d1) (DrawnText p s chars) (VStr key)).
    rewrite DrawnText_resize_other by done. by rewrite (js_length_one key Hkey). }
  split_and!; try done.
  - subst d3. cbn [run_events fold_left step]. unfold keypress, textKeyPress.
    rewrite Htool2, Hsel2. simpl. by rewrite Hs2, <- app_assoc.
  - subst d3. cbn [run_events fold_left step]. unfold keypress, textKeyPress.
    by rewrite Htool2, Hsel2.
Qed.

(** ** Loading *)

Lemma get_index_VArr (amb : Settings) (l : list jsval) (j : nat) :
  get_index amb (VArr l) j = Ok (item l j).
Proof. done. Qed.

Lemma item_middle (l1 l2 : list jsval) (v : jsval) :
  item (l1 ++ v :: l2) (length l1) = v.
Proof. unfold item. by rewrite list_lookup_middle. Qed.

Lemma get_length_VArr (amb : Settings) (l : list jsval) :
  get amb (VArr l) "length" = Ok (VNum (of_nat (length l))).
Proof. done. Qed.

Lemma for_loop_chars (amb : Settings) (p s : jsval) (keys : list string) :
  forall (pre cs : list jsval),
    for_loop (length keys) (length pre)
      (fun j this =>
         match get_index amb (VArr (pre ++ map VStr keys)) j with
         | Throw => (this, Thrown)
         | Ok c => resize amb this c VUndef
         end) (DrawnText p s cs)
    = (type_keys amb (DrawnText p s cs) keys, Normal).
Proof.
  induction keys as [|k keys IH]; intros pre cs; [done|].
  cbn [length for_loop map].
  rewrite get_index_VArr, item_middle.
  change (resize amb (DrawnText p s cs) (VStr k) VUndef)
    with (DrawnText_resize amb (DrawnText p s cs) (VStr k)).
  destruct (DrawnText_resize_DrawnText amb p s cs k) as [cs' Hcs'].
  rewrite Hcs'. specialize (IH (pre ++ [VStr k]) cs').
  rewrite <- app_assoc, length_app, Nat.add_comm in IH. cbn [app length Nat.add] in IH.
  rewrite IH. unfold type_keys. cbn [fold_left]. by rewrite Hcs'.
Qed.

Lemma replay_chars_keys (amb : Settings) (jsonShape p s : jsval) (cs : list jsval)
    (keys : list string) :
  get amb jsonShape "chars" = Ok (VArr (map VStr keys)) ->
  replay_chars amb jsonShape (DrawnText p s cs)
  = Ok (type_keys amb (DrawnText p s cs) keys).
Proof.
  intros Hchars. unfold replay_chars. rewrite Hchars. cbn [rbind].
  rewrite get_length_VArr. cbn [rbind]. rewrite ToNumber_VNum. cbn [rbind].
  rewrite length_map, loop_count_length.
  pose proof (for_loop_chars amb p s keys [] cs) as H. cbn [app length] in H.
  by rewrite H.
Qed.

Lemma loading_text (d : Drawer) (jsonShape p s : jsval) (keys : list string) :
  get (settings d) jsonShape "type" = Ok (VStr "DrawnText") ->
  get (settings d) jsonShape "position" = Ok p ->
  get (settings d) jsonShape "settings" = Ok s ->
  get (settings d) jsonShape "chars" = Ok (VArr (map VStr keys)) ->
  createShapeFromJson d jsonShape
  = push_new d (Ok (type_keys (settings d) (DrawnText p s []) keys)) /\
  (Forall (fun k => js_length k = 1) keys ->
   createShapeFromJson d jsonShape = push_new d (Ok (DrawnText p s (map VStr keys)))).
Proof.
  intros Htype Hp Hs Hchars.
  assert (createShapeFromJson d jsonShape
          = push_new d (Ok (type_keys (settings d) (DrawnText p s []) keys))) as H.
  { unfold createShapeFromJson. rewrite Htype, Hp, Hs. cbn [is_string rbind].
    change (String.eqb "DrawnText" ?t) with false at 1 2 3 4 5 6. cbn iota.
    rewrite String.eqb_refl. cbn iota. unfold new_DrawnText. cbn [rbind].
    by rewrite (replay_chars_keys _ _ _ _ _ keys Hchars). }
  split; [done|]. intros Hone. by rewrite H, type_keys_single.
Qed.

(** X16. Loading a text replays the array [chars] of its record as key
    presses: a record of the class DrawnText whose [chars] are strings
    gives the text that typing these strings as keys gives, so an entry
    "Backspace" takes away the character before it, and an entry whose
    length is not 1, counted in code units, is left out.  An array of
    strings of length 1 comes back as it is. *)
Theorem loading_a_text_replays_its_characters_as_keys (d : Drawer)
    (jsonShape p s : jsval) (keys : list string) :
  get (settings d) jsonShape "type" = Ok (VStr "DrawnText") ->
  get (settings d) jsonShape "position" = Ok p ->
  get (settings d) jsonShape "settings" = Ok s ->
  get (settings d) jsonShape "chars" = Ok (VArr (map VStr keys)) ->
  createShapeFromJson d jsonShape
  = push_new d (Ok (type_keys (settings d) (DrawnText p s []) keys)) /\
  (Forall (fun k => js_length k = 1) keys ->
   createShapeFromJson d jsonShape = push_new d (Ok (DrawnText p s (map VStr keys)))) /\
  type_keys (settings d) (DrawnText p s []) ["a"; "Backspace"; "b"; "cd"]
  = DrawnText p s [VStr "b"].
Proof.
  intros Htype Hp Hs Hchars.
  destruct (loading_text d jsonShape p s keys Htype Hp Hs Hchars) as [H1 H2].
  by split_and!.
Qed.

Lemma map_item_take (l : list jsval) (n : nat) :
  n <= length l -> map (item l) (seq 0 n) = take n l.
Proof.
  induction n as [|n IH]; intros Hn; [done|].
  rewrite seq_S, map_app, IH by lia. simpl.
  destruct (lookup_lt_is_Some_2 l n) as [x Hx]; [lia|].
  rewrite (take_S_r _ _ _ Hx). unfold item. by rewrite Hx.
Qed.

Lemma map_item_past (l : list jsval) (k : nat) :
  forall i, length l <= i -> map (item l) (seq i k) = replicate k VUndef.
Proof.
  induction k as [|k IH]; intros i Hi; [done|]. simpl.
  rewrite item_past_end by done. by rewrite IH by lia.
Qed.

Lemma map_item_pad (l : list jsval) (n : nat) :
  length l <= n ->
  map (item l) (seq 0 n) = l ++ replicate (n - length l) VUndef.
Proof.
  intros Hn. replace n with (length l + (n - length l)) at 1 by lia.
  rewrite seq_app, map_app, map_item_take by done. rewrite firstn_all. simpl.
  by rewrite map_item_past.
Qed.

Lemma resize_stroke (amb : Settings) (erase : bool) (p s a b : jsval)
    (xs ys : list jsval) :
  resize amb (stroke erase p s xs ys) a b
  = (stroke erase p s (xs ++ [a]) (ys ++ [b]), Normal).
Proof. by destruct erase. Qed.

Lemma for_loop_points (amb : Settings) (p s : jsval) (erase : bool)
    (ys l : list jsval) :
  forall (pre xs0 ys0 : list jsval),
    for_loop (length l) (length pre)
      (fun j this =>
         match get_index amb (VArr (pre ++ l)) j with
         | Throw => (this, Thrown)
         | Ok x =>
             match get_index amb (VArr ys) j with
             | Throw => (this, Thrown)
             | Ok y => resize amb this x y
             end
         end) (stroke erase p s xs0 ys0)
    = (stroke erase p s (xs0 ++ l) (ys0 ++ map (item ys) (seq (length pre) (length l))),
       Normal).
Proof.
  induction l as [|x l IH]; intros pre xs0 ys0.
  - simpl. by rewrite !app_nil_r.
  - cbn [length for_loop].
    rewrite !get_index_VArr, item_middle, resize_stroke.
    specialize (IH (pre ++ [x]) (xs0 ++ [x]) (ys0 ++ [item ys (length pre)])).
    rewrite <- !app_assoc, length_app, Nat.add_comm in IH.
    cbn [app length Nat.add] in IH. by rewrite IH.
Qed.

Lemma replay_points_stroke (amb : Settings) (jsonShape p s : jsval) (erase : bool)
    (xs ys : list jsval) :
  get amb jsonShape "xList" = Ok (VArr xs) ->
  get amb jsonShape "yList" = Ok (VArr ys) ->
  replay_points amb jsonShape (stroke erase p s [] [])
  = Ok (stroke erase p s xs (map (item ys) (seq 0 (length xs)))).
Proof.
  intros Hx Hy. unfold replay_points. rewrite Hx. cbn [rbind].
  rewrite get_length_VArr. cbn [rbind]. rewrite ToNumber_VNum. cbn [rbind].
  rewrite loop_count_length, Hy. cbn [rbind].
  pose proof (for_loop_points amb p s erase ys xs [] [] []) as H.
  cbn [app length] in H. by rewrite H.
Qed.

Lemma createShapeFromJson_stroke (d : Drawer) (jsonShape p s : jsval) (erase : bool)
    (xs ys : list jsval) :
  get (settings d) jsonShape "type"
  = Ok (VStr (if erase then "EraseList" else "LineList")) ->
  get (settings d) jsonShape "position" = Ok p ->
  get (settings d) jsonShape "settings" = Ok s ->
  get (settings d) jsonShape "xList" = Ok (VArr xs) ->
  get (settings d) jsonShape "yList" = Ok (VArr ys) ->
  createShapeFromJson d jsonShape
  = push_new d (Ok (stroke erase p s xs (map (item ys) (seq 0 (length xs))))).
Proof.
  intros Htype Hp Hs Hx Hy.
  pose proof (replay_points_stroke (settings d) jsonShape p s erase xs ys Hx Hy) as H.
  unfold createShapeFromJson. rewrite Htype, Hp, Hs.
  destruct erase; cbn [is_string rbind stroke] in *.
  - change (String.eqb "EraseList" ?t) with false at 1 2 3 4 5. cbn iota.
    rewrite String.eqb_refl. cbn iota. unfold new_EraseList. cbn [rbind].
    by rewrite H.
  - change (String.eqb "LineList" ?t) with false at 1 2 3 4. cbn iota.
    rewrite String.eqb_refl. cbn iota. unfold new_LineList. cbn [rbind].
    by rewrite H.
Qed.

(** X17. Loading a stroke, of the pencil or of the eraser, replays the array
    [xList] of its record: the stroke has as many points as [xList] has
    elements.  Of [yList] it takes as many; the elements that [yList] has
    beyond are left out, and the ones it lacks are [undefined].  With
    arrays of one length the stroke holds both as they are. *)
Theorem loading_a_stroke_replays_xList (d : Drawer) (jsonShape p s : jsval)
    (erase : bool) (xs ys : list jsval) :
  get (settings d) jsonShape "type"
  = Ok (VStr (if erase then "EraseList" else "LineList")) ->
  get (settings d) jsonShape "position" = Ok p ->
  get (settings d) jsonShape "settings" = Ok s ->
  get (settings d) jsonShape "xList" = Ok (VArr xs) ->
  get (settings d) jsonShape "yList" = Ok (VArr ys) ->
  (length xs <= length ys ->
   createShapeFromJson d jsonShape
   = push_new d (Ok (stroke erase p s xs (take (length xs) ys)))) /\
  (length ys <= length xs ->
   createShapeFromJson d jsonShape
   = push_new d (Ok (stroke erase p s xs
                       (ys ++ replicate (length xs - length ys) VUndef)))) /\
  (length xs = length ys ->
   createShapeFromJson d jsonShape = push_new d (Ok (stroke erase p s xs ys))).
Proof.
  intros Htype Hp Hs Hx Hy.
  rewrite (createShapeFromJson_stroke d jsonShape p s erase xs ys) by done.
  split_and!; intros Hlen.
  - by rewrite map_item_take.
  - by rewrite map_item_pad.
  - rewrite map_item_take by lia. by rewrite Hlen, firstn_all.
Qed.

(** ** A loaded file replaces the drawing *)

Lemma lookup_appended {A} (l1 l2 : list A) :
  map (fun i => (l1 ++ l2) !! i) (seq (length l1) (length l2)) = map Some l2.
Proof.
  induction l2 as [|x l2 IH] using rev_ind; [done|].
  rewrite length_app, seq_app, !map_app. simpl.
  rewrite app_assoc, list_lookup_middle by (by rewrite length_app). f_equal.
  rewrite <- IH. apply map_ext_in. intros i [_ Hi]%in_seq.
  rewrite lookup_app_l by (rewrite length_app; lia). done.
Qed.

Lemma loaded_onto_committed (d0 d : Drawer) (news : list Shape) :
  loaded_onto d0 d news -> committed d = map Some news.
Proof.
  intros (Ho & Hs & _). unfold committed. rewrite Hs, Ho, map_map.
  apply lookup_appended.
Qed.

Lemma push_new_loaded_onto (d0 d : Drawer) (news : list Shape) (sh : Shape) :
  loaded_onto d0 d news -> loaded_onto d0 (fst (push_new d (Ok sh))) (news ++ [sh]).
Proof.
  intros (Ho & Hs & Hu & He). unfold loaded_onto. simpl.
  rewrite Ho, Hs, <- app_assoc, !length_app, seq_app, map_app. simpl.
  by rewrite Nat.add_comm.
Qed.

Lemma createShapeFromJson_loaded_onto (d0 d : Drawer) (jsonShape : jsval) :
  (exists news, loaded_onto d0 d news) ->
  exists news, loaded_onto d0 (fst (createShapeFromJson d jsonShape)) news.
Proof.
  intros [news Hd]. unfold createShapeFromJson.
  destruct (get (settings d) jsonShape "type") as [type|]; [|by exists news].
  case_ifs; try (by exists news);
    match goal with |- context [push_new d ?res] =>
      destruct res as [sh|]; [|by exists news]
    end; exists (news ++ [sh]); by apply push_new_loaded_onto.
Qed.

Lemma constructShapesFromFile_loaded_onto (d : Drawer) (tmpList : jsval) :
  exists news, loaded_onto d (fst (constructShapesFromFile d tmpList)) news.
Proof.
  unfold constructShapesFromFile.
  assert (exists news, loaded_onto d (reset d) news) as Hd.
  { exists []. unfold loaded_onto. simpl. by rewrite app_nil_r. }
  destruct (get _ tmpList "length") as [len|]; [|done].
  destruct (ToNumber len) as [n0|]; [|done].
  match goal with |- context [for_loop ?n ?j ?body ?d1] =>
    pose proof (for_loop_invariant (fun d' => exists news, loaded_onto d d' news) body)
      as Hinv;
    specialize (Hinv
      ltac:(intros i0 s0 Hs0; simpl;
            destruct (get_index _ tmpList i0) as [js|]; [|done];
            by apply createShapeFromJson_loaded_onto) n j d1 Hd);
    destruct (for_loop n j body d1) as [d2 []]
  end; simpl in *; [|done].
  destruct Hinv as (news & Ho & Hs & Hu & He). exists news. unfold loaded_onto.
  by rewrite redraw_objects, redraw_shapes, redraw_undoneShapes, redraw_selectedElement.
Qed.

Lemma createShapeFromJson_created (d0 d : Drawer) (jsonShape : jsval) :
  settings d = settings d0 ->
  objects (fst (createShapeFromJson d jsonShape)) = objects d ++ created d0 jsonShape /\
  snd (createShapeFromJson d jsonShape) = snd (createShapeFromJson d0 jsonShape) /\
  settings (fst (createShapeFromJson d jsonShape)) = settings d0.
Proof.
  intros Hs. unfold created, createShapeFromJson. rewrite Hs.
  destruct (get (settings d0) jsonShape "type") as [type|];
    [|cbn [fst snd]; by rewrite drop_all, app_nil_r].
  case_ifs;
    try (cbn [fst snd]; by rewrite drop_all, app_nil_r);
    match goal with |- context [push_new d ?res] =>
      destruct res as [sh|]; cbn [push_new fst snd push_shape with_shapes
                                  with_objects objects settings];
      [by rewrite drop_app_length|by rewrite drop_all, app_nil_r]
    end.
Qed.

Lemma load_records_created (d0 : Drawer) (l : list jsval) :
  forall d : Drawer,
    settings d = settings d0 ->
    objects (fst (load_records d l))
    = objects d ++ flat_map (created d0) (decoded d0 l).
Proof.
  induction l as [|r l IH]; intros d Hs; simpl; [by rewrite app_nil_r|].
  destruct (createShapeFromJson_created d0 d r Hs) as (Ho & Ht & Hs').
  destruct (createShapeFromJson d r) as [d' o]. cbn [fst snd] in *.
  rewrite <- Ht. destruct o; cbn [flat_map].
  - rewrite (IH d' Hs'), Ho. by rewrite <- app_assoc.
  - by rewrite app_nil_r.
Qed.

Lemma created_unknown_tag (d : Drawer) (jsonShape : jsval) :
  unknown_tag jsonShape = true -> created d jsonShape = [].
Proof.
  intros H. unfold created. rewrite createShapeFromJson_unknown_tag by done.
  apply drop_all.
Qed.

(** X18. After a file that holds the array [recs] was loaded, also when
    loading it throws, the committed entries refer, in the order of the
    records, to the shapes that [createShapeFromJson] made of the records
    up to the first one on which it throws, each once: a record that is
    skipped gives none, the record of a rectangle gives the rectangle of
    its properties.  No entry of the drawing before is left, committed or
    undone, nothing is in progress, and undo and redo bring back no entry
    of the drawing before.  The tool and the settings are as they were.
    The drawing before is replaced in the same way whatever value
    [tmpList] the file parses to. *)
Theorem a_loaded_file_replaces_the_drawing (d : Drawer) (recs : list jsval)
    (tmpList : jsval) (steps : list bool) :
  let d' := fst (constructShapesFromFile d (VArr recs)) in
  let news := flat_map (created (reset d)) (decoded (reset d) recs) in
  (objects d' = objects d ++ news /\
   shapes d' = map Some (seq (length (objects d)) (length news)) /\
   committed d' = map Some news /\
   undoneShapes d' = [] /\
   selectedElement d' = None /\
   controls d' = controls d /\
   history (rewind d' steps) = shapes d') /\
  (forall jsonShape : jsval,
     unknown_tag jsonShape = true -> created (reset d) jsonShape = []) /\
  (forall props : list (string * jsval),
     assoc "type" props = VStr "Rectangle" ->
     created (reset d) (VObj props)
     = [Rectangle (assoc "position" props) (assoc "settings" props)
                  (assoc "width" props) (assoc "height" props)]) /\
  (let d'' := fst (constructShapesFromFile d tmpList) in
   exists loaded : list Shape,
     objects d'' = objects d ++ loaded /\
     shapes d'' = map Some (seq (length (objects d)) (length loaded)) /\
     committed d'' = map Some loaded /\
     undoneShapes d'' = [] /\
     selectedElement d'' = None /\
     controls d'' = controls d /\
     history (rewind d'' steps) = shapes d'').
Proof.
  intros d' news.
  assert (forall t : jsval,
            exists loaded : list Shape,
              objects (fst (constructShapesFromFile d t)) = objects d ++ loaded /\
              shapes (fst (constructShapesFromFile d t))
              = map Some (seq (length (objects d)) (length loaded)) /\
              committed (fst (constructShapesFromFile d t)) = map Some loaded /\
              undoneShapes (fst (constructShapesFromFile d t)) = [] /\
              selectedElement (fst (constructShapesFromFile d t)) = None /\
              controls (fst (constructShapesFromFile d t)) = controls d /\
              history (rewind (fst (constructShapesFromFile d t)) steps)
              = shapes (fst (constructShapesFromFile d t))) as Hany.
  { intros t. destruct (constructShapesFromFile_loaded_onto d t) as [loaded Hd].
    pose proof (loaded_onto_committed _ _ _ Hd) as Hc.
    destruct Hd as (Ho & Hs & Hu & He). exists loaded.
    split_and!; try done; [apply constructShapesFromFile_controls|].
    destruct (undo_and_redo_conserve (fst (constructShapesFromFile d t)) steps)
      as (-> & _). unfold history. by rewrite Hu, app_nil_r. }
  split; [|split; [|split; [|apply Hany]]].
  - destruct (Hany (VArr recs)) as (loaded & Ho & Hrest).
    assert (loaded = news) as <-; [|done].
    apply (app_inv_head (objects d)). rewrite <- Ho. subst news.
    rewrite constructShapesFromFile_array.
    pose proof (load_records_created (reset d) recs (reset d) eq_refl) as Hl.
    destruct (load_records (reset d) recs) as [d2 []]; cbn [fst] in *;
      by rewrite ?redraw_objects, Hl.
  - intros jsonShape. apply created_unknown_tag.
  - intros props Ht. unfold created, createShapeFromJson. cbn [get]. rewrite Ht.
    cbn. by rewrite drop_app_length.
Qed.

(** ** What a file gives back *)
















(** ** Drawing by hand does not throw *)

Lemma get_readable (amb : Settings) (v : jsval) (k : string) :
  readable v = true -> exists v', get amb v k = Ok v'.
Proof. destruct v; simpl; intros; try done; eauto. Qed.

Lemma not_negative_half (q : Q) :
  (0 <= q)%Q -> not_negative (VNum (nhalf (Fin q))) = true.
Proof.
  intros Hq. cbn [nhalf not_negative]. apply Qle_bool_iff.
  apply nearest_double_nonneg. apply Qmult_le_0_compat; [|done].
  by apply nearest_double_nonneg.
Qed.

Lemma not_negative_half_abs (n : num) : not_negative (VNum (nhalf (nabs n))) = true.
Proof.
  destruct n as [q|]; [|done]. cbn [nabs]. apply not_negative_half.
  rewrite Qred_correct. apply Qabs_nonneg.
Qed.

Lemma not_negative_half_max (n m : num) :
  not_negative (VNum (nhalf (nmax (nabs n) (nabs m)))) = true.
Proof.
  destruct n as [q|], m as [q'|]; try done. cbn [nabs nmax nlift2].
  apply not_negative_half. rewrite Qred_correct.
  destruct (Qle_bool _ _); rewrite Qred_correct; apply Qabs_nonneg.
Qed.

Lemma ctx_ellipse_not_negative (x y xr yr : jsval) :
  unprintable x = false -> unprintable y = false ->
  not_negative xr = true -> not_negative yr = true -> ctx_ellipse x y xr yr <> Throw.
Proof.
  intros Hx Hy Hxr Hyr. unfold ctx_ellipse.
  rewrite (ToNumber_printable x Hx), (ToNumber_printable y Hy). cbn [rbind].
  destruct xr as [| | |[rx|]| | | |], yr as [| | |[ry|]| | | |]; try done;
    simpl in *; destruct (number_of x), (number_of y); try done.
  by rewrite Hxr, Hyr.
Qed.

Lemma get_field (amb : Settings) (v v' : jsval) (k : string) :
  get amb v k = Ok v' -> unprintable (field v k) = false -> unprintable v' = false.
Proof.
  destruct v; simpl; intros [= <-]; try done.
  - by destruct (String.eqb k "length").
  - by destruct (String.eqb k "length").
  - intros _. by case_ifs.
Qed.

Lemma drawable_elim (sh : Shape) :
  drawable sh = true ->
  readable (position_of sh) = true /\ readable (settings_of sh) = true /\
  (forall amb k v, In k ["color"; "width"; "font"] ->
     get amb (settings_of sh) k = Ok v -> unprintable v = false) /\
  (forall amb k v, In k ["x"; "y"] ->
     get amb (position_of sh) k = Ok v -> unprintable v = false) /\
  existsb unprintable (own_values sh) = false /\
  radii_not_negative sh = true.
Proof.
  unfold drawable.
  intros [[[Hp Hs]%andb_prop Hpass%negb_true_iff]%andb_prop Hr]%andb_prop.
  apply existsb_app_false in Hpass as [Hfields Hvals]. cbn [existsb] in Hfields.
  repeat (apply orb_false_elim in Hfields as [? Hfields]).
  split_and!; try done.
  - intros amb k v [<-|[<-|[<-|[]]]] Hv; by apply (get_field amb _ _ _ Hv).
  - intros amb k v [<-|[<-|[]]] Hv; by apply (get_field amb _ _ _ Hv).
Qed.

Lemma drawable_resized (sh sh' : Shape) :
  drawable sh = true ->
  position_of sh' = position_of sh -> settings_of sh' = settings_of sh ->
  existsb unprintable (own_values sh') = false ->
  radii_not_negative sh' = true ->
  drawable sh' = true.
Proof.
  unfold drawable.
  intros [[[Hp Hs]%andb_prop Hpass%negb_true_iff]%andb_prop Hr]%andb_prop.
  intros -> -> Hvals ->. rewrite Hp, Hs. cbn [andb]. rewrite andb_true_r.
  apply negb_true_iff. apply existsb_app_false in Hpass as [Hfields _].
  by rewrite existsb_app, Hfields, Hvals.
Qed.

Lemma Shape_render_drawable (amb : Settings) (sh : Shape) :
  drawable sh = true -> Forall (fun st => st <> Throw) (Shape_render amb sh).
Proof.
  intros (Hp & Hs & Hset & _)%drawable_elim.
  destruct (get_readable amb (settings_of sh) "color" Hs) as [c Hc].
  destruct (get_readable amb (settings_of sh) "width" Hs) as [w Hw].
  destruct (get_readable amb (settings_of sh) "font" Hs) as [f Hf].
  unfold Shape_render. rewrite Hc, Hw, Hf. cbn [rbind].
  rewrite (DOMString_printable c) by (apply (Hset amb "color"); simpl; tauto).
  rewrite (DOMString_printable f) by (apply (Hset amb "font"); simpl; tauto).
  rewrite (doubles_printable [w])
    by (simpl; rewrite (Hset amb "width" w); simpl; tauto).
  by repeat (apply Forall_cons; split; [done|]).
Qed.

Lemma ctx_moveTo_drawable (amb : Settings) (sh : Shape) :
  drawable sh = true -> exists px py,
    get amb (position_of sh) "x" = Ok px /\ get amb (position_of sh) "y" = Ok py /\
    unprintable px = false /\ unprintable py = false /\
    ctx_moveTo amb (position_of sh) = Ok [MoveTo px py].
Proof.
  intros (Hp & Hs & _ & Hpos & _)%drawable_elim.
  destruct (get_readable amb (position_of sh) "x" Hp) as [px Hpx].
  destruct (get_readable amb (position_of sh) "y" Hp) as [py Hpy].
  assert (unprintable px = false) as Hx by (apply (Hpos amb "x"); simpl; tauto).
  assert (unprintable py = false) as Hy by (apply (Hpos amb "y"); simpl; tauto).
  exists px, py. split_and!; try done.
  unfold ctx_moveTo. rewrite Hpx, Hpy. cbn [rbind].
  rewrite (doubles_printable [px; py]); [done|]. simpl. by rewrite Hx, Hy.
Qed.

Lemma render_drawable (amb : Settings) (sh : Shape) :
  drawable sh = true -> Forall (fun st => st <> Throw) (render amb sh).
Proof.
  intros Hd.
  pose proof (Shape_render_drawable amb sh Hd) as Hshape.
  destruct (ctx_moveTo_drawable amb sh Hd) as (px & py & Hpx & Hpy & Hx & Hy & Hmove).
  destruct (drawable_elim sh Hd) as (Hp & Hs & _ & _ & Hvals & Hr).
  destruct (get_readable amb (settings_of sh) "filled" Hs) as [fl Hfl].
  destruct sh as [p s w h|p s xr yr x y|p s xr yr x y|p s ex ey|p s xs ys|p s xs ys|p s cs];
    cbn [render Rectangle_render Oval_render Line_render LineList_render
           EraseList_render DrawnText_render position_of settings_of own_values
           radii_not_negative] in *.
  - apply Forall_cons. split; [done|]. apply Forall_app. split; [done|].
    apply Forall_singleton. rewrite Hfl, Hpx, Hpy. cbn [rbind].
    rewrite (doubles_printable [px; py; w; h]); [done|].
    cbn [existsb] in *. by rewrite Hx, Hy.
  - apply orb_false_elim in Hvals as [_ [_ [Hx' [Hy' _]%orb_false_elim
                                            ]%orb_false_elim]%orb_false_elim].
    apply andb_prop in Hr as [Hxr Hyr].
    apply Forall_cons. split; [done|]. apply Forall_app. split; [done|].
    repeat (apply Forall_cons; split; [try done|]); [|by rewrite Hfl|done].
    rewrite Hpx, Hpy. cbn [rbind].
    destruct (middle_printable px x Hx Hx') as [cx ->].
    destruct (middle_printable py y Hy Hy') as [cy ->]. cbn [rbind].
    by apply ctx_ellipse_not_negative.
  - apply orb_false_elim in Hvals as [_ [_ [Hx' [Hy' _]%orb_false_elim
                                            ]%orb_false_elim]%orb_false_elim].
    apply andb_prop in Hr as [Hxr Hyr].
    apply Forall_cons. split; [done|]. apply Forall_app. split; [done|].
    repeat (apply Forall_cons; split; [try done|]); [|by rewrite Hfl|done].
    rewrite Hpx, Hpy. cbn [rbind].
    destruct (middle_printable px x Hx Hx') as [cx ->].
    destruct (middle_printable py y Hy Hy') as [cy ->]. cbn [rbind].
    by apply ctx_ellipse_not_negative.
  - apply Forall_cons. split; [done|]. apply Forall_app. split; [done|].
    repeat (apply Forall_cons; split; [try done|]); [by rewrite Hmove| |done].
    by rewrite (doubles_printable [ex; ey]).
  - apply existsb_app_false in Hvals as [Hxs Hys].
    apply Forall_cons. split; [done|]. apply Forall_app. split; [done|].
    apply Forall_app. split;
      [repeat (apply Forall_cons; split; [try done|]); [by rewrite Hmove|done]|].
    apply Forall_app. split; [by apply smooth_loop_printable|].
    by repeat (apply Forall_cons; split; [done|]).
  - apply existsb_app_false in Hvals as [Hxs Hys].
    apply Forall_app. split; [done|].
    apply Forall_app. split;
      [repeat (apply Forall_cons; split; [try done|]); [by rewrite Hmove|done]|].
    apply Forall_app. split; [by apply smooth_loop_printable|].
    by repeat (apply Forall_cons; split; [done|]).
  - apply Forall_cons. split; [done|]. apply Forall_app. split; [done|].
    apply Forall_singleton. rewrite Hfl. cbn [rbind]. unfold join. rewrite Hvals.
    cbn [rbind]. rewrite Hpx, Hpy. cbn [rbind].
    rewrite (doubles_printable [px; py]); [by destruct (truthy fl)|].
    simpl. by rewrite Hx, Hy.
Qed.

Lemma redraw_drawable (d : Drawer) :
  Forall (fun sh => drawable sh = true) (objects d) -> snd (redraw d) = Normal.
Proof.
  intros Hd.
  assert (forall r, Forall (fun st => st <> Throw) (render_ref d r)) as Href.
  { intros r. unfold render_ref. destruct (objects d !! r) as [sh|] eqn:Hsh.
    - apply render_drawable. by eapply (Forall_lookup_1 _ _ _ _ Hd).
    - apply Forall_nil. done. }
  assert (snd (run (drawAllStoredShapes d ++ drawSelected d)) = Normal) as H.
  { apply run_all_ok, Forall_app. split.
    - unfold drawAllStoredShapes.
      induction (shapes d) as [|[r|] l IH]; simpl; [by apply Forall_nil| |done].
      apply Forall_app. by split.
    - unfold drawSelected. destruct (selectedElement d); [done|by apply Forall_nil]. }
  unfold redraw. by destruct (run _).
Qed.

Lemma existsb_snoc_false {A} (f : A -> bool) (l : list A) (a : A) :
  existsb f l = false -> f a = false -> existsb f (l ++ [a]) = false.
Proof. intros Hl Ha. rewrite existsb_app, Hl. simpl. by rewrite Ha. Qed.

Lemma existsb_removelast {A} (f : A -> bool) (l : list A) :
  existsb f l = false -> existsb f (removelast l) = false.
Proof.
  induction l as [|a l _] using rev_ind; [done|].
  rewrite removelast_last, existsb_app. by intros [? _]%orb_false_elim.
Qed.

Lemma resize_drawable (amb : Settings) (sh : Shape) (a b : jsval) :
  unprintable a = false -> unprintable b = false ->
  drawable sh = true ->
  drawable (fst (resize amb sh a b)) = true /\
  (readable a = true -> snd (resize amb sh a b) = Normal).
Proof.
  intros Ha Hb Hd.
  destruct (ctx_moveTo_drawable amb sh Hd) as (px & py & Hpx & Hpy & Hx & Hy & _).
  destruct (drawable_elim sh Hd) as (Hp & Hs & _ & _ & Hvals & Hr).
  destruct sh as [p s w h|p s xr yr x y|p s xr yr x y|p s ex ey|p s xs ys|p s xs ys|p s cs];
    cbn [resize Rectangle_resize Oval_resize Circle_resize Line_resize
           LineList_resize EraseList_resize position_of settings_of own_values
           radii_not_negative] in *.
  - rewrite Hpx, Hpy. cbn [rbind]. rewrite !js_sub_printable by done.
    split; [|done]. by apply (drawable_resized _ _ Hd).
  - rewrite (half_distance_printable amb a p px "x"),
      (half_distance_printable amb b p py "y") by done.
    split; [|done]. apply (drawable_resized _ _ Hd); try done.
    + cbn [fst own_values existsb unprintable]. by rewrite Ha, Hb.
    + cbn [fst radii_not_negative]. by rewrite !not_negative_half_abs.
  - rewrite (distance_printable amb a p px "x"),
      (distance_printable amb b p py "y") by done.
    cbn [rbind]. unfold Math_max, js_half, ToNumber.
    cbn [unprintable rbind number_of].
    split; [|done]. apply (drawable_resized _ _ Hd); try done.
    + cbn [fst own_values existsb unprintable]. by rewrite Ha, Hb.
    + cbn [fst radii_not_negative]. by rewrite !not_negative_half_max.
  - split; [|done]. apply (drawable_resized _ _ Hd); try done.
    cbn [fst own_values existsb]. by rewrite Ha, Hb.
  - split; [|done]. apply (drawable_resized _ _ Hd); try done.
    cbn [fst own_values]. apply existsb_app_false in Hvals as [Hxs Hys].
    by rewrite existsb_app, !existsb_snoc_false.
  - split; [|done]. apply (drawable_resized _ _ Hd); try done.
    cbn [fst own_values]. apply existsb_app_false in Hvals as [Hxs Hys].
    by rewrite existsb_app, !existsb_snoc_false.
  - cbn [resize DrawnText_resize]. destruct (is_string a "Backspace").
    + destruct (0 <? length cs); [|done]. split; [|done].
      apply (drawable_resized _ _ Hd); try done. cbn [fst own_values].
      by apply existsb_removelast.
    + split.
      * destruct (get amb a "length") as [len|]; [|done].
        destruct (is_one len); [|done].
        apply (drawable_resized _ _ Hd); try done. cbn [fst own_values].
        by apply existsb_snoc_false.
      * intros Hra. destruct (get_readable amb a "length" Hra) as [len ->].
        by destruct (is_one len).
Qed.

Lemma mousedown_drawable (d : Drawer) (x y : Q) :
  Forall (fun sh => drawable sh = true) (objects d) ->
  Forall (fun sh => drawable sh = true) (objects (fst (mousedown d x y))) /\
  snd (mousedown d x y) = Normal.
Proof.
  intros Hd. unfold mousedown.
  case_ifs; simpl; try done;
    try (split; [|done]; apply Forall_app; split; [done|]; by apply Forall_singleton).
  destruct (selectedElement d); simpl;
    (split; [|done]; apply Forall_app; split; [done|]; by apply Forall_singleton).
Qed.

Lemma resize_then_redraw_drawable (d : Drawer) (r : ref) (a b : jsval) :
  unprintable a = false -> unprintable b = false ->
  Forall (fun sh => drawable sh = true) (objects d) ->
  readable a = true ->
  snd (match resize_ref d r a b with
       | (d', Normal) => redraw d'
       | (d', Thrown) => (d', Thrown)
       end) = Normal.
Proof.
  intros Hpa Hpb Hd Ha.
  pose proof (resize_then_redraw_Forall (fun sh => drawable sh = true) d r a b
                (fun sh Hsh => proj1 (resize_drawable (settings d) sh a b Hpa Hpb Hsh))
                Hd)
    as Hd'.
  revert Hd'. unfold resize_ref. destruct (objects d !! r) as [sh|] eqn:Hsh.
  - pose proof (Forall_lookup_1 _ _ _ _ Hd Hsh) as Hdraw. simpl in Hdraw.
    destruct (resize_drawable (settings d) sh a b Hpa Hpb Hdraw) as [_ Hn].
    specialize (Hn Ha). destruct (resize (settings d) sh a b) as [sh' o].
    simpl in Hn. subst o. simpl. intros Hd'. apply redraw_drawable.
    by rewrite redraw_objects in Hd'.
  - intros _. by apply redraw_drawable.
Qed.

Lemma undo_drawable (d : Drawer) :
  Forall (fun sh => drawable sh = true) (objects d) -> snd (undo d) = Normal.
Proof.
  intros Hd. unfold undo. destruct (0 <? length (shapes d)); [|done].
  destruct (last (shapes d)); [|done]. by apply redraw_drawable.
Qed.

Lemma redo_drawable (d : Drawer) :
  Forall (fun sh => drawable sh = true) (objects d) -> snd (redo d) = Normal.
Proof.
  intros Hd. unfold redo. destruct (0 <? length (undoneShapes d)); [|done].
  destruct (last (undoneShapes d)); [|done]. by apply redraw_drawable.
Qed.

Lemma step_drawable (d : Drawer) (ev : event) :
  loads_file ev = false ->
  Forall (fun sh => drawable sh = true) (objects d) ->
  Forall (fun sh => drawable sh = true) (objects (fst (step d ev))) /\
  (throws_by_hand ev = false -> snd (step d ev) = Normal).
Proof.
  intros Hev Hd. split.
  { apply step_Forall_objects; try done.
    - intros amb sh a b Ha Hb Hsh. by apply resize_drawable.
    - intros x y. by apply mousedown_drawable. }
  intros Hquiet. destruct ev; simpl in *; try done.
  - by apply mousedown_drawable.
  - unfold mousemove. destruct (selectedElement d); [|done].
    destruct (negb _); [|done]. by apply resize_then_redraw_drawable.
  - unfold mouseup. destruct (selectedElement d); [|done]. by destruct (negb _).
  - unfold keypress.
    destruct (String.eqb (selectedShape d) "text" && not_null (selectedElement d))
      eqn:Htext.
    + apply andb_prop in Htext as [_ Hsel]. unfold textKeyPress.
      destruct (String.eqb key "Enter"); [done|].
      destruct (selectedElement d); [|done]. by apply resize_then_redraw_drawable.
    + destruct (is_Z_key key && ctrlKey); [|done].
      destruct shiftKey; auto using undo_drawable, redo_drawable.
  - unfold keydown. destruct (selectedElement d); [|done].
    destruct (String.eqb _ "text"); [|done].
    destruct (String.eqb key "Backspace"); [|done].
    by apply resize_then_redraw_drawable.
  - by apply undo_drawable.
  - by apply redo_drawable.
  - unfold fill_click. by destruct (negb _).
Qed.

(** X20. In a drawing made without loading a file, every shape object renders
    and resizes without an exception: its position and its settings are
    objects, the values it passes to the canvas convert to numbers and to
    strings, and the radii of an oval or a circle are halves of absolute
    values.  So a redraw returns normally, and so does the handler of
    every event that is not a click on the shape list or a save: presses,
    moves and releases of the pointer, keys, undo, redo, the fill toggle,
    the colour picker, the size dialog and the bin. *)
Theorem drawing_by_hand_does_not_throw (evs : list event) (ev : event) :
  Forall (fun ev => loads_file ev = false) evs ->
  loads_file ev = false ->
  throws_by_hand ev = false ->
  snd (step (run_events drawer0 evs) ev) = Normal /\
  snd (redraw (run_events drawer0 evs)) = Normal /\
  Forall (fun sh => drawable sh = true) (objects (run_events drawer0 evs)).
Proof.
  intros Hevs Hev Hquiet.
  assert (Forall (fun sh => drawable sh = true) (objects (run_events drawer0 evs)))
    as Hd.
  { apply (run_events_invariant
             (fun d => Forall (fun sh => drawable sh = true) (objects d))
             (fun ev => loads_file ev = false)); [|by apply Forall_nil|done].
    intros d ev' Hd Hev'. by apply step_drawable. }
  split_and!; [|by apply redraw_drawable|done].
  by apply step_drawable.
Qed.

(** ** The text tool and saving *)

Lemma shape_click_selectedShape (d : Drawer) (elem : shape_item) :
  selectedShape (fst (shape_click d elem)) = dataset_shape elem.
Proof.
  unfold shape_click.
  destruct (String.eqb (dataset_shape elem) "text"), (negb (fill_toggle d));
    cbn -[String.eqb];
    destruct (String.eqb_spec (dataset_shape elem) (selectedShape d));
    cbn -[String.eqb]; case_ifs; done.
Qed.

(** X21. In a state of the page with nothing in progress, a click on the text
    tool commits [null], and saving throws from then on until the entry is
    taken away: an undo takes it away and leaves the committed entries
    that were there before.  The text tool cannot be chosen in another
    way. *)
Theorem choosing_the_text_tool_breaks_saving (d : Drawer) :
  reachable d ->
  selectedElement d = None ->
  let d' := fst (shape_click d li_text) in
  In None (shapes d') /\
  createJsonBlob d' = Throw /\
  snd (step d' SaveClick) = Thrown /\
  shapes (fst (undo d')) = shapes d /\
  selectedShape d' = "text".
Proof.
  intros Hd Hsel d'.
  assert (reachable d') as Hd' by (by apply (reachable_step d (ShapeClick li_text))).
  pose proof (shape_click_shapes d li_text) as Hs. simpl in Hs. rewrite Hsel in Hs.
  fold d' in Hs.
  assert (In None (shapes d')) as Hin by (rewrite Hs; apply in_or_app; right; by left).
  assert (createJsonBlob d' = Throw) as Hthrow
    by (by apply createJsonBlob_Throw; [apply reachable_no_dangling|]).
  split_and!; try done.
  - simpl. by rewrite Hthrow.
  - by destruct (undo_snoc d' (shapes d) None Hs).
  - apply shape_click_selectedShape.
Qed.

(** ** The records of a file *)

Lemma assoc_set_prop (k : string) (v : jsval) (ps : list (string * jsval)) :
  assoc k (set_prop k v ps) = v.
Proof.
  induction ps as [|[k' e] ps IH]; simpl; [by rewrite String.eqb_refl|].
  destruct (String.eqb k k') eqn:Hk; simpl; by rewrite ?String.eqb_refl, ?Hk.
Qed.

Lemma assoc_jsonify (amb : Settings) (k : string) (ps : list (string * jsval)) :
  assoc k ps <> VUndef ->
  exists ps', jsonify amb (VObj ps) = VObj ps' /\
    assoc k ps' = jsonify amb (assoc k ps).
Proof.
  induction ps as [|[k' e] ps IH]; intros Hk; [done|]. simpl in Hk.
  destruct (String.eqb k k') eqn:Hkk.
  - destruct e; try done; simpl; eexists; (split; [reflexivity|]); simpl;
      by rewrite Hkk.
  - destruct (IH Hk) as (ps' & Hps' & Hassoc). simpl in Hps'.
    injection Hps' as Hps'.
    destruct e; simpl; eexists; (split; [reflexivity|]); simpl;
      rewrite ?Hkk, Hps'; done.
Qed.

Lemma json_of_entry_type (d : Drawer) (e : option ref) (tmp : jsval) :
  json_of_entry d e = Ok tmp ->
  exists r sh, e = Some r /\ objects d !! r = Some sh /\
    get (settings d) (jsonify (settings d) tmp) "type"
    = Ok (VStr (constructor_name sh)) /\
    unknown_tag (jsonify (settings d) tmp) = false /\
    jsonify (settings d) tmp <> VUndef.
Proof.
  unfold json_of_entry. destruct e as [r|]; [|done].
  destruct (objects d !! r) as [sh|] eqn:Hsh; [|done].
  assert (exists ps, jsonify (settings d) (VObj (own_props sh)) = VObj ps)
    as [ps ->] by (simpl; eauto).
  intros [= <-]. exists r, sh. split; [done|]. split; [done|].
  destruct (assoc_jsonify (settings d) "type"
              (set_prop "type" (VStr (constructor_name sh)) ps))
    as (ps' & Hps' & Hassoc); [by rewrite assoc_set_prop|].
  rewrite assoc_set_prop in Hassoc. rewrite Hps'. simpl in *. rewrite Hassoc.
  split_and!; try done. by destruct sh.
Qed.

(** X22. A file that saving returns holds one record for each committed entry,
    in the order of the entries, and the record of an entry holds the name
    of the class of its shape as [type]: loading recognises every record
    that saving wrote and skips none. *)
Theorem saving_writes_a_record_for_every_entry (d : Drawer) (file : jsval) :
  createJsonBlob d = Ok file ->
  exists recs : list jsval,
    file = VArr recs /\
    length recs = length (shapes d) /\
    Forall2 (fun e rec =>
               exists r sh, e = Some r /\ objects d !! r = Some sh /\
                 get (settings d) rec "type" = Ok (VStr (constructor_name sh)) /\
                 unknown_tag rec = false)
            (shapes d) recs.
Proof.
  unfold createJsonBlob.
  destruct (json_of_entries d (shapes d)) as [lst|] eqn:Hlst; [|done].
  intros [= <-]. simpl. eexists. split; [reflexivity|].
  revert lst Hlst. induction (shapes d) as [|e l IH]; intros lst Hlst.
  - injection Hlst as <-. split; [done|]. constructor.
  - cbn [json_of_entries] in Hlst.
    destruct (json_of_entry d e) as [tmp|] eqn:He; [|done]. cbn [rbind] in Hlst.
    destruct (json_of_entries d l) as [lst'|]; [|done]. injection Hlst as <-.
    destruct (IH lst' eq_refl) as [Hlen Hall].
    destruct (json_of_entry_type d e tmp He) as (r & sh & -> & Hsh & Htype & Hknown & Hu).
    assert (match tmp with
            | VUndef => VNull
            | _ => jsonify (settings d) tmp
            end = jsonify (settings d) tmp) as Htmp by (by destruct tmp).
    simpl. rewrite Htmp. split; [by rewrite Hlen|].
    constructor; [|done]. by exists r, sh.
Qed.

(** ** The size dialog *)

Lemma closed_under (f : string -> string) (l : list string) :
  forallb (fun s => existsb (String.eqb (f s)) l) l = true ->
  forall s, In s l -> In (f s) l.
Proof.
  intros H s Hs. rewrite forallb_forall in H. specialize (H s Hs).
  apply existsb_exists in H as (s' & Hs' & ->%String.eqb_eq). done.
Qed.

Lemma append_assoc (s1 s2 s3 : string) : (s1 +:+ s2) +:+ s3 = s1 +:+ (s2 +:+ s3).
Proof.
  induction s1 as [|c s1 IH]; [done|].
  change (String c ((s1 +:+ s2) +:+ s3) = String c (s1 +:+ s2 +:+ s3)). by f_equal.
Qed.

Lemma in_decimals (lo hi : nat) (s : string) :
  In s (decimals lo hi) -> exists n, lo <= n <= hi /\ s = index_key n.
Proof.
  unfold decimals. intros (n & <- & Hn%in_seq)%in_map_iff. exists n. split; [lia|done].
Qed.

Lemma in_points (lo hi : nat) (s : string) :
  In s (points lo hi) -> exists n, lo <= n <= hi /\ s = index_key n +:+ "pt".
Proof.
  unfold points. intros (s' & <- & (n & Hn & ->)%in_decimals)%in_map_iff. eauto.
Qed.

Lemma in_fonts (lo hi : nat) (s : string) :
  In s (fonts lo hi) ->
  exists n, lo <= n <= hi /\ s = index_key n +:+ "pt sans-serif".
Proof.
  unfold fonts. intros (s' & <- & (n & Hn & ->)%in_points)%in_map_iff.
  exists n. split; [done|]. by rewrite append_assoc.
Qed.

Lemma same_number_eq (a b : num) : same_number a b = true -> a = b.
Proof.
  destruct a as [[x1 x2]|], b as [[y1 y2]|]; simpl; try done.
  intros [->%Z.eqb_eq ->%Pos.eqb_eq]%andb_prop. done.
Qed.

Lemma parseInt_decimals (s : string) :
  In s (decimals 1 70) -> exists n, 1 <= n <= 70 /\ s = index_key n /\
                                    parseInt s = of_nat n.
Proof.
  intros Hs. destruct (in_decimals 1 70 s Hs) as (n & Hn & ->). exists n.
  split; [done|]. split; [done|]. apply same_number_eq.
  assert (forallb (fun n => same_number (parseInt (index_key n)) (of_nat n)) (seq 1 70)
          = true) as H by (by vm_compute).
  rewrite forallb_forall in H. apply H, in_seq. lia.
Qed.

Lemma dialog_step_range (g : SizeDialog) (c : dialog_click) :
  In (width_cell g) (decimals 1 70) /\ In (font_cell g) (points 6 70) /\
  In (width_data g) (decimals 1 70) /\ In (font_data g) (points 6 70) ->
  In (width_cell (dialog_step g c)) (decimals 1 70) /\
  In (font_cell (dialog_step g c)) (points 6 70) /\
  In (width_data (dialog_step g c)) (decimals 1 70) /\
  In (font_data (dialog_step g c)) (points 6 70).
Proof.
  intros (Hw & Hf & Hwd & Hfd).
  destruct c;
    unfold dialog_step, width_decrease, width_increase, font_decrease, font_increase,
      size_abort, size_keep, with_width_cell, with_font_cell;
    cbn [width_cell font_cell width_data font_data]; split_and!; try assumption.
  - apply (closed_under
             (fun s => integer_to_digits (nmax (of_Z 1) (nsub (parseInt s) (of_Z 4)))));
      [by vm_compute|assumption].
  - apply (closed_under
             (fun s => integer_to_digits (nmin (of_Z 70) (nadd (parseInt s) (of_Z 4)))));
      [by vm_compute|assumption].
  - apply (closed_under
             (fun s => integer_to_digits
                         (nmax (of_Z 6) (nsub (parseInt (slice_off_unit s)) (of_Z 4)))
                       +:+ "pt"));
      [by vm_compute|assumption].
  - apply (closed_under
             (fun s => integer_to_digits
                         (nmin (of_Z 70) (nadd (parseInt (slice_off_unit s)) (of_Z 4)))
                       +:+ "pt"));
      [by vm_compute|assumption].
Qed.

Lemma run_dialog_range (clicks : list dialog_click) :
  forall g,
    In (width_cell g) (decimals 1 70) /\ In (font_cell g) (points 6 70) /\
    In (width_data g) (decimals 1 70) /\ In (font_data g) (points 6 70) ->
    In (width_cell (run_dialog g clicks)) (decimals 1 70) /\
    In (font_cell (run_dialog g clicks)) (points 6 70) /\
    In (width_data (run_dialog g clicks)) (decimals 1 70) /\
    In (font_data (run_dialog g clicks)) (points 6 70).
Proof.
  induction clicks as [|c clicks IH]; intros g Hg; [exact Hg|].
  apply IH. apply dialog_step_range. exact Hg.
Qed.

Lemma in_bool (s : string) (l : list string) :
  existsb (String.eqb s) l = true -> In s l.
Proof. intros (s' & Hs' & ->%String.eqb_eq)%existsb_exists. done. Qed.

Lemma all_bool (P : string -> bool) (l : list string) (s : string) :
  forallb P l = true -> In s l -> P s = true.
Proof. intros H Hs. rewrite forallb_forall in H. by apply H. Qed.

Lemma repeat_width_click (c : dialog_click) (f : string -> string) (n : nat) :
  (forall g, width_cell (dialog_step g c) = f (width_cell g)) ->
  forall g, width_cell (run_dialog g (repeat c n)) = Nat.iter n f (width_cell g).
Proof.
  intros Hc. induction n as [|n IH]; intros g; [done|].
  cbn [repeat run_dialog fold_left]. fold (run_dialog (dialog_step g c) (repeat c n)).
  rewrite IH, Hc. clear. induction n as [|n IH]; [done|]. simpl. by rewrite IH.
Qed.

Lemma repeat_font_click (c : dialog_click) (f : string -> string) (n : nat) :
  (forall g, font_cell (dialog_step g c) = f (font_cell g)) ->
  forall g, font_cell (run_dialog g (repeat c n)) = Nat.iter n f (font_cell g).
Proof.
  intros Hc. induction n as [|n IH]; intros g; [done|].
  cbn [repeat run_dialog fold_left]. fold (run_dialog (dialog_step g c) (repeat c n)).
  rewrite IH, Hc. clear. induction n as [|n IH]; [done|]. simpl. by rewrite IH.
Qed.

(** X23. After any clicks in the dialog, from the dialog as the page is
    written, the cell of the line width shows an integer from 1 to 70 and
    the cell of the font size an integer from 6 to 70 followed by "pt", and
    so do the values kept for an abort.  What a confirmation reads from the
    cell of the line width is that integer, never [NaN].  The bounds are
    reached: 18 clicks on the minus or the plus of the line width give 1
    or 70, 16 clicks on the ones of the font size give 6pt or 70pt. *)
Theorem the_size_dialog_stays_in_range (clicks : list dialog_click) :
  let g := run_dialog dialog0 clicks in
  exists w f w' f' : nat,
    1 <= w <= 70 /\ 6 <= f <= 70 /\ 1 <= w' <= 70 /\ 6 <= f' <= 70 /\
    width_cell g = index_key w /\
    font_cell g = index_key f +:+ "pt" /\
    width_data g = index_key w' /\
    font_data g = index_key f' +:+ "pt" /\
    parseInt (width_cell g) = of_nat w /\
    width_cell (run_dialog g (repeat WidthDecrease 18)) = "1" /\
    width_cell (run_dialog g (repeat WidthIncrease 18)) = "70" /\
    font_cell (run_dialog g (repeat FontDecrease 16)) = "6pt" /\
    font_cell (run_dialog g (repeat FontIncrease 16)) = "70pt".
Proof.
  intros g.
  destruct (run_dialog_range clicks dialog0) as (Hw & Hf & Hwd & Hfd).
  { split_and!; apply in_bool; by vm_compute. }
  fold g in Hw, Hf, Hwd, Hfd.
  destruct (parseInt_decimals _ Hw) as (w & Hw1 & Hw2 & Hw3).
  destruct (in_points _ _ _ Hf) as (f & Hf1 & Hf2).
  destruct (in_decimals _ _ _ Hwd) as (w' & Hw'1 & Hw'2).
  destruct (in_points _ _ _ Hfd) as (f' & Hf'1 & Hf'2).
  exists w, f, w', f'.
  split; [exact Hw1|]. split; [exact Hf1|]. split; [exact Hw'1|]. split; [exact Hf'1|].
  split; [exact Hw2|]. split; [exact Hf2|]. split; [exact Hw'2|]. split; [exact Hf'2|].
  split; [exact Hw3|]. split_and!.
  - rewrite (repeat_width_click WidthDecrease
               (fun s => integer_to_digits (nmax (of_Z 1) (nsub (parseInt s) (of_Z 4)))))
      by reflexivity.
    apply String.eqb_eq.
    apply (all_bool (fun s => String.eqb (Nat.iter 18 _ s) "1") (decimals 1 70));
      [by vm_compute|exact Hw].
  - rewrite (repeat_width_click WidthIncrease
               (fun s => integer_to_digits (nmin (of_Z 70) (nadd (parseInt s) (of_Z 4)))))
      by reflexivity.
    apply String.eqb_eq.
    apply (all_bool (fun s => String.eqb (Nat.iter 18 _ s) "70") (decimals 1 70));
      [by vm_compute|exact Hw].
  - rewrite (repeat_font_click FontDecrease
               (fun s => integer_to_digits
                           (nmax (of_Z 6) (nsub (parseInt (slice_off_unit s)) (of_Z 4)))
                         +:+ "pt"))
      by reflexivity.
    apply String.eqb_eq.
    apply (all_bool (fun s => String.eqb (Nat.iter 16 _ s) "6pt") (points 6 70));
      [by vm_compute|exact Hf].
  - rewrite (repeat_font_click FontIncrease
               (fun s => integer_to_digits
                           (nmin (of_Z 70) (nadd (parseInt (slice_off_unit s)) (of_Z 4)))
                         +:+ "pt"))
      by reflexivity.
    apply String.eqb_eq.
    apply (all_bool (fun s => String.eqb (Nat.iter 16 _ s) "70pt") (points 6 70));
      [by vm_compute|exact Hf].
Qed.

(** ** The sizes of the drawer *)

Lemma step_sizes (d : Drawer) (ev : event) :
  (forall w f, ev <> SizeConfirm w f) ->
  width (settings (fst (step d ev))) = width (settings d) /\
  font (settings (fst (step d ev))) = font (settings d).
Proof.
  intros Hev.
  assert (forall ev', ~ assigns_settings ev' ->
            width (settings (fst (step d ev'))) = width (settings d) /\
            font (settings (fst (step d ev'))) = font (settings d)) as Hframe.
  { intros ev' Hev'. pose proof (step_controls d ev' Hev') as Hc.
    unfold controls in Hc. by injection Hc as _ -> _ _. }
  destruct ev; try (apply Hframe; simpl; tauto).
  - simpl. unfold shape_click.
    destruct (String.eqb (dataset_shape elem) "text"), (negb (fill_toggle d));
      cbn -[String.eqb]; by case_ifs.
  - simpl. unfold fill_click. by destruct (negb _).
  - done.
  - by destruct (Hev widthValue fontValue).
Qed.

Lemma size_confirm_click_sizes (d : Drawer) (g : SizeDialog) :
  In (width_cell g) (decimals 1 70) -> In (font_cell g) (points 6 70) ->
  In (font (settings d)) (fonts 6 70) ->
  (exists w, 1 <= w <= 70 /\
             width (settings (fst (size_confirm_click d g))) = of_nat w) /\
  In (font (settings (fst (size_confirm_click d g)))) (fonts 6 70).
Proof.
  intros Hw Hf Hd. unfold size_confirm_click, size_confirm. cbn [fst settings with_settings].
  cbn [width font set_font set_width]. split.
  - destruct (parseInt_decimals _ Hw) as (w & Hw1 & _ & ->). eauto.
  - assert (string_of (default VUndef (VStr <$> split_space (font (settings d)) !! 1))
            = "sans-serif") as ->.
    { apply String.eqb_eq.
      apply (all_bool
               (fun s => String.eqb
                           (string_of (default VUndef (VStr <$> split_space s !! 1)))
                           "sans-serif") (fonts 6 70)); [by vm_compute|exact Hd]. }
    unfold fonts. apply in_map_iff. exists (font_cell g). split; [done|exact Hf].
Qed.

Lemma page_step_sizes (pg : Drawer * SizeDialog) (e : event + dialog_click) :
  of_the_page e ->
  ((exists w, 1 <= w <= 70 /\ width (settings (fst pg)) = of_nat w) /\
   In (font (settings (fst pg))) (fonts 6 70)) /\
  (In (width_cell (snd pg)) (decimals 1 70) /\ In (font_cell (snd pg)) (points 6 70) /\
   In (width_data (snd pg)) (decimals 1 70) /\ In (font_data (snd pg)) (points 6 70)) ->
  ((exists w, 1 <= w <= 70 /\ width (settings (fst (page_step pg e))) = of_nat w) /\
   In (font (settings (fst (page_step pg e)))) (fonts 6 70)) /\
  (In (width_cell (snd (page_step pg e))) (decimals 1 70) /\
   In (font_cell (snd (page_step pg e))) (points 6 70) /\
   In (width_data (snd (page_step pg e))) (decimals 1 70) /\
   In (font_data (snd (page_step pg e))) (points 6 70)).
Proof.
  destruct pg as [d g]. intros He [[Hw Hf] Hg]. destruct e as [ev|c].
  - cbn [page_step fst snd]. split; [|exact Hg].
    destruct (step_sizes d ev) as [-> ->]; [|done].
    intros w f ->. exact He.
  - pose proof (dialog_step_range g c Hg) as Hg'.
    destruct c; cbn [page_step fst snd]; try (split; [by split|exact Hg']).
    split; [|exact Hg']. apply size_confirm_click_sizes; tauto.
Qed.

(** X24. In the page, where the sizes of the drawer are confirmed in the
    dialog, the line width of the drawer is always an integer from 1 to 70
    and its font is always of a size from 6 to 70 points and of the one
    family "sans-serif": after any events of the drawer and clicks in the
    dialog.  The dialog does not show the sizes of the drawer at the
    start: confirming it untouched sets the line width, which was 10, to 1
    and the font size, which was 36pt, to 12pt. *)
Theorem the_sizes_of_the_drawer_come_from_the_dialog
    (es : list (event + dialog_click)) :
  Forall of_the_page es ->
  (exists w f : nat,
     1 <= w <= 70 /\ 6 <= f <= 70 /\
     width (settings (fst (run_page (drawer0, dialog0) es))) = of_nat w /\
     font (settings (fst (run_page (drawer0, dialog0) es)))
     = index_key f +:+ "pt sans-serif") /\
  width (settings drawer0) = of_nat 10 /\
  font (settings drawer0) = "36pt sans-serif" /\
  width (settings (fst (run_page (drawer0, dialog0) [inr SizeKeep]))) = of_nat 1 /\
  font (settings (fst (run_page (drawer0, dialog0) [inr SizeKeep]))) = "12pt sans-serif".
Proof.
  intros Hes. split; [|by split_and!].
  assert (forall pg,
            ((exists w, 1 <= w <= 70 /\ width (settings (fst pg)) = of_nat w) /\
             In (font (settings (fst pg))) (fonts 6 70)) /\
            (In (width_cell (snd pg)) (decimals 1 70) /\
             In (font_cell (snd pg)) (points 6 70) /\
             In (width_data (snd pg)) (decimals 1 70) /\
             In (font_data (snd pg)) (points 6 70)) ->
            (exists w, 1 <= w <= 70 /\
                       width (settings (fst (run_page pg es))) = of_nat w) /\
            In (font (settings (fst (run_page pg es)))) (fonts 6 70)) as H.
  { induction Hes as [|e es He Hes IH]; intros pg Hpg; [tauto|].
    apply IH. by apply page_step_sizes. }
  destruct (H (drawer0, dialog0)) as [(w & Hw & Hw') (f & Hf & Hf')%in_fonts].
  { split; [split|split_and!]; try (apply in_bool; by vm_compute).
    exists 10. split; [lia|done]. }
  exists w, f. split; [exact Hw|]. split; [exact Hf|]. by split.
Qed.

Lemma adjusts_data (g : SizeDialog) (clicks : list dialog_click) :
  Forall (fun c => adjusts c = true) clicks ->
  width_data (run_dialog g clicks) = width_data g /\
  font_data (run_dialog g clicks) = font_data g.
Proof.
  intros H. revert g. induction H as [|c clicks Hc Hclicks IH]; intros g; [done|].
  cbn [run_dialog fold_left]. fold (run_dialog (dialog_step g c) clicks).
  destruct (IH (dialog_step g c)) as [-> ->]. by destruct c.
Qed.

(** X25. An abort gives back what was confirmed last, whatever was clicked on
    the minus and plus signs since: the cells show the values kept at the
    confirmation, and those stay kept.  Before any confirmation it gives
    back the dialog as the page is written. *)
Theorem an_abort_gives_back_what_was_confirmed (g : SizeDialog)
    (clicks : list dialog_click) :
  Forall (fun c => adjusts c = true) clicks ->
  size_abort (run_dialog (size_keep g) clicks) = size_keep g /\
  size_abort (run_dialog dialog0 clicks) = dialog0 /\
  size_abort (run_dialog g clicks) = size_abort g.
Proof.
  intros H.
  assert (forall g', size_abort (run_dialog g' clicks) = size_abort g') as Habort.
  { intros g'. destruct (adjusts_data g' clicks H) as [Hw Hf].
    unfold size_abort. by rewrite Hw, Hf. }
  by rewrite !Habort.
Qed.

(** ** A drawing made by hand and its file *)


















End Engine.

(** * Instances

    The statements above at concrete drawings, on the engine
    [digits_to_number], [integer_to_digits]. *)

Module Instances.

#[local] Abbreviation E := digits_to_number.
#[local] Abbreviation P := integer_to_digits.

(** Releasing the pointer over the stroke commits it and empties the
    undone list, which held the rectangle. *)
Lemma commit_clears_undone_witness :
  undoneShapes (stroke_in_progress E P) = [Some 0] /\
  commits (stroke_in_progress E P) MouseUp = true /\
  undoneShapes (fst (step E P (stroke_in_progress E P) MouseUp)) = [] /\
  redo E P (fst (step E P (stroke_in_progress E P) MouseUp))
  = (fst (step E P (stroke_in_progress E P) MouseUp), Normal).
Proof.
  split; [reflexivity|]. split; [reflexivity|].
  apply (commit_clears_undone E P (stroke_in_progress E P) MouseUp). reflexivity.
Defined.

(** One undo and one redo on a drawing of one committed shape; undo and
    redo on the empty drawing. *)
Lemma undo_redo_symmetry_witness :
  shapes (rectangle_and_undone_line E P) = [Some 0] /\
  shapes (times 1 (redo E P) (times 1 (undo E P) (rectangle_and_undone_line E P)))
  = [Some 0] /\
  shapes drawer0 = [] /\
  undoneShapes drawer0 = [] /\
  undo E P drawer0 = (drawer0, Normal) /\
  redo E P drawer0 = (drawer0, Normal).
Proof.
  split; [reflexivity|].
  destruct (undo_redo_symmetry E P (rectangle_and_undone_line E P)) as (Hsym & _).
  split; [exact Hsym|].
  split; [reflexivity|]. split; [reflexivity|].
  destruct (undo_redo_symmetry E P drawer0) as (_ & _ & Hundo & Hredo).
  split; [apply Hundo|apply Hredo]; reflexivity.
Defined.

(** The undone line keeps its black colour when the colour picker changes
    the colour of the drawer. *)
Lemma committed_shapes_keep_their_settings_witness :
  let sh := Line (VObj [("x", VNum (Fin 0)); ("y", VNum (Fin 0))])
                 (VObj [("color", VStr "#000000"); ("filled", VBool false);
                        ("width", VNum (Fin 10)); ("font", VStr "36pt sans-serif")])
                 (VNum (Fin 30)) (VNum (Fin 30)) in
  undoneShapes (rectangle_and_undone_line E P) = [Some 1] /\
  objects (rectangle_and_undone_line E P) !! 1 = Some sh /\
  objects (fst (step E P (rectangle_and_undone_line E P) (ColorChange "#ff0000"))) !! 1
  = Some sh /\
  render E P (settings (fst (step E P (rectangle_and_undone_line E P) (ColorChange "#ff0000")))) sh
  = render E P (settings (rectangle_and_undone_line E P)) sh.
Proof.
  intros sh.
  assert (reachable E P (rectangle_and_undone_line E P)) as Hreach.
  { apply reachable_run_events; [apply reachable_start|].
    repeat constructor. }
  destruct (committed_shapes_keep_their_settings E P (rectangle_and_undone_line E P) 1 sh
              Hreach) as (Hobj & _ & Hrender & _).
  - vm_compute. tauto.
  - reflexivity.
  - split; [reflexivity|]. split; [reflexivity|].
    split; [apply Hobj; exact I|apply Hrender].
Defined.



(** C8 as it is stated fails: the grinning face is a single printable
    character, its key has the length 2, and a text that is given it stays
    as it is. *)
Lemma a_character_of_two_code_units_is_ignored :
  js_length key_grinning_face = 2 /\
  DrawnText_resize (settings drawer0) (DrawnText VNull VNull [VStr "H"])
                   (VStr key_grinning_face)
  = (DrawnText VNull VNull [VStr "H"], Normal) /\
  type_keys (settings drawer0) (DrawnText VNull VNull [])
            ["H"; key_grinning_face; "i"]
  = DrawnText VNull VNull [VStr "H"; VStr "i"].
Proof. split; [reflexivity|]. split; reflexivity. Qed.

(** "Backspace", a letter, the letter n with a tilde and "Shift" on a
    text. *)
Lemma DrawnText_resize_keys_witness :
  let amb := settings drawer0 in
  DrawnText_resize amb (DrawnText VNull VNull [VStr "H"; VStr "i"]) (VStr "Backspace")
  = (DrawnText VNull VNull [VStr "H"], Normal) /\
  DrawnText_resize amb (DrawnText VNull VNull [VStr "H"]) (VStr "i")
  = (DrawnText VNull VNull [VStr "H"; VStr "i"], Normal) /\
  DrawnText_resize amb (DrawnText VNull VNull [VStr "H"]) (VStr key_n_tilde)
  = (DrawnText VNull VNull [VStr "H"; VStr key_n_tilde], Normal) /\
  DrawnText_resize amb (DrawnText VNull VNull [VStr "H"]) (VStr "Shift")
  = (DrawnText VNull VNull [VStr "H"], Normal).
Proof.
  intros amb.
  destruct (DrawnText_resize_keys amb VNull VNull [VStr "H"; VStr "i"] "Backspace")
    as (Hback & _).
  destruct (DrawnText_resize_keys amb VNull VNull [VStr "H"] "i")
    as (_ & _ & Hone & _).
  destruct (DrawnText_resize_keys amb VNull VNull [VStr "H"] key_n_tilde)
    as (_ & _ & Htilde & _).
  destruct (DrawnText_resize_keys amb VNull VNull [VStr "H"] "Shift")
    as (_ & _ & _ & Hother & _).
  split; [apply Hback; reflexivity|].
  split; [apply Hone; reflexivity|].
  split; [apply Htilde; reflexivity|].
  apply Hother; [discriminate|discriminate].
Defined.

(** The first click on the text tool, with nothing in progress. *)
Lemma text_tool_click_pushes_selected_witness :
  selectedElement drawer0 = None /\
  shapes (fst (shape_click drawer0 li_text)) = [None] /\
  shapes (fst (undo E P (fst (shape_click drawer0 li_text)))) = [] /\
  undoneShapes (fst (undo E P (fst (shape_click drawer0 li_text)))) = [None].
Proof.
  split; [reflexivity|].
  destruct (text_tool_click_pushes_selected E P drawer0) as (_ & _ & _ & _ & H).
  destruct (H eq_refl) as (H1 & H2 & H3 & _).
  split; [exact H1|]. split; [exact H2|exact H3].
Defined.

(** An oval that is given an array and a string. *)
Lemma resize_checks_no_argument_witness :
  let sh := Oval (VObj [("x", VNum (Fin 1)); ("y", VNum (Fin 2))]) VNull
                 (VNum (Fin 0)) (VNum (Fin 0)) (VNum (Fin 1)) (VNum (Fin 2)) in
  snd (resize E P (settings drawer0) sh (VArr [VBool true]) (VStr "Enter")) = Normal.
Proof.
  intros sh.
  apply (resize_checks_no_argument E P (settings drawer0) sh (VArr [VBool true])
           (VStr "Enter")).
  - discriminate.
  - discriminate.
  - intros v' H. injection H as <-. reflexivity.
  - intros v' H. injection H as <-. reflexivity.
  - reflexivity.
  - reflexivity.
  - intros p s chars H. discriminate H.
Defined.

(** C9 as it is stated fails: a text that is given coordinates returns
    normally, as it was, and so does a rectangle that is given a key name. *)
Lemma resize_with_wrong_arguments_returns :
  let pos := VObj [("x", VNum (Fin 5)); ("y", VNum (Fin 5))] in
  resize E P (settings drawer0) (DrawnText pos VNull [VStr "H"])
         (VNum (Fin 3)) (VNum (Fin 4))
  = (DrawnText pos VNull [VStr "H"], Normal) /\
  snd (resize E P (settings drawer0)
              (Rectangle pos VNull (VNum (Fin 0)) (VNum (Fin 0)))
              (VStr "Enter") VUndef)
  = Normal.
Proof. split; reflexivity. Qed.

(** C5 as it is stated fails: a file with the record of a rectangle loads
    the rectangle; with a record before it that says "Line" and has no
    [endPosition], loading throws and the rectangle is not loaded. *)
Lemma malformed_record_ends_load :
  committed (fst (constructShapesFromFile E P drawer0 (VArr [rectangle_record])))
  = [Some (Rectangle (VObj [("x", VNum (Fin 10)); ("y", VNum (Fin 10))])
             (VObj [("color", VStr "#000000"); ("filled", VBool false);
                    ("width", VNum (Fin 10)); ("font", VStr "36pt sans-serif")])
             (VNum (Fin 40)) (VNum (Fin 30)))] /\
  constructShapesFromFile E P drawer0
    (VArr [VObj [("type", VStr "Line")]; rectangle_record])
  = (drawer0, Thrown).
Proof. split; reflexivity. Qed.

(** The record of a rectangle, then one that says "Circle" and has no
    position, then the record of a rectangle: the load throws with the
    first rectangle committed, and the canvas blank as before. *)
Lemma load_skips_unknown_tags_witness :
  ends_load (VObj [("type", VStr "Circle")]) = true /\
  snd (load_records E P (reset drawer0) [rectangle_record]) = Normal /\
  constructShapesFromFile E P drawer0
    (VArr ([rectangle_record] ++ VObj [("type", VStr "Circle")] :: [rectangle_record]))
  = (fst (load_records E P (reset drawer0) [rectangle_record]), Thrown) /\
  shapes (fst (load_records E P (reset drawer0) [rectangle_record])) = [Some 0].
Proof.
  assert (ends_load (VObj [("type", VStr "Circle")]) = true) as Hbad by reflexivity.
  assert (snd (load_records E P (reset drawer0) [rectangle_record]) = Normal)
    as Hpre by reflexivity.
  split; [exact Hbad|]. split; [exact Hpre|].
  destruct (load_skips_unknown_tags E P drawer0 [] [rectangle_record]
              [rectangle_record] (VObj [("type", VStr "Circle")]))
    as (_ & Hload).
  destruct (Hload Hbad Hpre) as (Hthrow & _).
  split; [exact Hthrow|reflexivity].
Defined.

(** The first click on the rectangle, with the pencil selected. *)
Lemma a_change_of_tool_throws_witness :
  snd (shape_click drawer0 li_rectangle) = Thrown /\
  selectedShape (fst (shape_click drawer0 li_rectangle)) = "rectangle" /\
  snd (shape_click drawer0 li_lineList) = Normal.
Proof.
  destruct (a_change_of_tool_throws E P drawer0 li_rectangle (reachable_start E P))
    as (_ & Hother & _).
  destruct (a_change_of_tool_throws E P drawer0 li_lineList (reachable_start E P))
    as (_ & _ & Hsame).
  destruct Hother as (H1 & H2 & _); [discriminate|].
  destruct Hsame as (H3 & _); [reflexivity|].
  split; [exact H1|]. split; [exact H2|exact H3].
Defined.

(** A stroke and an undo leave the pencil, the settings and the toggle. *)
Lemma only_the_navigation_bar_changes_the_controls_witness :
  controls (run_events E P drawer0 [MouseDown 1 1; MouseMove 5 5; MouseUp; UndoClick])
  = controls drawer0.
Proof.
  apply (only_the_navigation_bar_changes_the_controls E P drawer0
           [MouseDown 1 1; MouseMove 5 5; MouseUp; UndoClick]).
  repeat (constructor; [intros H; exact H|]). constructor.
Defined.

(** With the toggle on, a click on the oval leaves the setting on. *)
Lemma the_fill_setting_follows_the_toggle_witness :
  fill_toggle (fst (step E P drawer0 FillClick)) = true /\
  filled (settings (fst (step E P drawer0 FillClick))) = true /\
  filled (settings (fst (shape_click (fst (step E P drawer0 FillClick)) li_oval))) = true.
Proof.
  destruct (the_fill_setting_follows_the_toggle E P (fst (step E P drawer0 FillClick))
              li_oval (reachable_step E P drawer0 FillClick (reachable_start E P) I))
    as (Hon & Hclick & _).
  split; [reflexivity|]. split; [apply Hon; reflexivity|].
  apply Hclick. discriminate.
Defined.

(** A rectangle drawn by hand. *)
Lemma the_eraser_is_out_of_reach_witness :
  selectedShape (run_events E P drawer0
                   [ShapeClick li_rectangle; MouseDown 10 10; MouseMove 50 40; MouseUp])
  <> "eraseList" /\
  Forall (fun sh => constructor_name sh <> "EraseList")
    (objects (run_events E P drawer0
                [ShapeClick li_rectangle; MouseDown 10 10; MouseMove 50 40; MouseUp])).
Proof.
  destruct (the_eraser_is_out_of_reach E P
              [ShapeClick li_rectangle; MouseDown 10 10; MouseMove 50 40; MouseUp])
    as (_ & Htool & Hobjects).
  - repeat (constructor; [reflexivity|]). constructor.
  - split; [exact Htool|exact Hobjects].
Defined.

(** After the first click on the text tool the committed list holds
    [null], and saving throws. *)
Lemma saving_throws_exactly_on_a_null_entry_witness :
  shapes (fst (step E P drawer0 (ShapeClick li_text))) = [None] /\
  createJsonBlob (fst (step E P drawer0 (ShapeClick li_text))) = Throw.
Proof.
  destruct (saving_throws_exactly_on_a_null_entry E P
              (fst (step E P drawer0 (ShapeClick li_text)))
              (reachable_step E P drawer0 (ShapeClick li_text) (reachable_start E P) I))
    as (Hthrow & _).
  split; [reflexivity|]. apply Hthrow. left. reflexivity.
Defined.

(** A rectangle drawn by hand can be saved. *)
Lemma a_drawing_without_the_text_tool_can_be_saved_witness :
  snd (step E P (run_events E P drawer0
                   [ShapeClick li_rectangle; MouseDown 10 10; MouseMove 50 40; MouseUp])
         SaveClick) = Normal.
Proof.
  destruct (a_drawing_without_the_text_tool_can_be_saved E P
              [ShapeClick li_rectangle; MouseDown 10 10; MouseMove 50 40; MouseUp])
    as (_ & _ & _ & Hsave).
  - repeat (constructor; [reflexivity|]). constructor.
  - exact Hsave.
Defined.

(** A rectangle at (10, 10) that follows the pointer over (20, 20) to
    (50, 40). *)
Lemma resize_keeps_the_last_point_only_witness :
  after_moves E P (settings drawer0)
    (Rectangle (VObj [("x", VNum (Fin 10)); ("y", VNum (Fin 10))]) VNull
               (VNum (Fin 0)) (VNum (Fin 0)))
    ([(20, 20)%Q] ++ [(50, 40)%Q])
  = after_moves E P (settings drawer0)
      (Rectangle (VObj [("x", VNum (Fin 10)); ("y", VNum (Fin 10))]) VNull
                 (VNum (Fin 0)) (VNum (Fin 0)))
      [(50, 40)%Q].
Proof.
  apply (resize_keeps_the_last_point_only E P (settings drawer0)
           (Rectangle (VObj [("x", VNum (Fin 10)); ("y", VNum (Fin 10))]) VNull
                      (VNum (Fin 0)) (VNum (Fin 0)))
           VNull VNull VNull VNull [(20, 20)%Q] 50 40).
  - reflexivity.
  - intros v' H. injection H as <-. reflexivity.
  - intros v' H. injection H as <-. reflexivity.
  - reflexivity.
  - reflexivity.
Defined.

(** A press and a release of the pencil without a move. *)
Lemma a_press_and_release_commit_one_shape_witness :
  shapes (run_events E P drawer0 (drag 3 4 [])) = [Some 0] /\
  undoneShapes (run_events E P drawer0 (drag 3 4 [])) = [].
Proof.
  destruct (a_press_and_release_commit_one_shape E P drawer0 3 4 [])
    as (sh0 & _ & _ & _ & Hshapes & Hundone & _).
  - right. right. right. right. left. reflexivity.
  - split; [exact Hshapes|exact Hundone].
Defined.

(** A stroke from (0, 0) over (10, 0) to (20, 10). *)
Lemma a_stroke_keeps_every_point_witness :
  objects (run_events E P drawer0 (drag 0 0 [(10, 0)%Q; (20, 10)%Q]))
  = [LineList (VObj [("x", VNum (Fin 0)); ("y", VNum (Fin 0))])
              (currentSettings drawer0)
              [VNum (Fin 10); VNum (Fin 20)] [VNum (Fin 0); VNum (Fin 10)]].
Proof.
  destruct (a_stroke_keeps_every_point E P drawer0 0 0 [(10, 0)%Q; (20, 10)%Q] eq_refl)
    as (Hobjects & _).
  exact Hobjects.
Defined.

(** A rectangle dragged from (50, 40) over (20, 20) to (10, 10): its width
    and its height are negative. *)
Lemma a_dragged_shape_spans_press_and_last_move_witness :
  objects (run_events E P (with_selectedShape drawer0 "rectangle")
             (drag 50 40 ([(20, 20)%Q] ++ [(10, 10)%Q])))
  = [Rectangle (VObj [("x", VNum (Fin 50)); ("y", VNum (Fin 40))])
               (currentSettings drawer0) (VNum (Fin (-40))) (VNum (Fin (-30)))].
Proof.
  destruct (a_dragged_shape_spans_press_and_last_move E P
              (with_selectedShape drawer0 "rectangle") 50 40 10 10 [(20, 20)%Q])
    as (_ & Hrect & _).
  - left. reflexivity.
  - by vm_compute.
  - by vm_compute.
  - by vm_compute.
  - by vm_compute.
  - apply Hrect. reflexivity.
Defined.

(** "H", the letter n with a tilde, Ctrl+Z and Enter with the text tool. *)
Lemma a_typed_text_holds_the_keys_witness :
  objects (run_events E P (with_selectedShape drawer0 "text")
             (MouseDown 5 5
                :: presses [("H", false, false); (key_n_tilde, false, false);
                            ("z", true, false)]
                ++ [KeyPress "Enter" false false]))
  = [DrawnText (VObj [("x", VNum (Fin 5)); ("y", VNum (Fin 5))])
               (currentSettings drawer0) [VStr "H"; VStr key_n_tilde; VStr "z"]].
Proof.
  destruct (a_typed_text_holds_the_keys E P (with_selectedShape drawer0 "text") 5 5
              [("H", false, false); (key_n_tilde, false, false); ("z", true, false)]
              false false eq_refl eq_refl)
    as (_ & Hchars & _).
  - repeat (constructor; [discriminate|]). constructor.
  - apply Hchars. repeat (constructor; [reflexivity|]). constructor.
Defined.

(** A text "H" in progress, and a click on the rectangle. *)
Lemma another_tool_drops_what_is_in_progress_witness :
  selectedElement (text_in_progress E P) = Some 0 /\
  selectedElement (fst (shape_click (text_in_progress E P) li_rectangle)) = None /\
  shapes (fst (shape_click (text_in_progress E P) li_rectangle))
  = shapes (text_in_progress E P).
Proof.
  destruct (another_tool_drops_what_is_in_progress E P (text_in_progress E P)
              li_rectangle 0 [])
    as (Hsel & Hshapes & _).
  - reflexivity.
  - discriminate.
  - vm_compute. discriminate.
  - vm_compute. intros H. exact H.
  - split; [reflexivity|]. split; [exact Hsel|exact Hshapes].
Defined.

(** A text "H" in progress, a click on the text tool, "i" and Enter. *)
Lemma the_text_tool_commits_a_text_and_keeps_typing_witness :
  shapes (text_in_progress E P) = [] /\
  shapes (run_events E P
            (run_events E P (fst (shape_click (text_in_progress E P) li_text))
               [KeyPress "i" false false])
            [KeyPress "Enter" false false])
  = shapes (text_in_progress E P) ++ [Some 0; Some 0] /\
  objects (run_events E P (fst (shape_click (text_in_progress E P) li_text))
             [KeyPress "i" false false]) !! 0
  = Some (DrawnText (VObj [("x", VNum (Fin 5)); ("y", VNum (Fin 5))])
                    (currentSettings drawer0) ([VStr "H"] ++ [VStr "i"])).
Proof.
  destruct (the_text_tool_commits_a_text_and_keeps_typing E P (text_in_progress E P) 0
              (VObj [("x", VNum (Fin 5)); ("y", VNum (Fin 5))])
              (currentSettings drawer0) [VStr "H"] "i" false false false false)
    as (_ & _ & _ & _ & Hobject & Hshapes & _).
  - vm_compute. reflexivity.
  - vm_compute. reflexivity.
  - vm_compute. reflexivity.
  - reflexivity.
  - split; [vm_compute; reflexivity|]. split; [exact Hshapes|exact Hobject].
Defined.

(** A record whose characters are "a", "Backspace", the letter n with a
    tilde and "b". *)
Lemma loading_a_text_replays_its_characters_as_keys_witness :
  committed
    (fst (createShapeFromJson E P drawer0
            (VObj [("position", VNull); ("settings", VNull);
                   ("chars", VArr [VStr "a"; VStr "Backspace"; VStr key_n_tilde;
                                   VStr "b"]);
                   ("type", VStr "DrawnText")])))
  = [Some (DrawnText VNull VNull [VStr key_n_tilde; VStr "b"])].
Proof.
  destruct (loading_a_text_replays_its_characters_as_keys E P drawer0
              (VObj [("position", VNull); ("settings", VNull);
                     ("chars", VArr [VStr "a"; VStr "Backspace"; VStr key_n_tilde;
                                     VStr "b"]);
                     ("type", VStr "DrawnText")])
              VNull VNull ["a"; "Backspace"; key_n_tilde; "b"]
              eq_refl eq_refl eq_refl eq_refl)
    as (Hload & _).
  rewrite Hload. reflexivity.
Defined.

(** A record of a stroke with three abscissas and two ordinates. *)
Lemma loading_a_stroke_replays_xList_witness :
  committed
    (fst (createShapeFromJson E P drawer0
            (VObj [("position", VNull); ("settings", VNull);
                   ("xList", VArr [VNum (Fin 1); VNum (Fin 2); VNum (Fin 3)]);
                   ("yList", VArr [VNum (Fin 4); VNum (Fin 5)]);
                   ("type", VStr "LineList")])))
  = [Some (LineList VNull VNull [VNum (Fin 1); VNum (Fin 2); VNum (Fin 3)]
                    [VNum (Fin 4); VNum (Fin 5); VUndef])].
Proof.
  destruct (loading_a_stroke_replays_xList E P drawer0
              (VObj [("position", VNull); ("settings", VNull);
                     ("xList", VArr [VNum (Fin 1); VNum (Fin 2); VNum (Fin 3)]);
                     ("yList", VArr [VNum (Fin 4); VNum (Fin 5)]);
                     ("type", VStr "LineList")])
              VNull VNull false
              [VNum (Fin 1); VNum (Fin 2); VNum (Fin 3)] [VNum (Fin 4); VNum (Fin 5)]
              eq_refl eq_refl eq_refl eq_refl eq_refl)
    as (_ & Hpad & _).
  rewrite Hpad; [reflexivity|]. simpl. lia.
Defined.


(** An oval dragged to the left and down, and the release. *)
Lemma drawing_by_hand_does_not_throw_witness :
  snd (step E P (run_events E P drawer0
                   [ShapeClick li_oval; MouseDown 10 10; MouseMove 5 40]) MouseUp)
  = Normal /\
  snd (redraw E P (run_events E P drawer0
                     [ShapeClick li_oval; MouseDown 10 10; MouseMove 5 40]))
  = Normal.
Proof.
  destruct (drawing_by_hand_does_not_throw E P
              [ShapeClick li_oval; MouseDown 10 10; MouseMove 5 40] MouseUp)
    as (Hstep & Hredraw & _).
  - repeat (constructor; [reflexivity|]). constructor.
  - reflexivity.
  - reflexivity.
  - split; [exact Hstep|exact Hredraw].
Defined.

(** The first click on the text tool. *)
Lemma choosing_the_text_tool_breaks_saving_witness :
  selectedElement drawer0 = None /\
  createJsonBlob (fst (shape_click drawer0 li_text)) = Throw /\
  shapes (fst (undo E P (fst (shape_click drawer0 li_text)))) = shapes drawer0.
Proof.
  destruct (choosing_the_text_tool_breaks_saving E P drawer0 (reachable_start E P)
              eq_refl)
    as (_ & Hthrow & _ & Hundo & _).
  split; [reflexivity|]. split; [exact Hthrow|exact Hundo].
Defined.

(** The file of a rectangle drawn by hand. *)
Lemma saving_writes_a_record_for_every_entry_witness :
  createJsonBlob (rectangle_and_undone_line E P) = Ok (VArr [rectangle_record]) /\
  exists recs : list jsval,
    VArr [rectangle_record] = VArr recs /\
    length recs = length (shapes (rectangle_and_undone_line E P)).
Proof.
  split; [vm_compute; reflexivity|].
  destruct (saving_writes_a_record_for_every_entry (rectangle_and_undone_line E P)
              (VArr [rectangle_record]))
    as (recs & Hfile & Hlength & _).
  - vm_compute. reflexivity.
  - exists recs. split; [exact Hfile|exact Hlength].
Defined.

(** A wider line confirmed, and a press on the canvas. *)
Lemma the_sizes_of_the_drawer_come_from_the_dialog_witness :
  width (settings (fst (run_page E P (drawer0, dialog0)
                          [inr WidthIncrease; inr SizeKeep; inl (MouseDown 1 1)])))
  = of_nat 5 /\
  exists w f : nat,
    1 <= w <= 70 /\ 6 <= f <= 70 /\
    width (settings (fst (run_page E P (drawer0, dialog0)
                            [inr WidthIncrease; inr SizeKeep; inl (MouseDown 1 1)])))
    = of_nat w /\
    font (settings (fst (run_page E P (drawer0, dialog0)
                           [inr WidthIncrease; inr SizeKeep; inl (MouseDown 1 1)])))
    = index_key f +:+ "pt sans-serif".
Proof.
  split; [vm_compute; reflexivity|].
  destruct (the_sizes_of_the_drawer_come_from_the_dialog E P
              [inr WidthIncrease; inr SizeKeep; inl (MouseDown 1 1)])
    as (Hrange & _).
  - repeat (constructor; [exact I|]). constructor.
  - exact Hrange.
Defined.

(** Two clicks on the signs and an abort, from the dialog as it is
    written. *)
Lemma an_abort_gives_back_what_was_confirmed_witness :
  width_cell (run_dialog dialog0 [WidthIncrease; FontDecrease]) = "5" /\
  font_cell (run_dialog dialog0 [WidthIncrease; FontDecrease]) = "8pt" /\
  size_abort (run_dialog dialog0 [WidthIncrease; FontDecrease]) = dialog0.
Proof.
  destruct (an_abort_gives_back_what_was_confirmed dialog0 [WidthIncrease; FontDecrease])
    as (_ & Hstart & _).
  - repeat (constructor; [reflexivity|]). constructor.
  - split; [vm_compute; reflexivity|]. split; [vm_compute; reflexivity|exact Hstart].
Defined.



End Instances.
